(** * gitlab-registry-cleanup-hook: a shallow embedding and its properties

    The development follows [gitlab-registry-cleanup-hook.py]: Python
    strings, the two [re.sub] calls that build [CI_COMMIT_REF_SLUG], the
    [%] formatting of the image templates, the configuration lookup, and the
    three request functions [validate], [cleanup] and [delete_image] over an
    explicit model of the GitLab and registry clients. *)

From Stdlib Require Import List Bool Arith NArith ZArith Lia.
From Stdlib Require Import Ascii String DecimalString.
Import ListNotations.

Set Implicit Arguments.
Set Warnings "-register-all".

(** ** Python strings

    A Python [str] is a sequence of Unicode code points, so slicing and
    regular expressions count code points, not bytes. *)

Module PyStr.

Definition char := N.
Definition str := list char.

(** An ASCII literal of the source. *)
Definition lit (s : string) : str :=
  List.map N_of_ascii (list_ascii_of_string s).

Fixpoint str_eqb (a b : str) : bool :=
  match a, b with
  | [], [] => true
  | x :: a', y :: b' => N.eqb x y && str_eqb a' b'
  | _, _ => false
  end.

Definition opt_str_eqb (a b : option str) : bool :=
  match a, b with
  | None, None => true
  | Some x, Some y => str_eqb x y
  | _, _ => false
  end.

Fixpoint is_prefix (p s : str) : bool :=
  match p, s with
  | [], _ => true
  | x :: p', y :: s' => N.eqb x y && is_prefix p' s'
  | _ :: _, [] => false
  end.

(** [p in s] for two strings: substring test. *)
Fixpoint is_infix (p s : str) : bool :=
  is_prefix p s ||
  match s with
  | [] => false
  | _ :: s' => is_infix p s'
  end.

Definition in_range (lo hi c : char) : bool := N.leb lo c && N.leb c hi.

Definition is_upper (c : char) : bool := in_range 65%N 90%N c.
Definition is_lower (c : char) : bool := in_range 97%N 122%N c.
Definition is_digit (c : char) : bool := in_range 48%N 57%N c.
Definition is_hyphen (c : char) : bool := N.eqb c 45%N.
Definition is_ascii (c : char) : bool := N.ltb c 128%N.

Definition ascii_lower (c : char) : char :=
  if is_upper c then (c + 32)%N else c.

(** [s.lower()].  On a string of ASCII code points it maps [A-Z] to [a-z];
    on any other string the result comes from the Unicode case tables of
    the interpreter, which are taken as the parameter [unicode_lower]. *)
Definition lower (unicode_lower : str -> str) (s : str) : str :=
  if forallb is_ascii s then List.map ascii_lower s else unicode_lower s.

(** [s.split(sep)] for a one-character separator: [go] carries the piece
    being read, reversed. *)
Fixpoint split_go (sep : char) (cur : str) (s : str) : list str :=
  match s with
  | [] => [rev cur]
  | c :: s' =>
      if N.eqb c sep then rev cur :: split_go sep [] s'
      else split_go sep (c :: cur) s'
  end.

Definition split (sep : char) (s : str) : list str := split_go sep [] s.

(** The code points at which [str.splitlines] ends a line. *)
Definition is_linebreak (c : char) : bool :=
  existsb (N.eqb c) [10; 11; 12; 13; 28; 29; 30; 133; 8232; 8233]%N.

(** [s.splitlines()[0]]: the first line, [None] when there is none
    (the empty string has no lines and the index raises). *)
Fixpoint until_linebreak (s : str) : str :=
  match s with
  | [] => []
  | c :: s' => if is_linebreak c then [] else c :: until_linebreak s'
  end.

Definition first_line (s : str) : option str :=
  match s with
  | [] => None
  | _ => Some (until_linebreak s)
  end.

End PyStr.
Import PyStr.

(** ** The fragment of [re] used by the source

    Both patterns are sequences of anchors, one-character classes, greedy
    [*] and [+] over a class, and one capturing group.  The matcher is the
    backtracking one of [re]: a greedy repetition first tries to take one
    more character and gives it back when the rest of the pattern fails. *)

Module Re.

Definition cls := char -> bool.

Inductive item :=
| Bol                 (* ^ *)
| Eol                 (* $ *)
| One (p : cls)       (* [..] *)
| Star (p : cls)      (* [..]* *)
| Plus (p : cls)      (* [..]+ *)
| GOpen               (* ( *)
| GClose.             (* ) *)

Definition pattern := list item.

(** [$] without MULTILINE: at the end, or before a final newline. *)
Definition at_eol (s : str) : bool :=
  match s with
  | [] => true
  | [c] => N.eqb c 10%N
  | _ => false
  end.

(** The text of group 1 is collected, reversed, while [rec] is set. *)
Definition push (rec : bool) (c : char) (acc : str) : str :=
  if rec then c :: acc else acc.

(** A successful match: the text of group 1 and the unread input. *)
Definition found := (str * str)%type.

(** Greedy repetition of [p], then the continuation [k]. [bos] tells
    whether the position is the start of the string. *)
Fixpoint star (p : cls) (rec : bool) (k : bool -> str -> str -> option found)
         (bos : bool) (acc : str) (s : str) : option found :=
  match s with
  | [] => k bos acc s
  | c :: s' =>
      if p c then
        match star p rec k false (push rec c acc) s' with
        | Some r => Some r
        | None => k bos acc s
        end
      else k bos acc s
  end.

Fixpoint run (pat : pattern) (rec : bool) (bos : bool) (acc : str) (s : str)
  : option found :=
  match pat with
  | [] => Some (rev acc, s)
  | Bol :: r => if bos then run r rec bos acc s else None
  | Eol :: r => if at_eol s then run r rec bos acc s else None
  | GOpen :: r => run r true bos [] s
  | GClose :: r => run r false bos acc s
  | One p :: r =>
      match s with
      | c :: s' => if p c then run r rec false (push rec c acc) s' else None
      | [] => None
      end
  | Star p :: r => star p rec (run r rec) bos acc s
  | Plus p :: r =>
      match s with
      | c :: s' =>
          if p c then star p rec (run r rec) false (push rec c acc) s'
          else None
      | [] => None
      end
  end.

(** [pattern.match] at one position of the subject. *)
Definition match_at (pat : pattern) (bos : bool) (s : str) : option found :=
  run pat false bos [] s.

(** [re.sub(pat, repl, s)], scanning left to right; [skip] counts the
    characters of the current match still to be dropped.  A match of
    length 0 is replaced and the scan moves one character on. *)
Fixpoint sub_from (pat : pattern) (repl : str -> str)
         (bos : bool) (skip : nat) (s : str) : str :=
  match s with
  | [] =>
      match skip, match_at pat bos [] with
      | O, Some (g, _) => repl g
      | _, _ => []
      end
  | c :: s' =>
      match skip with
      | S k => sub_from pat repl false k s'
      | O =>
          match match_at pat bos s with
          | Some (g, rest) =>
              match List.length s - List.length rest with
              | O => repl g ++ c :: sub_from pat repl false 0 s'
              | S k => repl g ++ sub_from pat repl false k s'
              end
          | None => c :: sub_from pat repl false 0 s'
          end
      end
  end.

Definition sub (pat : pattern) (repl : str -> str) (s : str) : str :=
  sub_from pat repl true 0 s.

End Re.

(** ** The branch slug *)

Section Slug.

Variable unicode_lower : str -> str.

(** [[a-z0-9-]] and [[a-z0-9]]. *)
Definition slug_char (c : char) : bool :=
  is_lower c || is_digit c || is_hyphen c.
Definition alnum (c : char) : bool := is_lower c || is_digit c.

(** ['[^a-z0-9-]+'] *)
Definition re_unsafe : Re.pattern := [Re.Plus (fun c => negb (slug_char c))].

(** ['^-*([a-z0-9-]+[a-z0-9])-*$'] *)
Definition re_trim : Re.pattern :=
  [Re.Bol; Re.Star is_hyphen; Re.GOpen; Re.Plus slug_char; Re.One alnum;
   Re.GClose; Re.Star is_hyphen; Re.Eol].

(** Lines 123 to 126 of the source. *)
Definition slugify (source_branch : str) : str :=
  let s := lower unicode_lower source_branch in
  let s := firstn 63 s in
  let s := Re.sub re_unsafe (fun _ => lit "-") s in
  let s := Re.sub re_trim (fun g => g) s in
  s.

End Slug.

(** ** Python values, exceptions and results *)

(** The values [json] produces and consumes.  JSON numbers with a fraction
    are left out: no branch of the source tells them from an integer that
    is not a string. *)
Inductive pyval :=
| PNone
| PBool (b : bool)
| PInt (z : Z)
| PStr (s : str)
| PList (l : list pyval)
| PDict (kv : list (str * pyval)).

Inductive exn :=
| KeyError (key : str)
| TypeError
| AttributeError
| ValueError
| IndexError
| OSError
| HTTPError (detail : str)        (* requests.exceptions.HTTPError *)
| ConnectionError (detail : str)  (* requests.exceptions.ConnectionError *)
| GitlabGetError (detail : str)   (* gitlab.exceptions.GitlabGetError *)
| OtherError (detail : str).      (* any other exception, e.g. bottle's *)

(** What evaluating an expression gives.  [Unmodelled] marks an input on
    which the embedded fragment of Python says nothing (a format directive
    other than [%(key)s] and [%%], [str] of a list or dict). *)
Inductive result (A : Type) :=
| Ok (a : A)
| Raise (e : exn)
| Unmodelled.
Arguments Ok {A} a.
Arguments Raise {A} e.
Arguments Unmodelled {A}.

Definition rbind {A B} (r : result A) (f : A -> result B) : result B :=
  match r with
  | Ok a => f a
  | Raise e => Raise e
  | Unmodelled => Unmodelled
  end.

Module Py.

Fixpoint dict_get (kv : list (str * pyval)) (k : str) : option pyval :=
  match kv with
  | [] => None
  | (k', v) :: kv' => if str_eqb k' k then Some v else dict_get kv' k
  end.

(** [v == s] for a string [s]. *)
Definition eq_str (v : pyval) (s : str) : bool :=
  match v with
  | PStr t => str_eqb t s
  | _ => false
  end.

(** [k in v] for a string [k]. *)
Definition contains (v : pyval) (k : str) : result bool :=
  match v with
  | PDict kv => Ok (match dict_get kv k with Some _ => true | None => false end)
  | PList l => Ok (existsb (fun x => eq_str x k) l)
  | PStr s => Ok (is_infix k s)
  | PNone | PBool _ | PInt _ => Raise TypeError
  end.

(** [v[k]] for a string [k]. *)
Definition getitem (v : pyval) (k : str) : result pyval :=
  match v with
  | PDict kv =>
      match dict_get kv k with
      | Some x => Ok x
      | None => Raise (KeyError k)
      end
  | _ => Raise TypeError
  end.

(** Truth value, as [if v] and [not v] take it. *)
Definition truthy (v : pyval) : bool :=
  match v with
  | PNone => false
  | PBool b => b
  | PInt z => negb (Z.eqb z 0)
  | PStr s => negb (str_eqb s [])
  | PList l => match l with [] => false | _ => true end
  | PDict kv => match kv with [] => false | _ => true end
  end.

(** The elements [for x in v] runs over. *)
Definition iter (v : pyval) : result (list pyval) :=
  match v with
  | PList l => Ok l
  | PStr s => Ok (List.map (fun c => PStr [c]) s)
  | PDict kv => Ok (List.map (fun p => PStr (fst p)) kv)
  | PNone | PBool _ | PInt _ => Raise TypeError
  end.

(** [str(v)], where the fragment defines it. *)
Definition to_str (v : pyval) : option str :=
  match v with
  | PStr s => Some s
  | PInt z => Some (lit (NilZero.string_of_int (Z.to_int z)))
  | PNone => Some (lit "None")
  | PBool true => Some (lit "True")
  | PBool false => Some (lit "False")
  | PList _ | PDict _ => None
  end.

(** [template % attrs] for a dict [attrs].  The scanner is the one of the
    interpreter: after [%(] the key runs to the matching parenthesis and
    is looked up at once, then the conversion is read. *)
Inductive fstate :=
| FText
| FPercent
| FKey (depth : nat) (key : str)
| FConv (key : str).

Fixpoint format_go (attrs : list (str * pyval)) (st : fstate) (out : str)
         (s : str) : result str :=
  match s with
  | [] =>
      match st with
      | FText => Ok (rev out)
      | FConv key =>
          match dict_get attrs key with
          | None => Raise (KeyError key)
          | Some _ => Raise ValueError
          end
      | FPercent | FKey _ _ => Raise ValueError
      end
  | c :: s' =>
      match st with
      | FText =>
          if N.eqb c 37 then format_go attrs FPercent out s'
          else format_go attrs FText (c :: out) s'
      | FPercent =>
          if N.eqb c 37 then format_go attrs FText (c :: out) s'
          else if N.eqb c 40 then format_go attrs (FKey 0 []) out s'
          else Unmodelled
      | FKey depth key =>
          if N.eqb c 41 then
            match depth with
            | O => format_go attrs (FConv (rev key)) out s'
            | S d => format_go attrs (FKey d (c :: key)) out s'
            end
          else if N.eqb c 40 then format_go attrs (FKey (S depth) (c :: key)) out s'
          else format_go attrs (FKey depth (c :: key)) out s'
      | FConv key =>
          match dict_get attrs key with
          | None => Raise (KeyError key)
          | Some v =>
              if N.eqb c 115 then
                match to_str v with
                | Some t => format_go attrs FText (rev t ++ out) s'
                | None => Unmodelled
                end
              else Unmodelled
          end
      end
  end.

Definition format (template : str) (attrs : list (str * pyval)) : result str :=
  format_go attrs FText [] template.

End Py.

(** ** Configuration *)

Module Config.

(** [os.environ], and what [open(path, 'r').read()] gives: the text of
    the file, or the exception that opening or reading it raises
    ([OSError] for a file that is missing or not readable, [ValueError]
    for one that cannot be decoded). *)
Definition environ := str -> option str.
Definition files := str -> result str.

Definition get_secret (env : environ) (fs : files) (name : str)
  : result (option str) :=
  match env (name ++ lit "_FILE") with
  | Some secret_file =>
      rbind (fs secret_file) (fun text =>
        match first_line text with
        | Some secret => Ok (Some secret)
        | None => Raise IndexError
        end)
  | None => Ok (env name)
  end.

Definition get (env : environ) (fs : files) (name : str)
           (default : option str) : result (option str) :=
  if str_eqb name (lit "GITLAB_TOKEN") then get_secret env fs name
  else if str_eqb name (lit "HOOK_TOKEN") then get_secret env fs name
  else Ok (match env name with Some v => Some v | None => default end).

End Config.

(** ** The clients and the calls made on them

    [gl] (python-gitlab) and [client] (gricleaner) are outside the
    repository.  A call is answered from the calls made before it, which
    is all a deterministic service can depend on; every call is recorded. *)

Inductive call :=
| ProjectsGet (project_id : pyval)              (* gl.projects.get *)
| CustomAttributesGet (name : str)              (* project.customattributes.get *)
| GetTags (image : str)                         (* client.get_tags *)
| GetDigest (image : str) (tag : pyval)         (* client.get_digest *)
| DeleteImage (image : str) (tag : pyval).      (* client.delete_image *)

Definition trace := list call.

(** The part of a project object the source reads. *)
Record project := { attributes : pyval }.

Record world := {
  gl_projects_get : trace -> pyval -> result project;
  customattributes_get : trace -> project -> str -> result str;
  client_get_tags : trace -> str -> result pyval;
  client_get_digest : trace -> str -> pyval -> result (option str);
  client_delete_image : trace -> str -> pyval -> result bool
}.

(** Computations that call the clients and may raise. *)
Definition M (A : Type) := trace -> result A * trace.

Definition ret {A} (a : A) : M A := fun tr => (Ok a, tr).

Definition bind {A B} (m : M A) (f : A -> M B) : M B :=
  fun tr =>
    match m tr with
    | (Ok a, tr') => f a tr'
    | (Raise e, tr') => (Raise e, tr')
    | (Unmodelled, tr') => (Unmodelled, tr')
    end.

Definition lift {A} (r : result A) : M A := fun tr => (r, tr).

Definition invoke {A} (c : call) (answer : trace -> result A) : M A :=
  fun tr => (answer tr, tr ++ [c]).

(** [try: m except <handled>: ...]: [handler] gives the except clause for
    the exceptions it catches. *)
Definition try_except {A} (m : M A) (handler : exn -> option (M A)) : M A :=
  fun tr =>
    match m tr with
    | (Raise e, tr') =>
        match handler e with
        | Some h => h tr'
        | None => (Raise e, tr')
        end
    | other => other
    end.

Declare Scope py_scope.
Delimit Scope py_scope with py.
Notation "x <- c1 ;; c2" := (bind c1 (fun x => c2))
  (at level 61, c1 at next level, right associativity) : py_scope.
Notation "' pat <- c1 ;; c2" := (bind c1 (fun x => match x with pat => c2 end))
  (at level 61, pat pattern, c1 at next level, right associativity) : py_scope.
Open Scope py_scope.

(** ** Responses *)

(** The body is [''] or [json.dumps] of a value; the value is kept. *)
Inductive payload :=
| Empty
| Json (v : pyval).

Record HTTPResponse := { body : payload; status : Z }.

Definition JsonResponse (v : pyval) (st : Z) : HTTPResponse :=
  {| body := Json v; status := st |}.

Definition NoContentResponse : HTTPResponse :=
  {| body := Empty; status := 204 |}.

(** What [request] gives the handler: [get_header], and the value or
    exception of the [json] property, which bottle computes when read. *)
Record request := {
  get_header : str -> option str;
  json : result pyval
}.

(** The same request with one header set to [value]. *)
Definition with_header (name value : str) (req : request) : request :=
  {| get_header := fun n => if str_eqb n name then Some value else get_header req n;
     json := json req |}.

(** ** The handler *)

Section Hook.

Variable unicode_lower : str -> str.
Variable env : Config.environ.
Variable fs : Config.files.
Variable w : world.

Definition default_template : str := lit "%(project_path)s/%(branch)s".

(** The generator, as the list of what each [next] gives: the code before
    the loop runs first, each image is formatted when the loop reaches
    it. *)
Definition get_image_delete_list (proj : project) (data : pyval)
  : M (list (result str)) :=
  image_template <- lift (Config.get env fs (lit "IMAGE_NAME_TEMPLATE")
                                     (Some default_template)) ;;
  project_attribute <- lift (Config.get env fs (lit "IMAGE_NAME_PROJECT_ATTRIBUTE")
                                        None) ;;
  image_template <-
    match project_attribute with
    | Some ((_ :: _) as name) =>
        try_except
          (value <- invoke (CustomAttributesGet name)
                           (fun tr => customattributes_get w tr proj name) ;;
           ret (Some value))
          (fun e => match e with
                    | GitlabGetError _ => Some (ret image_template)
                    | _ => None
                    end)
    | _ => ret image_template
    end ;;
  oa <- lift (Py.getitem data (lit "object_attributes")) ;;
  source_branch <- lift (Py.getitem oa (lit "source_branch")) ;;
  slug <- lift (match source_branch with
                | PStr b => Ok (slugify unicode_lower b)
                | _ => Raise AttributeError
                end) ;;
  oa <- lift (Py.getitem data (lit "object_attributes")) ;;
  source <- lift (Py.getitem oa (lit "source")) ;;
  project_path <- lift (Py.getitem source (lit "path_with_namespace")) ;;
  let attrs := [(lit "branch", PStr slug); (lit "project_path", project_path)] in
  match image_template with
  | Some template =>
      ret (List.map (fun t => Py.format t attrs) (split 44%N template))
  | None => lift (Raise AttributeError)
  end.

Definition delete_image (image : str) (tag : pyval) : M (str * Z) :=
  digest <- invoke (GetDigest image tag)
                   (fun tr => client_get_digest w tr image tag) ;;
  match digest with
  | None => ret (lit "Image not found", 404%Z)
  | Some _ =>
      deleted <- invoke (DeleteImage image tag)
                        (fun tr => client_delete_image w tr image tag) ;;
      if (deleted : bool) then ret (lit "Image deleted", 200%Z)
      else ret (lit "Image not deleted", 202%Z)
  end.

Definition outcome (image : str) (tag : pyval) (message : str) (code : Z)
  : pyval :=
  PDict [(lit "image", PStr image); (lit "tag", tag);
         (lit "message", PStr message); (lit "code", PInt code)].

Definition tags_not_found : pyval :=
  PDict [(lit "message", PStr (lit "Tags not found"))].

Definition undisclosed : str :=
  lit "Underlying HTTP error. Details not disclosed.".

(** The variables [messages] and [status] of [cleanup]. *)
Definition progress := (list pyval * Z)%type.

(** One turn of [for tag in tags["tags"]]. *)
Definition tag_body (image : str) (tag : pyval) (st : progress) : M progress :=
  let '(messages, status) := st in
  try_except
    ('(message, code) <- delete_image image tag ;;
     ret (messages ++ [outcome image tag message code],
          if Z.eqb code 200 then status else code))
    (fun e => match e with
              | HTTPError _ =>
                  Some (ret (messages ++ [outcome image tag undisclosed 500%Z],
                             500%Z))
              | _ => None
              end).

Fixpoint for_tags (image : str) (tags : list pyval) (st : progress)
  : M progress :=
  match tags with
  | [] => ret st
  | tag :: rest => st' <- tag_body image tag st ;; for_tags image rest st'
  end.

(** A loop turn either goes on or returns from the function. *)
Inductive flow :=
| Next (st : progress)
| Return (r : HTTPResponse).

(** One turn of [for image in get_image_delete_list(project, data)]. *)
Definition image_body (next : result str) (st : progress) : M flow :=
  image <- lift next ;;
  tags <- invoke (GetTags image) (fun tr => client_get_tags w tr image) ;;
  has_tags <- lift (Py.contains tags (lit "tags")) ;;
  if negb has_tags then
    ret (Return (JsonResponse (PList (fst st ++ [tags_not_found])) (snd st)))
  else
    tag_list <- lift (Py.getitem tags (lit "tags")) ;;
    match tag_list with
    | PNone =>
        ret (Return (JsonResponse (PList (fst st ++ [tags_not_found])) (snd st)))
    | _ =>
        elems <- lift (Py.iter tag_list) ;;
        st' <- for_tags image elems st ;;
        ret (Next st')
    end.

Fixpoint for_images (images : list (result str)) (st : progress) : M flow :=
  match images with
  | [] => ret (Next st)
  | next :: rest =>
      fl <- image_body next st ;;
      match fl with
      | Next st' => for_images rest st'
      | Return r => ret (Return r)
      end
  end.

Definition cleanup (proj : project) (data : pyval) : M HTTPResponse :=
  images <- get_image_delete_list proj data ;;
  fl <- for_images images ([], 200%Z) ;;
  match fl with
  | Next (messages, status) => ret (JsonResponse (PList messages) status)
  | Return r => ret r
  end.

Variable hook_token : option str.

Definition event_hooks : list str :=
  [lit "Merge Request Hook"; lit "System Hook"].

Definition validate (req : request) : M HTTPResponse :=
  if negb (opt_str_eqb (get_header req (lit "X-GITLAB-TOKEN")) hook_token)
  then ret NoContentResponse
  else if negb (match get_header req (lit "X-GITLAB-EVENT") with
                | Some e => existsb (str_eqb e) event_hooks
                | None => false
                end)
  then ret NoContentResponse
  else
    data <- lift (json req) ;;
    has_type <- lift (Py.contains data (lit "event_type")) ;;
    if negb has_type then ret NoContentResponse
    else
      event_type <- lift (Py.getitem data (lit "event_type")) ;;
      other <-
        (if negb (Py.eq_str event_type (lit "merge_request")) then ret true
         else
           oa <- lift (Py.getitem data (lit "object_attributes")) ;;
           state <- lift (Py.getitem oa (lit "state")) ;;
           ret (negb (Py.eq_str state (lit "merged")))) ;;
      if (other : bool) then ret NoContentResponse
      else
        oa <- lift (Py.getitem data (lit "object_attributes")) ;;
        source <- lift (Py.getitem oa (lit "source")) ;;
        _ <- lift (Py.getitem source (lit "path_with_namespace")) ;;
        pr <- lift (Py.getitem data (lit "project")) ;;
        project_id <- lift (Py.getitem pr (lit "id")) ;;
        proj <- invoke (ProjectsGet project_id)
                       (fun tr => gl_projects_get w tr project_id) ;;
        enabled <- lift (Py.getitem (attributes proj)
                                    (lit "container_registry_enabled")) ;;
        if negb (Py.truthy enabled) then ret NoContentResponse
        else cleanup proj data.

End Hook.

(** ** Start-up

    [createClient], [gitlabClient] and the main block.  The two client
    classes are outside the repository: what is kept of a client is the
    arguments it is built with. *)

Record registry_client := { auth : str * str; jwt : str; registry : str }.


(** [Exception('Some required env variable missing')] *)
Definition missing_variable : exn :=
  OtherError (lit "Some required env variable missing").

Definition createClient (env : Config.environ) (fs : Config.files)
  : result registry_client :=
  rbind (Config.get env fs (lit "GITLAB_USER") None) (fun user =>
  rbind (Config.get env fs (lit "GITLAB_TOKEN") None) (fun token =>
  rbind (Config.get env fs (lit "GITLAB_JWT_URL") None) (fun jwt_url =>
  rbind (Config.get env fs (lit "GITLAB_REGISTRY") None) (fun registry_url =>
  match user, token, jwt_url, registry_url with
  | Some user, Some token, Some jwt_url, Some registry_url =>
      let registry_url :=
        if negb (is_prefix (lit "http") registry_url)
        then lit "https://" ++ registry_url
        else registry_url in
      Ok {| auth := (user, token); jwt := jwt_url; registry := registry_url |}
  | _, _, _, _ => Raise missing_variable
  end)))).



(** ** Concrete requests, events and clients used in the examples *)

Module Fixture.

Definition env_of (vars : list (str * str)) : Config.environ :=
  fun name =>
    match Py.dict_get (List.map (fun p => (fst p, PStr (snd p))) vars) name with
    | Some (PStr v) => Some v
    | _ => None
    end.

(** No file exists: every [open] raises [FileNotFoundError], an [OSError]. *)
Definition no_files : Config.files := fun _ => Raise OSError.

(** A merge request event as GitLab sends it, cut down to the fields the
    source reads. *)
Definition merge_event (state path branch : str) (project_id : Z) : pyval :=
  PDict [(lit "event_type", PStr (lit "merge_request"));
         (lit "object_attributes",
          PDict [(lit "state", PStr state);
                 (lit "source_branch", PStr branch);
                 (lit "source", PDict [(lit "path_with_namespace", PStr path)])]);
         (lit "project", PDict [(lit "id", PInt project_id)])].

Definition headers (token event : option str) : str -> option str :=
  fun name =>
    if str_eqb name (lit "X-GITLAB-TOKEN") then token
    else if str_eqb name (lit "X-GITLAB-EVENT") then event
    else None.

Definition post (token event : option str) (data : result pyval) : request :=
  {| get_header := headers token event; json := data |}.

Definition registry_project (enabled : bool) : project :=
  {| attributes := PDict [(lit "container_registry_enabled", PBool enabled)] |}.

(** Clients whose answers do not depend on earlier calls. *)
Definition static_world
           (tags : str -> result pyval)
           (digest : str -> pyval -> result (option str))
           (delete : str -> pyval -> result bool) : world :=
  {| gl_projects_get := fun _ _ => Ok (registry_project true);
     customattributes_get := fun _ _ _ => Raise (GitlabGetError (lit "404"));
     client_get_tags := fun _ image => tags image;
     client_get_digest := fun _ image tag => digest image tag;
     client_delete_image := fun _ image tag => delete image tag |}.

Definition tags_of (l : list string) : pyval :=
  PDict [(lit "name", PStr (lit "repo"));
         (lit "tags", PList (List.map (fun t => PStr (lit t)) l))].

Definition v1 : pyval := PStr (lit "v1").
Definition v2 : pyval := PStr (lit "v2").

(** A registry in which [grp/app/a] has the tags [v1] and [v2] and every
    other image answers [{"tags": null}]; [v1] has a digest and can be
    deleted, [v2] has no digest. *)
Definition registry : world :=
  static_world
    (fun image => if str_eqb image (lit "grp/app/a")
                  then Ok (tags_of ["v1"; "v2"]%string)
                  else Ok (PDict [(lit "tags", PNone)]))
    (fun _ tag => if Py.eq_str tag (lit "v1") then Ok (Some (lit "sha256:0"))
                  else Ok None)
    (fun _ _ => Ok true).

(** The same registry, where looking up the digest of [v1] raises an
    HTTP error with the given detail. *)
Definition failing_registry (detail : str) : world :=
  static_world
    (fun image => if str_eqb image (lit "grp/app/a")
                  then Ok (tags_of ["v1"; "v2"]%string)
                  else Ok (PDict [(lit "tags", PNone)]))
    (fun _ tag => if Py.eq_str tag (lit "v1") then Raise (HTTPError detail)
                  else Ok None)
    (fun _ _ => Ok true).

Definition two_templates : Config.environ :=
  env_of [(lit "IMAGE_NAME_TEMPLATE",
           lit "%(project_path)s/a,%(project_path)s/b")].

Definition one_template : Config.environ :=
  env_of [(lit "IMAGE_NAME_TEMPLATE", lit "%(project_path)s/a")].

Definition merged_event : pyval :=
  merge_event (lit "merged") (lit "grp/app") (lit "fix-1") 7.

(** No case mapping is consulted on ASCII input. *)
Definition no_table : str -> str := fun s => s.

Definition image_a : str := lit "grp/app/a".
Definition image_b : str := lit "grp/app/b".

(** A request with the right token whose body is a merge request event
    with nothing but its [event_type]. *)
Definition bare_merge_request : request :=
  post (Some (lit "secret")) (Some (lit "Merge Request Hook"))
       (Ok (PDict [(lit "event_type", PStr (lit "merge_request"))])).

(** A request with the right token whose body has no [event_type]. *)
Definition push_request : request :=
  post (Some (lit "secret")) (Some (lit "System Hook"))
       (Ok (PDict [(lit "event_name", PStr (lit "push"))])).

(** A request with a wrong token whose body does not parse. *)
Definition forged_request : request :=
  post (Some (lit "guess")) (Some (lit "Merge Request Hook"))
       (Raise (OtherError (lit "400 Invalid JSON"))).

(** A merged merge request sent without the token header. *)
Definition anonymous_request : request :=
  post None (Some (lit "Merge Request Hook")) (Ok merged_event).

Definition proj : project := registry_project true.
Definition deleted_v1 : pyval := outcome image_a v1 (lit "Image deleted") 200.
Definition missing_v2 : pyval := outcome image_a v2 (lit "Image not found") 404.
Definition hidden_v1 : pyval := outcome image_a v1 undisclosed 500.

(** A third template that cannot be formatted: reaching it raises. *)
Definition three_templates : Config.environ :=
  env_of [(lit "IMAGE_NAME_TEMPLATE",
           lit "%(project_path)s/a,%(project_path)s/b,%(missing)s")].

(** The calls made for the image [grp/app/a] of [registry]. *)
Definition calls_a : trace :=
  [GetTags image_a; GetDigest image_a v1; DeleteImage image_a v1;
   GetDigest image_a v2].

Definition files_of (files : list (str * str)) : Config.files :=
  fun path =>
    match Py.dict_get (List.map (fun p => (fst p, PStr (snd p))) files) path with
    | Some (PStr text) => Ok text
    | _ => Raise OSError
    end.

(** A complete configuration: the hook token comes from a file of two
    lines, the registry is given without a scheme. *)
Definition full_env : Config.environ :=
  env_of [(lit "GITLAB_USER", lit "cleaner");
          (lit "GITLAB_TOKEN", lit "glpat-1");
          (lit "GITLAB_JWT_URL", lit "https://gitlab.example.com/jwt/auth");
          (lit "GITLAB_REGISTRY", lit "registry.example.com");
          (lit "HOOK_TOKEN", lit "unused");
          (lit "HOOK_TOKEN_FILE", lit "/run/secrets/hook")].

Definition secret_files : Config.files :=
  files_of [(lit "/run/secrets/hook", lit "secret" ++ [10%N] ++ lit "second line")].

(** The same configuration without the JWT URL. *)
Definition env_without_jwt : Config.environ :=
  env_of [(lit "GITLAB_USER", lit "cleaner");
          (lit "GITLAB_TOKEN", lit "glpat-1");
          (lit "GITLAB_REGISTRY", lit "registry.example.com")].

(** A project attribute is configured; the template is configured too. *)
Definition attribute_env : Config.environ :=
  env_of [(lit "IMAGE_NAME_PROJECT_ATTRIBUTE", lit "registry_image");
          (lit "IMAGE_NAME_TEMPLATE", lit "%(project_path)s/a")].

(** [registry] with a project, and an answer to the attribute lookup. *)
Definition registry_with (p : result project) (attribute : result str) : world :=
  {| gl_projects_get := fun _ _ => p;
     customattributes_get := fun _ _ _ => attribute;
     client_get_tags := client_get_tags registry;
     client_get_digest := client_get_digest registry;
     client_delete_image := client_delete_image registry |}.

(** A registry whose tag listing raises an HTTP error, and one in which
    every image has an empty tag list. *)
Definition unreachable_registry : world :=
  static_world (fun _ => Raise (HTTPError (lit "502 Bad Gateway")))
               (fun _ _ => Ok None) (fun _ _ => Ok true).

Definition empty_registry : world :=
  static_world (fun _ => Ok (tags_of [])) (fun _ _ => Ok None) (fun _ _ => Ok true).

(** A merged merge request with the right token, and the same event with
    a number as source branch. *)
Definition merged_request : request :=
  post (Some (lit "secret")) (Some (lit "Merge Request Hook")) (Ok merged_event).

Definition numbered_event : pyval :=
  PDict [(lit "object_attributes", PDict [(lit "source_branch", PInt 42)])].

(** [registry], where looking up the digest of [v1] fails before any HTTP
    answer: the connection is refused. *)
Definition refusing_registry : world :=
  static_world
    (fun image => if str_eqb image (lit "grp/app/a")
                  then Ok (tags_of ["v1"; "v2"]%string)
                  else Ok (PDict [(lit "tags", PNone)]))
    (fun _ tag => if Py.eq_str tag (lit "v1")
                  then Raise (ConnectionError (lit "Connection refused"))
                  else Ok None)
    (fun _ _ => Ok true).

End Fixture.

(** ** What the trimming pattern captures

    On a string over [[a-z0-9-]] the backtracking search of
    ['^-*([a-z0-9-]+[a-z0-9])-*$'] comes to this: give up leading hyphens
    one at a time, from all of them to none, until the rest has an
    alphanumeric character that is not its first character; group 1 then
    runs to the last alphanumeric character.  The functions below are
    proved equal to the matcher, they are not part of the model. *)

Fixpoint upto_last_alnum (s : str) : option str :=
  match s with
  | [] => None
  | c :: s' =>
      match upto_last_alnum s' with
      | Some v => Some (c :: v)
      | None => if alnum c then Some [c] else None
      end
  end.

Definition capture_here (s : str) : option str :=
  match s with
  | [] => None
  | c :: s' => option_map (cons c) (upto_last_alnum s')
  end.

Fixpoint trim_capture (s : str) : option str :=
  match s with
  | [] => None
  | c :: s' =>
      if is_hyphen c then
        match trim_capture s' with
        | Some g => Some g
        | None => capture_here s
        end
      else capture_here s
  end.

(** The shape the specification gives a slug:
    [^[a-z0-9]([a-z0-9-]{0,61}[a-z0-9])?$], or empty. *)
Definition well_formed_slug (s : str) : bool :=
  match s with
  | [] => true
  | c :: _ =>
      alnum c && alnum (last s c) && forallb slug_char s
      && Nat.leb (List.length s) 63
  end.

(** The pattern from its group on, and what [re.sub] with the trimming
    pattern returns on a string over [[a-z0-9-]]. *)
Definition trim_group : Re.pattern :=
  [Re.GOpen; Re.Plus slug_char; Re.One alnum; Re.GClose;
   Re.Star is_hyphen; Re.Eol].

Definition trimmed (z : str) : str :=
  match trim_capture z with
  | Some g => g
  | None => z
  end.

(** [sep.join(pieces)], to say what [split] returns. *)
Fixpoint join (sep : char) (pieces : list str) : str :=
  match pieces with
  | [] => []
  | [p] => p
  | p :: rest => p ++ sep :: join sep rest
  end.

(** ** Vocabulary of the statements *)

(** A request that has passed the two header checks. *)
Definition passes_headers (hook_token : option str) (req : request) : Prop :=
  get_header req (lit "X-GITLAB-TOKEN") = hook_token
  /\ exists e, get_header req (lit "X-GITLAB-EVENT") = Some e
               /\ existsb (str_eqb e) event_hooks = true.

(** The codes of the tag outcomes of a response body, in order; the
    "Tags not found" object has none. *)
Definition code_of (message : pyval) : option Z :=
  match message with
  | PDict kv =>
      match Py.dict_get kv (lit "code") with
      | Some (PInt c) => Some c
      | _ => None
      end
  | _ => None
  end.

Fixpoint codes (messages : list pyval) : list Z :=
  match messages with
  | [] => []
  | m :: rest =>
      match code_of m with
      | Some c => c :: codes rest
      | None => codes rest
      end
  end.

(** The aggregate status as the specification words it: start at 200,
    and let every code that is not 200 overwrite the running value. *)
Definition overwrite (running code : Z) : Z :=
  if Z.eqb code 200 then running else code.

Definition aggregate_status (cs : list Z) : Z := fold_left overwrite cs 200%Z.

(** [messages] and [status] agree: the status is the aggregate of the
    codes collected so far. *)
Definition consistent (st : progress) : Prop :=
  snd st = aggregate_status (codes (fst st)).

(** What a loop turn or the loop hands on agrees with the aggregate. *)
Definition flow_consistent (fl : flow) : Prop :=
  match fl with
  | Next st => consistent st
  | Return r =>
      exists messages,
        r = JsonResponse (PList messages) (aggregate_status (codes messages))
  end.

(** A response without a [tags] field, or whose [tags] is null. *)
Definition no_tags (kv : list (str * pyval)) : Prop :=
  Py.dict_get kv (lit "tags") = None \/ Py.dict_get kv (lit "tags") = Some PNone.

(** What ['[^a-z0-9-]+'] replaced by ['-'] comes to, read off the
    pattern: a character of [[a-z0-9-]] is kept, and of a run of other
    characters only the first leaves a hyphen ([in_run] tells that the
    character before was one of the run). *)
Fixpoint collapse (in_run : bool) (s : str) : str :=
  match s with
  | [] => []
  | c :: s' =>
      if slug_char c then c :: collapse false s'
      else if in_run then collapse true s'
      else 45%N :: collapse true s'
  end.

(** The length of the run of characters satisfying [p] a string starts with. *)
Fixpoint run_length (p : char -> bool) (s : str) : nat :=
  match s with
  | [] => 0
  | c :: s' => if p c then S (run_length p s') else 0
  end.

(** The calls [cleanup] can make, in the order it can make them: a
    deletion only right after the digest of the same image and tag was
    asked for, and never a project lookup. *)
Inductive guarded : trace -> Prop :=
| guarded_nil : guarded []
| guarded_attribute name rest :
    guarded rest -> guarded (CustomAttributesGet name :: rest)
| guarded_tags image rest :
    guarded rest -> guarded (GetTags image :: rest)
| guarded_digest image tag rest :
    guarded rest -> guarded (GetDigest image tag :: rest)
| guarded_delete image tag rest :
    guarded rest ->
    guarded (GetDigest image tag :: DeleteImage image tag :: rest).

(** The codes a tag outcome can carry. *)
Definition outcome_codes : list Z := [200; 202; 404; 500]%Z.

(** The fields of a merged merge request event that [validate] reads
    before it fetches the project with id [project_id]. *)
Definition merged_event_for (data project_id : pyval) : Prop :=
  exists event_type oa state source path pr,
    Py.contains data (lit "event_type") = Ok true
    /\ Py.getitem data (lit "event_type") = Ok event_type
    /\ Py.eq_str event_type (lit "merge_request") = true
    /\ Py.getitem data (lit "object_attributes") = Ok oa
    /\ Py.getitem oa (lit "state") = Ok state
    /\ Py.eq_str state (lit "merged") = true
    /\ Py.getitem oa (lit "source") = Ok source
    /\ Py.getitem source (lit "path_with_namespace") = Ok path
    /\ Py.getitem data (lit "project") = Ok pr
    /\ Py.getitem pr (lit "id") = Ok project_id.

(** The source branch and the project path [get_image_delete_list] reads. *)
Definition branch_and_path (data : pyval) (branch : str) (path : pyval) : Prop :=
  exists oa source,
    Py.getitem data (lit "object_attributes") = Ok oa
    /\ Py.getitem oa (lit "source_branch") = Ok (PStr branch)
    /\ Py.getitem oa (lit "source") = Ok source
    /\ Py.getitem source (lit "path_with_namespace") = Ok path.

(** The images a template gives for a branch and a path. *)
Definition images_of (unicode_lower : str -> str) (template branch : str)
           (path : pyval) : list (result str) :=
  List.map (fun piece =>
              Py.format piece
                        [(lit "branch", PStr (slugify unicode_lower branch));
                         (lit "project_path", path)])
           (split 44%N template).

(** [r] with [p] put in front of what it gives. *)
Definition prepend (p : str) (r : result str) : result str :=
  rbind r (fun x => Ok (p ++ x)).

(** [tr'] is [tr] followed by calls [cleanup] can make. *)
Definition grows_guarded (tr tr' : trace) : Prop :=
  exists ext, tr' = tr ++ ext /\ guarded ext.

(** A computation that only adds such calls, whatever it returns. *)
Definition traced {A} (m : M A) : Prop :=
  forall tr r tr', m tr = (r, tr') -> grows_guarded tr tr'.

(** The status and the codes collected so far are outcome codes. *)
Definition codes_allowed (st : progress) : Prop :=
  In (snd st) outcome_codes
  /\ Forall (fun c => In c outcome_codes) (codes (fst st)).

(** The same for what a loop turn or the loop hands on. *)
Definition flow_allowed (fl : flow) : Prop :=
  match fl with
  | Next st => codes_allowed st
  | Return r =>
      exists messages,
        body r = Json (PList messages)
        /\ In (status r) outcome_codes
        /\ Forall (fun c => In c outcome_codes) (codes messages)
  end.

(** Two exceptions, results or clients that differ at most in the detail
    text of the HTTP errors they raise. *)
Definition exn_alike (e1 e2 : exn) : Prop :=
  match e1, e2 with
  | HTTPError _, HTTPError _ => True
  | _, _ => e1 = e2
  end.

Definition alike {A} (r1 r2 : result A) : Prop :=
  match r1, r2 with
  | Ok a, Ok b => a = b
  | Raise e1, Raise e2 => exn_alike e1 e2
  | Unmodelled, Unmodelled => True
  | _, _ => False
  end.

Definition runs_alike {A} (o1 o2 : result A * trace) : Prop :=
  alike (fst o1) (fst o2) /\ snd o1 = snd o2.

Record world_alike (w1 w2 : world) : Prop := {
  alike_projects : forall tr id,
    alike (gl_projects_get w1 tr id) (gl_projects_get w2 tr id);
  alike_attributes : forall tr p name,
    alike (customattributes_get w1 tr p name) (customattributes_get w2 tr p name);
  alike_tags : forall tr image,
    alike (client_get_tags w1 tr image) (client_get_tags w2 tr image);
  alike_digest : forall tr image tag,
    alike (client_get_digest w1 tr image tag) (client_get_digest w2 tr image tag);
  alike_delete : forall tr image tag,
    alike (client_delete_image w1 tr image tag) (client_delete_image w2 tr image tag)
}.

(** * Properties *)

Ltac break_match :=
  match goal with
  | H : context [match ?x with _ => _ end] |- _ => destruct x eqn:?
  | |- context [match ?x with _ => _ end] => destruct x eqn:?
  end.

Ltac inv_pair H := inversion H; subst; clear H.

(** ** Characters *)

Lemma str_eqb_eq (a b : str) : str_eqb a b = true <-> a = b.
Proof.
  revert b; induction a as [|x a IH]; intros [|y b]; simpl; split;
    try congruence; try discriminate.
  - rewrite andb_true_iff, N.eqb_eq, IH. intros [-> ->]; reflexivity.
  - intros H; injection H as -> ->.
    rewrite N.eqb_refl; simpl. apply IH; reflexivity.
Qed.

Lemma str_eqb_refl (a : str) : str_eqb a a = true.
Proof. apply str_eqb_eq; reflexivity. Qed.

Lemma slug_char_cases (c : char) :
  slug_char c = true -> alnum c = true \/ is_hyphen c = true.
Proof.
  unfold slug_char, alnum. destruct (is_lower c), (is_digit c); simpl; auto.
Qed.

Lemma alnum_slug_char (c : char) : alnum c = true -> slug_char c = true.
Proof. unfold slug_char, alnum. intros ->; reflexivity. Qed.

Lemma hyphen_slug_char (c : char) : is_hyphen c = true -> slug_char c = true.
Proof. unfold slug_char. intros ->. apply orb_true_r. Qed.

Lemma hyphen_not_alnum (c : char) : is_hyphen c = true -> alnum c = false.
Proof.
  unfold is_hyphen, alnum, is_lower, is_digit, in_range.
  rewrite N.eqb_eq; intros ->; reflexivity.
Qed.

Lemma slug_char_range (c : char) :
  slug_char c = true -> (45 <= c <= 122)%N.
Proof.
  unfold slug_char, is_lower, is_digit, is_hyphen, in_range.
  rewrite !orb_true_iff, !andb_true_iff, !N.leb_le, N.eqb_eq. lia.
Qed.

Lemma slug_char_not_upper (c : char) : slug_char c = true -> is_upper c = false.
Proof.
  unfold slug_char, is_lower, is_digit, is_hyphen, is_upper, in_range.
  rewrite !orb_true_iff, !andb_true_iff, !N.leb_le, N.eqb_eq.
  intros H. apply andb_false_iff. rewrite !N.leb_gt. lia.
Qed.

Lemma slug_char_ascii (c : char) : slug_char c = true -> is_ascii c = true.
Proof.
  intros H. apply slug_char_range in H. unfold is_ascii. apply N.ltb_lt. lia.
Qed.

Lemma slug_char_not_newline (c : char) : slug_char c = true -> N.eqb c 10 = false.
Proof. intros H. apply slug_char_range in H. apply N.eqb_neq. lia. Qed.

Lemma lower_slug_chars tbl (s : str) :
  forallb slug_char s = true -> lower tbl s = s.
Proof.
  intros H. unfold lower.
  assert (Ha : forallb is_ascii s = true).
  { rewrite forallb_forall in *. intros c Hc. apply slug_char_ascii; auto. }
  rewrite Ha. clear Ha. induction s as [|c s IH]; simpl in *; [reflexivity|].
  apply andb_true_iff in H as [Hc Hs]. rewrite IH by assumption.
  unfold ascii_lower. rewrite slug_char_not_upper by assumption. reflexivity.
Qed.

(** ** The first substitution: ['[^a-z0-9-]+'] replaced by ['-'] *)

Section Unsafe.

Lemma star_last (p : Re.cls) (bos : bool) (acc s : str) :
  exists rest,
    Re.star p false (Re.run [] false) bos acc s = Some (rev acc, rest)
    /\ List.length rest <= List.length s.
Proof.
  revert bos acc; induction s as [|c s IH]; intros bos acc; cbn [Re.star Re.push].
  - exists []; auto.
  - destruct (p c).
    + destruct (IH false acc) as [rest [-> Hl]]. exists rest; simpl; auto.
    + exists (c :: s); auto.
Qed.

Lemma unsafe_no_match (bos : bool) (c : char) (s : str) :
  slug_char c = true -> Re.match_at re_unsafe bos (c :: s) = None.
Proof. intros H. unfold Re.match_at, re_unsafe; simpl. rewrite H; reflexivity. Qed.

Lemma unsafe_match (bos : bool) (c : char) (s : str) :
  slug_char c = false ->
  exists rest, Re.match_at re_unsafe bos (c :: s) = Some ([], rest)
               /\ List.length rest <= List.length s.
Proof.
  intros H. unfold Re.match_at, re_unsafe. cbn [Re.run]. rewrite H. cbn [negb Re.push].
  apply (star_last (fun c => negb (slug_char c)) false [] s).
Qed.

Lemma unsafe_sub_chars (s : str) : forall bos k,
  forallb slug_char (Re.sub_from re_unsafe (fun _ => lit "-") bos k s) = true.
Proof.
  induction s as [|c s IH]; intros bos k.
  - destruct k; reflexivity.
  - destruct k as [|k]; [|apply IH].
    cbn [Re.sub_from]. destruct (slug_char c) eqn:Hc.
    + rewrite unsafe_no_match by assumption. simpl. rewrite Hc. apply IH.
    + destruct (unsafe_match bos c s Hc) as [rest [-> Hl]].
      destruct (List.length (c :: s) - List.length rest) eqn:Hn.
      * cbn [List.length] in Hn; lia.
      * simpl. apply IH.
Qed.

Lemma unsafe_sub_length (s : str) : forall bos k,
  List.length (Re.sub_from re_unsafe (fun _ => lit "-") bos k s) <= List.length s.
Proof.
  induction s as [|c s IH]; intros bos k.
  - destruct k; simpl; lia.
  - destruct k as [|k]; [|simpl; specialize (IH false k); lia].
    cbn [Re.sub_from]. destruct (slug_char c) eqn:Hc.
    + rewrite unsafe_no_match by assumption. simpl. specialize (IH false 0). lia.
    + destruct (unsafe_match bos c s Hc) as [rest [-> Hl]].
      destruct (List.length (c :: s) - List.length rest) eqn:Hn.
      * cbn [List.length] in Hn; lia.
      * simpl. specialize (IH false n). lia.
Qed.

Lemma unsafe_sub_fixed (repl : str -> str) (s : str) : forall bos,
  forallb slug_char s = true -> Re.sub_from re_unsafe repl bos 0 s = s.
Proof.
  induction s as [|c s IH]; intros bos H; [reflexivity|].
  simpl in H. apply andb_true_iff in H as [Hc Hs].
  cbn [Re.sub_from]. rewrite unsafe_no_match by assumption.
  rewrite IH by assumption. reflexivity.
Qed.

End Unsafe.

(** ** The second substitution: the trimming pattern *)

Section Trim.

Lemma upto_none (u : str) :
  forallb slug_char u = true -> upto_last_alnum u = None ->
  forallb is_hyphen u = true.
Proof.
  induction u as [|c u IH]; simpl; [reflexivity|].
  intros H. apply andb_true_iff in H as [Hc Hu].
  destruct (upto_last_alnum u); [discriminate|].
  destruct (alnum c) eqn:Ha; [discriminate|]. intros _.
  destruct (slug_char_cases c Hc) as [E|E]; [congruence|].
  rewrite E. simpl. apply IH; auto.
Qed.

Lemma upto_hyphens (u : str) :
  forallb is_hyphen u = true -> upto_last_alnum u = None.
Proof.
  induction u as [|c u IH]; simpl; [reflexivity|].
  intros H. apply andb_true_iff in H as [Hc Hu].
  rewrite IH by assumption. rewrite hyphen_not_alnum by assumption. reflexivity.
Qed.

(** [-*$] on what follows the group. *)
Lemma tail_run (t : str) : forall bos acc,
  forallb slug_char t = true ->
  Re.star is_hyphen false (Re.run [Re.Eol] false) bos acc t
  = if forallb is_hyphen t then Some (rev acc, []) else None.
Proof.
  induction t as [|c t IH]; intros bos acc H; [reflexivity|].
  simpl in H. apply andb_true_iff in H as [Hc Ht].
  cbn [Re.star forallb Re.push]. rewrite IH by assumption.
  destruct (is_hyphen c) eqn:Hh; cbn [andb].
  - destruct (forallb is_hyphen t) eqn:Hall; [reflexivity|].
    destruct t; [discriminate|]. reflexivity.
  - cbn [Re.run Re.at_eol]. destruct t; [|reflexivity].
    rewrite slug_char_not_newline by assumption. reflexivity.
Qed.

(** [[a-z0-9-]*[a-z0-9])-*$] inside the group. *)
Lemma group_run (u : str) : forall bos acc,
  forallb slug_char u = true ->
  Re.star slug_char true
          (Re.run [Re.One alnum; Re.GClose; Re.Star is_hyphen; Re.Eol] true)
          bos acc u
  = option_map (fun v => (rev acc ++ v, [])) (upto_last_alnum u).
Proof.
  induction u as [|c u IH]; intros bos acc H; [reflexivity|].
  pose proof H as Hcu.
  simpl in H. apply andb_true_iff in H as [Hc Hu].
  cbn [Re.star Re.push upto_last_alnum]. rewrite Hc.
  rewrite IH by assumption.
  destruct (upto_last_alnum u) as [v|] eqn:Hv; cbn [option_map].
  - simpl. rewrite <- app_assoc. reflexivity.
  - cbn [Re.run Re.push]. destruct (alnum c); [|reflexivity].
    rewrite tail_run by assumption.
    rewrite (upto_none u Hu Hv). reflexivity.
Qed.

Lemma capture_run (u : str) (rec bos : bool) (acc : str) :
  forallb slug_char u = true ->
  Re.run trim_group rec bos acc u
  = option_map (fun g => (g, [])) (capture_here u).
Proof.
  destruct u as [|c u]; intros H; [reflexivity|].
  simpl in H. apply andb_true_iff in H as [Hc Hu].
  unfold trim_group. cbn [Re.run Re.push capture_here]. rewrite Hc.
  rewrite group_run by assumption.
  destruct (upto_last_alnum u); reflexivity.
Qed.

Lemma trim_run (z : str) : forall bos acc,
  forallb slug_char z = true ->
  Re.star is_hyphen false (Re.run trim_group false) bos acc z
  = option_map (fun g => (g, [])) (trim_capture z).
Proof.
  induction z as [|c z IH]; intros bos acc H; [reflexivity|].
  pose proof H as Hcz.
  simpl in H. apply andb_true_iff in H as [Hc Hz].
  cbn [Re.star trim_capture Re.push].
  destruct (is_hyphen c).
  - rewrite IH by assumption.
    destruct (trim_capture z); [reflexivity|].
    cbn [option_map]. apply capture_run; assumption.
  - apply capture_run; assumption.
Qed.

Lemma trim_match (z : str) :
  forallb slug_char z = true ->
  Re.match_at re_trim true z = option_map (fun g => (g, [])) (trim_capture z).
Proof. intros H. exact (trim_run z true [] H). Qed.

Lemma trim_not_at_start (repl : str -> str) (s : str) : forall k,
  Re.sub_from re_trim repl false k s = skipn k s.
Proof.
  induction s as [|c s IH]; intros k.
  - destruct k; reflexivity.
  - destruct k as [|k]; simpl.
    + f_equal. apply (IH 0).
    + apply IH.
Qed.

Lemma trim_sub (z : str) :
  forallb slug_char z = true ->
  Re.sub re_trim (fun g => g) z = trimmed z.
Proof.
  intros H. unfold Re.sub, trimmed. destruct z as [|c z]; [reflexivity|].
  cbn [Re.sub_from]. rewrite trim_match by assumption.
  destruct (trim_capture (c :: z)) as [g|]; cbn [option_map].
  - simpl. rewrite trim_not_at_start.
    rewrite skipn_all. apply app_nil_r.
  - rewrite trim_not_at_start. reflexivity.
Qed.

End Trim.

(** ** The captured group is a piece of the subject, and capturing again
       gives it back *)

Section Capture.

Lemma upto_split (u v : str) :
  upto_last_alnum u = Some v ->
  exists t, u = v ++ t /\ upto_last_alnum t = None
            /\ upto_last_alnum v = Some v.
Proof.
  revert v; induction u as [|c u IH]; intros v; simpl; [discriminate|].
  destruct (upto_last_alnum u) as [v'|] eqn:Hu.
  - intros E; injection E as <-.
    destruct (IH v' eq_refl) as [t [-> [Ht Hv]]].
    exists t. simpl. rewrite Hv. auto.
  - destruct (alnum c) eqn:Ha; [|discriminate].
    intros E; injection E as <-.
    exists u. simpl. rewrite Ha. auto.
Qed.

Lemma upto_app_none (u t : str) :
  upto_last_alnum t = None -> upto_last_alnum (u ++ t) = upto_last_alnum u.
Proof.
  intros Ht. induction u as [|c u IH]; simpl; [assumption|].
  rewrite IH. reflexivity.
Qed.

Lemma capture_app_none (u t : str) :
  upto_last_alnum t = None -> capture_here (u ++ t) = capture_here u.
Proof.
  intros Ht. destruct u as [|c u]; simpl.
  - destruct t as [|c t]; [reflexivity|]. simpl in *.
    destruct (upto_last_alnum t); [discriminate|reflexivity].
  - rewrite upto_app_none by assumption. reflexivity.
Qed.

Lemma trim_capture_hyphens (t : str) :
  forallb is_hyphen t = true -> trim_capture t = None.
Proof.
  induction t as [|c t IH]; simpl; [reflexivity|].
  intros H. apply andb_true_iff in H as [Hc Ht].
  rewrite Hc, IH by assumption.
  rewrite upto_hyphens by assumption. reflexivity.
Qed.

Lemma trim_capture_app (z t : str) :
  forallb is_hyphen t = true -> trim_capture (z ++ t) = trim_capture z.
Proof.
  intros Ht. induction z as [|c z IH].
  - simpl. apply trim_capture_hyphens; assumption.
  - change ((c :: z) ++ t) with (c :: (z ++ t)).
    cbn [trim_capture]. rewrite IH.
    change (c :: (z ++ t)) with ((c :: z) ++ t).
    rewrite capture_app_none by (apply upto_hyphens; assumption).
    reflexivity.
Qed.

Lemma capture_here_prefix (u g : str) :
  capture_here u = Some g -> exists t, u = g ++ t.
Proof.
  destruct u as [|c u]; simpl; [discriminate|].
  destruct (upto_last_alnum u) as [v|] eqn:Hu; simpl; [|discriminate].
  intros E; injection E as <-.
  destruct (upto_split u Hu) as [t [-> _]]. exists t; reflexivity.
Qed.

Lemma trim_capture_infix (z g : str) :
  trim_capture z = Some g -> exists a t, z = a ++ g ++ t.
Proof.
  revert g; induction z as [|c z IH]; intros g; simpl; [discriminate|].
  assert (Hhere : capture_here (c :: z) = Some g ->
                  exists a t, c :: z = a ++ g ++ t).
  { intros H. destruct (capture_here_prefix _ H) as [t Ht].
    exists [], t. exact Ht. }
  destruct (is_hyphen c); [|exact Hhere].
  destruct (trim_capture z) as [g'|]; [|exact Hhere].
  intros E; injection E as <-.
  destruct (IH g' eq_refl) as [a [t ->]].
  exists (c :: a), t. reflexivity.
Qed.

Lemma trim_capture_idem (z g : str) :
  forallb slug_char z = true ->
  trim_capture z = Some g -> trim_capture g = Some g.
Proof.
  revert g; induction z as [|c z IH]; intros g Hz; [discriminate|].
  simpl in Hz. apply andb_true_iff in Hz as [Hc Hz].
  assert (Hhere : capture_here (c :: z) = Some g ->
                  exists v, g = c :: v /\ upto_last_alnum z = Some v
                            /\ upto_last_alnum v = Some v
                            /\ trim_capture v = trim_capture z).
  { cbn [capture_here].
    destruct (upto_last_alnum z) as [v|] eqn:Hu; simpl; [|discriminate].
    intros E; injection E as <-. exists v.
    destruct (upto_split z Hu) as [t [Ez [Ht Hv]]].
    split; [reflexivity|]. split; [reflexivity|]. split; [assumption|].
    assert (Hy : forallb is_hyphen t = true).
    { apply upto_none; [|assumption].
      rewrite Ez, forallb_app in Hz. apply andb_true_iff in Hz. tauto. }
    rewrite Ez. symmetry. apply trim_capture_app. assumption. }
  cbn [trim_capture]. destruct (is_hyphen c) eqn:Hh.
  - destruct (trim_capture z) as [g'|] eqn:Hg.
    + intros E; injection E as <-. apply IH; auto.
    + intros H. destruct (Hhere H) as [v [-> [_ [Hv Ht]]]].
      cbn [trim_capture capture_here]. rewrite Hh, Ht, Hv. reflexivity.
  - intros H. destruct (Hhere H) as [v [-> [_ [Hv _]]]].
    cbn [trim_capture capture_here]. rewrite Hh, Hv. reflexivity.
Qed.

Lemma trimmed_chars (z : str) :
  forallb slug_char z = true -> forallb slug_char (trimmed z) = true.
Proof.
  intros H. unfold trimmed. destruct (trim_capture z) as [g|] eqn:Hg; [|assumption].
  destruct (trim_capture_infix z Hg) as [a [t ->]].
  rewrite !forallb_app, !andb_true_iff in H. tauto.
Qed.

Lemma trimmed_length (z : str) : List.length (trimmed z) <= List.length z.
Proof.
  unfold trimmed. destruct (trim_capture z) as [g|] eqn:Hg; [|lia].
  destruct (trim_capture_infix z Hg) as [a [t ->]].
  rewrite !length_app. lia.
Qed.

Lemma trimmed_idem (z : str) :
  forallb slug_char z = true -> trimmed (trimmed z) = trimmed z.
Proof.
  intros H. unfold trimmed at 2 3.
  destruct (trim_capture z) as [g|] eqn:Hg.
  - unfold trimmed. rewrite (trim_capture_idem z H Hg). reflexivity.
  - unfold trimmed. rewrite Hg. reflexivity.
Qed.

End Capture.

(** ** The slug *)

Section SlugFacts.

Variable unicode_lower : str -> str.

Lemma slugify_trimmed (x : str) :
  slugify unicode_lower x
  = trimmed (Re.sub re_unsafe (fun _ => lit "-")
                    (firstn 63 (lower unicode_lower x))).
Proof. unfold slugify. apply trim_sub. apply unsafe_sub_chars. Qed.

(** Every character of a slug is in [[a-z0-9-]]. *)
Lemma slugify_chars (x : str) :
  forallb slug_char (slugify unicode_lower x) = true.
Proof. rewrite slugify_trimmed. apply trimmed_chars, unsafe_sub_chars. Qed.

(** A slug has at most 63 characters. *)
Lemma slugify_length (x : str) : List.length (slugify unicode_lower x) <= 63.
Proof.
  rewrite slugify_trimmed.
  etransitivity; [apply trimmed_length|].
  etransitivity; [apply unsafe_sub_length|].
  apply firstn_le_length.
Qed.

(** On a string over [[a-z0-9-]] of at most 63 characters only the
    trimming acts. *)
Lemma slugify_slug_chars (y : str) :
  forallb slug_char y = true -> List.length y <= 63 ->
  slugify unicode_lower y = trimmed y.
Proof.
  intros Hy Hl. rewrite slugify_trimmed.
  rewrite lower_slug_chars by assumption.
  rewrite firstn_all2 by assumption.
  unfold Re.sub. rewrite unsafe_sub_fixed by assumption. reflexivity.
Qed.

(** C7. The branch slugifier is idempotent: for every string [x],
    building the slug of the slug of [x] gives the slug of [x]. *)
Theorem slugify_idempotent (x : str) :
  slugify unicode_lower (slugify unicode_lower x) = slugify unicode_lower x.
Proof.
  rewrite (slugify_slug_chars (slugify unicode_lower x))
    by (apply slugify_chars || apply slugify_length).
  rewrite slugify_trimmed. apply trimmed_idem. apply unsafe_sub_chars.
Qed.

(** C2 (the code departs from it). The branch name [a_] gives the slug
    [a-], which ends in a hyphen and so has not the shape
    [^[a-z0-9]([a-z0-9-]{0,61}[a-z0-9])?$]; the names [_] and [_a] give
    [-] and [-a]. *)
Theorem slugify_keeps_outer_hyphen :
  slugify unicode_lower (lit "a_") = lit "a-"
  /\ well_formed_slug (slugify unicode_lower (lit "a_")) = false
  /\ slugify unicode_lower (lit "_") = lit "-"
  /\ slugify unicode_lower (lit "_a") = lit "-a".
Proof. repeat split; reflexivity. Qed.

End SlugFacts.

(** ** The header checks of [validate] *)

Lemma opt_str_eqb_eq (a b : option str) : opt_str_eqb a b = true <-> a = b.
Proof.
  destruct a as [a|], b as [b|]; simpl; split; try congruence; try discriminate.
  - intros H; apply str_eqb_eq in H; congruence.
  - intros H; injection H as ->; apply str_eqb_refl.
Qed.

Section Headers.

Variable unicode_lower : str -> str.
Variable env : Config.environ.
Variable fs : Config.files.
Variable w : world.

Ltac past_headers H :=
  let Ht := fresh "Ht" in
  let e := fresh "e" in
  let He := fresh "He" in
  let Hin := fresh "Hin" in
  destruct H as [Ht [e [He Hin]]];
  apply opt_str_eqb_eq in Ht;
  unfold validate; rewrite Ht, He, Hin;
  cbn [negb]; unfold bind, lift, ret.

(** C6. A request whose token header differs from the configured hook
    token gets the 204 response with the empty body, whatever its body is
    or raises when parsed, and no call is made on either client. *)
Theorem token_mismatch_no_content (hook_token : option str) (req : request)
        (tr : trace) :
  get_header req (lit "X-GITLAB-TOKEN") <> hook_token ->
  validate unicode_lower env fs w hook_token req tr = (Ok NoContentResponse, tr)
  /\ status NoContentResponse = 204%Z
  /\ body NoContentResponse = Empty.
Proof.
  intros H. split; [|split; reflexivity].
  unfold validate.
  destruct (opt_str_eqb (get_header req (lit "X-GITLAB-TOKEN")) hook_token) eqn:E.
  - apply opt_str_eqb_eq in E. contradiction.
  - reflexivity.
Qed.

(** C1 (amended). For a request that passes both header checks and whose
    body is a JSON object: without [event_type], with an [event_type]
    other than [merge_request], or with a state other than [merged], the
    answer is the 204 response and no call is made, whichever other fields
    are missing; for a [merge_request] event a missing
    [object_attributes] or [state] raises [KeyError], and for a merged one
    so does a missing [source], [path_with_namespace], [project] or [id],
    before any call; a missing [source_branch] raises [KeyError] once the
    project is fetched, when its registry is enabled and no project
    attribute is configured. *)
Theorem missing_fields (hook_token : option str) (req : request)
        (kv : list (str * pyval)) (tr : trace) :
  passes_headers hook_token req ->
  json req = Ok (PDict kv) ->
  let run := validate unicode_lower env fs w hook_token req tr in
  let has k v := Py.dict_get kv (lit k) = Some v in
  let lacks k := Py.dict_get kv (lit k) = None in
  let merge v := Py.eq_str v (lit "merge_request") = true in
  let merged oa :=
    exists s, Py.dict_get oa (lit "state") = Some s
              /\ Py.eq_str s (lit "merged") = true in
  (lacks "event_type"%string -> run = (Ok NoContentResponse, tr))
  /\ (forall v, has "event_type"%string v ->
                Py.eq_str v (lit "merge_request") = false ->
                run = (Ok NoContentResponse, tr))
  /\ (forall v oa s, has "event_type"%string v -> merge v ->
                     has "object_attributes"%string (PDict oa) ->
                     Py.dict_get oa (lit "state") = Some s ->
                     Py.eq_str s (lit "merged") = false ->
                     run = (Ok NoContentResponse, tr))
  /\ (forall v, has "event_type"%string v -> merge v ->
                lacks "object_attributes"%string ->
                run = (Raise (KeyError (lit "object_attributes")), tr))
  /\ (forall v oa, has "event_type"%string v -> merge v ->
                   has "object_attributes"%string (PDict oa) ->
                   Py.dict_get oa (lit "state") = None ->
                   run = (Raise (KeyError (lit "state")), tr))
  /\ (forall v oa, has "event_type"%string v -> merge v ->
                   has "object_attributes"%string (PDict oa) -> merged oa ->
                   Py.dict_get oa (lit "source") = None ->
                   run = (Raise (KeyError (lit "source")), tr))
  /\ (forall v oa src, has "event_type"%string v -> merge v ->
                   has "object_attributes"%string (PDict oa) -> merged oa ->
                   Py.dict_get oa (lit "source") = Some (PDict src) ->
                   Py.dict_get src (lit "path_with_namespace") = None ->
                   run = (Raise (KeyError (lit "path_with_namespace")), tr))
  /\ (forall v oa src p, has "event_type"%string v -> merge v ->
                   has "object_attributes"%string (PDict oa) -> merged oa ->
                   Py.dict_get oa (lit "source") = Some (PDict src) ->
                   Py.dict_get src (lit "path_with_namespace") = Some p ->
                   lacks "project"%string ->
                   run = (Raise (KeyError (lit "project")), tr))
  /\ (forall v oa src p pr, has "event_type"%string v -> merge v ->
                   has "object_attributes"%string (PDict oa) -> merged oa ->
                   Py.dict_get oa (lit "source") = Some (PDict src) ->
                   Py.dict_get src (lit "path_with_namespace") = Some p ->
                   has "project"%string (PDict pr) ->
                   Py.dict_get pr (lit "id") = None ->
                   run = (Raise (KeyError (lit "id")), tr))
  /\ (forall v oa src p pr id proj on, has "event_type"%string v -> merge v ->
                   has "object_attributes"%string (PDict oa) -> merged oa ->
                   Py.dict_get oa (lit "source") = Some (PDict src) ->
                   Py.dict_get src (lit "path_with_namespace") = Some p ->
                   has "project"%string (PDict pr) ->
                   Py.dict_get pr (lit "id") = Some id ->
                   gl_projects_get w tr id = Ok proj ->
                   Py.getitem (attributes proj)
                              (lit "container_registry_enabled") = Ok on ->
                   Py.truthy on = true ->
                   env (lit "IMAGE_NAME_PROJECT_ATTRIBUTE") = None ->
                   Py.dict_get oa (lit "source_branch") = None ->
                   run = (Raise (KeyError (lit "source_branch")),
                          tr ++ [ProjectsGet id])).
Proof.
  intros Hh Hj run has lacks merge merged. subst run has lacks merge merged.
  past_headers Hh. rewrite Hj. cbn [Py.contains Py.getitem].
  repeat split.
  - intros ->. reflexivity.
  - intros v -> ->. reflexivity.
  - intros v oa s -> -> -> Hs Hn. cbn [negb Py.getitem]. rewrite Hs, Hn. reflexivity.
  - intros v -> -> ->. reflexivity.
  - intros v oa -> -> -> Hs. cbn [negb Py.getitem]. rewrite Hs. reflexivity.
  - intros v oa -> -> -> [s [Hs Hm]] Hsrc.
    cbn [negb Py.getitem]. rewrite Hs, Hm, Hsrc. reflexivity.
  - intros v oa src -> -> -> [s [Hs Hm]] Hsrc Hp.
    cbn [negb Py.getitem]. rewrite Hs, Hm, Hsrc. cbn [negb Py.getitem].
    rewrite Hp. reflexivity.
  - intros v oa src p -> -> -> [s [Hs Hm]] Hsrc Hp ->.
    cbn [negb Py.getitem]. rewrite Hs, Hm, Hsrc. cbn [negb Py.getitem].
    rewrite Hp. reflexivity.
  - intros v oa src p pr -> -> -> [s [Hs Hm]] Hsrc Hp -> Hid.
    cbn [negb Py.getitem]. rewrite Hs, Hm, Hsrc. cbn [negb Py.getitem].
    rewrite Hp. cbn [Py.getitem]. rewrite Hid. reflexivity.
  - intros v oa src p pr id proj on -> -> Hoa [s [Hs Hm]] Hsrc Hp -> Hid
           Hproj Hon Hen Hattr Hb.
    rewrite Hoa. cbn [negb Py.getitem]. rewrite Hs, Hm, Hsrc. cbn [negb Py.getitem].
    rewrite Hp. cbn [Py.getitem]. rewrite Hid. unfold invoke. rewrite Hproj, Hon, Hen.
    cbn [negb]. unfold cleanup, get_image_delete_list, bind, lift.
    unfold Config.get.
    change (str_eqb (lit "IMAGE_NAME_TEMPLATE") (lit "GITLAB_TOKEN")) with false.
    change (str_eqb (lit "IMAGE_NAME_TEMPLATE") (lit "HOOK_TOKEN")) with false.
    change (str_eqb (lit "IMAGE_NAME_PROJECT_ATTRIBUTE") (lit "GITLAB_TOKEN")) with false.
    change (str_eqb (lit "IMAGE_NAME_PROJECT_ATTRIBUTE") (lit "HOOK_TOKEN")) with false.
    cbv iota. rewrite Hattr. unfold ret. cbn [Py.getitem]. rewrite Hoa. cbn [Py.getitem]. rewrite Hb.
    reflexivity.
Qed.

End Headers.

(** ** The aggregate status *)

Section Aggregate.

Lemma codes_app (a b : list pyval) : codes (a ++ b) = codes a ++ codes b.
Proof.
  induction a as [|m a IH]; simpl; [reflexivity|].
  destruct (code_of m); simpl; rewrite IH; reflexivity.
Qed.

Lemma codes_outcome (image : str) (tag : pyval) (message : str) (code : Z) :
  codes [outcome image tag message code] = [code].
Proof. reflexivity. Qed.

Lemma codes_tags_not_found : codes [tags_not_found] = [].
Proof. reflexivity. Qed.

Lemma aggregate_snoc (cs : list Z) (c : Z) :
  aggregate_status (cs ++ [c]) = overwrite (aggregate_status cs) c.
Proof. unfold aggregate_status. rewrite fold_left_app. reflexivity. Qed.

Lemma last_cons_default (c a : Z) (l : list Z) : last (c :: l) a = last l c.
Proof.
  revert c a; induction l as [|x l IH]; intros c a; [reflexivity|].
  change (last (c :: x :: l) a) with (last (x :: l) a).
  rewrite (IH x a), (IH x c). reflexivity.
Qed.

(** Overwriting in order leaves the last code that is not 200. *)
Lemma fold_overwrite_last (cs : list Z) : forall a,
  fold_left overwrite cs a
  = last (filter (fun c => negb (Z.eqb c 200)) cs) a.
Proof.
  induction cs as [|c cs IH]; intros a; [reflexivity|].
  cbn [fold_left filter]. rewrite IH. unfold overwrite.
  destruct (Z.eqb c 200); cbn [negb]; [reflexivity|].
  symmetry. apply last_cons_default.
Qed.

Lemma consistent_start : consistent ([], 200%Z).
Proof. reflexivity. Qed.

Lemma consistent_outcome (messages : list pyval) (status : Z)
      (image : str) (tag : pyval) (message : str) (code : Z) :
  consistent (messages, status) ->
  consistent (messages ++ [outcome image tag message code],
              overwrite status code).
Proof.
  unfold consistent; cbn [fst snd]. intros ->.
  rewrite codes_app, codes_outcome, aggregate_snoc. reflexivity.
Qed.

Lemma consistent_tags_not_found (st : progress) :
  consistent st ->
  snd st = aggregate_status (codes (fst st ++ [tags_not_found])).
Proof.
  unfold consistent. intros ->.
  rewrite codes_app, codes_tags_not_found, app_nil_r. reflexivity.
Qed.

End Aggregate.

(** ** The loops of [cleanup] *)

Section Loops.

Variable unicode_lower : str -> str.
Variable env : Config.environ.
Variable fs : Config.files.
Variable w : world.

Lemma tag_body_result (image : str) (tag : pyval) (messages : list pyval)
      (status : Z) (tr : trace) (st' : progress) (tr' : trace) :
  tag_body w image tag (messages, status) tr = (Ok st', tr') ->
  exists message code,
    st' = (messages ++ [outcome image tag message code], overwrite status code).
Proof.
  unfold tag_body, try_except, bind, ret.
  destruct (delete_image w image tag tr) as [[[message code]|e|] t].
  - intros H; inv_pair H. exists message, code. reflexivity.
  - destruct e; try discriminate.
    intros H; inv_pair H. exists undisclosed, 500%Z. reflexivity.
  - discriminate.
Qed.

(** The outcomes of one image: one for each tag, in the order of the
    tags, each with the image and the tag it is about. *)
Lemma for_tags_result (image : str) (tags : list pyval) :
  forall st tr st' tr',
    for_tags w image tags st tr = (Ok st', tr') ->
    exists outs,
      fst st' = fst st ++ outs
      /\ Forall2 (fun tag m => exists message code,
                      m = outcome image tag message code) tags outs
      /\ snd st' = fold_left overwrite (codes outs) (snd st).
Proof.
  induction tags as [|tag tags IH]; intros st tr st' tr' H.
  - inv_pair H. exists []. rewrite app_nil_r. auto.
  - cbn [for_tags] in H. unfold bind in H.
    destruct (tag_body w image tag st tr) as [[st1| |] tr1] eqn:Hb;
      try discriminate.
    destruct st as [messages status].
    destruct (tag_body_result _ _ _ _ _ Hb) as [message [code ->]].
    destruct (IH _ _ _ _ H) as [outs [Hm [Ho Hs]]].
    exists (outcome image tag message code :: outs).
    cbn [fst snd] in *. rewrite Hm, <- app_assoc. split; [reflexivity|].
    split; [constructor; eauto|]. exact Hs.
Qed.

Lemma consistent_extend (st st' : progress) (outs : list pyval) :
  consistent st -> fst st' = fst st ++ outs ->
  snd st' = fold_left overwrite (codes outs) (snd st) ->
  consistent st'.
Proof.
  unfold consistent, aggregate_status. intros Hc Hm Hs.
  rewrite Hs, Hm, Hc, codes_app, fold_left_app. reflexivity.
Qed.

Lemma for_tags_consistent (image : str) (tags : list pyval)
      (st : progress) (tr : trace) (st' : progress) (tr' : trace) :
  for_tags w image tags st tr = (Ok st', tr') ->
  consistent st -> consistent st'.
Proof.
  intros H Hc. destruct (for_tags_result _ _ _ _ H) as [outs [Hm [_ Hs]]].
  eapply consistent_extend; eauto.
Qed.

Lemma image_body_consistent (next : result str) (st : progress) (tr : trace)
      (fl : flow) (tr' : trace) :
  image_body w next st tr = (Ok fl, tr') ->
  consistent st -> flow_consistent fl.
Proof.
  unfold image_body, bind, lift, invoke, ret. intros H Hc.
  assert (Hret : flow_consistent
                   (Return (JsonResponse (PList (fst st ++ [tags_not_found]))
                                         (snd st)))).
  { exists (fst st ++ [tags_not_found]).
    rewrite (consistent_tags_not_found Hc) at 1. reflexivity. }
  repeat break_match; try discriminate;
    repeat match goal with
           | E : (_, _) = (_, _) |- _ => inv_pair E
           end;
    try discriminate; try exact Hret;
    cbn [flow_consistent]; eapply for_tags_consistent; eauto.
Qed.

Lemma for_images_consistent (images : list (result str)) :
  forall st tr fl tr',
    for_images w images st tr = (Ok fl, tr') ->
    consistent st -> flow_consistent fl.
Proof.
  induction images as [|next images IH]; intros st tr fl tr' H Hc.
  - inv_pair H. exact Hc.
  - cbn [for_images] in H. unfold bind in H.
    destruct (image_body w next st tr) as [[fl1| |] tr1] eqn:Hb;
      try discriminate.
    assert (H1 : flow_consistent fl1)
      by (eapply image_body_consistent; eauto).
    destruct fl1 as [st1|r].
    + eapply IH; eauto.
    + inv_pair H. exact H1.
Qed.

Lemma for_images_app (pre post : list (result str)) :
  forall st tr st1 tr1,
    for_images w pre st tr = (Ok (Next st1), tr1) ->
    for_images w (pre ++ post) st tr = for_images w post st1 tr1.
Proof.
  induction pre as [|next pre IH]; intros st tr st1 tr1 H.
  - inv_pair H. reflexivity.
  - cbn [for_images app] in *. unfold bind in *.
    destruct (image_body w next st tr) as [[[st2|r]| |] tr2];
      try discriminate.
    apply IH; assumption.
Qed.

Lemma image_body_abort (image : str) (st : progress) (tr : trace)
      (kv : list (str * pyval)) :
  client_get_tags w tr image = Ok (PDict kv) -> no_tags kv ->
  image_body w (Ok image) st tr
  = (Ok (Return (JsonResponse (PList (fst st ++ [tags_not_found])) (snd st))),
     tr ++ [GetTags image]).
Proof.
  intros Ht Hn. unfold image_body, bind, lift, invoke, ret. rewrite Ht.
  cbn [Py.contains Py.getitem]. destruct Hn as [-> | ->]; reflexivity.
Qed.

Lemma cleanup_abort (proj : project) (data : pyval) (tr0 : trace)
      (pre post : list (result str)) (image : str) (tr : trace)
      (st1 : progress) (tr1 : trace) (kv : list (str * pyval)) :
  get_image_delete_list unicode_lower env fs w proj data tr0
  = (Ok (pre ++ Ok image :: post), tr) ->
  for_images w pre ([], 200%Z) tr = (Ok (Next st1), tr1) ->
  client_get_tags w tr1 image = Ok (PDict kv) -> no_tags kv ->
  cleanup unicode_lower env fs w proj data tr0
  = (Ok (JsonResponse (PList (fst st1 ++ [tags_not_found])) (snd st1)),
     tr1 ++ [GetTags image]).
Proof.
  intros Hg Hpre Ht Hn. unfold cleanup, bind. rewrite Hg.
  erewrite for_images_app by eassumption.
  cbn [for_images]. unfold bind. erewrite image_body_abort by eassumption.
  reflexivity.
Qed.

Lemma cleanup_consistent (proj : project) (data : pyval) (tr : trace)
      (resp : HTTPResponse) (tr' : trace) :
  cleanup unicode_lower env fs w proj data tr = (Ok resp, tr') ->
  exists messages,
    resp = JsonResponse (PList messages) (aggregate_status (codes messages)).
Proof.
  unfold cleanup, bind, ret. intros H.
  destruct (get_image_delete_list unicode_lower env fs w proj data tr)
    as [[images| |] tr1]; try discriminate.
  destruct (for_images w images ([], 200%Z) tr1) as [[fl| |] tr2] eqn:Hf;
    try discriminate.
  assert (Hc : flow_consistent fl)
    by (eapply for_images_consistent; eauto using consistent_start).
  destruct fl as [[messages status]|r]; inv_pair H.
  - exists messages. unfold consistent in Hc. cbn [fst snd] in Hc.
    rewrite Hc. reflexivity.
  - exact Hc.
Qed.

End Loops.

(** ** The detail text of an HTTP error does not reach the response *)

Section Undisclosed.

Lemma exn_alike_refl (e : exn) : exn_alike e e.
Proof. destruct e; simpl; auto. Qed.

Lemma alike_refl {A} (r : result A) : alike r r.
Proof. destruct r; simpl; auto using exn_alike_refl. Qed.

Lemma runs_alike_refl {A} (o : result A * trace) : runs_alike o o.
Proof. split; auto using alike_refl. Qed.

Lemma bind_alike {A B} (m1 m2 : M A) (f1 f2 : A -> M B) (tr : trace) :
  runs_alike (m1 tr) (m2 tr) ->
  (forall a t, runs_alike (f1 a t) (f2 a t)) ->
  runs_alike (bind m1 f1 tr) (bind m2 f2 tr).
Proof.
  unfold bind, runs_alike.
  destruct (m1 tr) as [[a1|e1|] t1], (m2 tr) as [[a2|e2|] t2]; simpl;
    intros [Ha Ht] Hf; subst; try contradiction; auto.
Qed.

Lemma invoke_alike {A} (c : call) (a1 a2 : trace -> result A) (tr : trace) :
  alike (a1 tr) (a2 tr) -> runs_alike (invoke c a1 tr) (invoke c a2 tr).
Proof. intros H. split; [exact H|reflexivity]. Qed.

Lemma try_except_alike {A} (m1 m2 : M A) (h1 h2 : exn -> option (M A))
      (tr : trace) :
  runs_alike (m1 tr) (m2 tr) ->
  (forall e1 e2, exn_alike e1 e2 ->
                 match h1 e1, h2 e2 with
                 | Some k1, Some k2 => forall t, runs_alike (k1 t) (k2 t)
                 | None, None => True
                 | _, _ => False
                 end) ->
  runs_alike (try_except m1 h1 tr) (try_except m2 h2 tr).
Proof.
  unfold try_except, runs_alike.
  destruct (m1 tr) as [[a1|e1|] t1], (m2 tr) as [[a2|e2|] t2]; simpl;
    intros [Ha Ht] Hh; subst; try contradiction; auto.
  specialize (Hh e1 e2 Ha).
  destruct (h1 e1), (h2 e2); try contradiction.
  - apply Hh.
  - simpl; auto.
Qed.

Variable unicode_lower : str -> str.
Variable env : Config.environ.
Variable fs : Config.files.
Variables w1 w2 : world.
Hypothesis Hw : world_alike w1 w2.

Lemma delete_image_alike (image : str) (tag : pyval) (tr : trace) :
  runs_alike (delete_image w1 image tag tr) (delete_image w2 image tag tr).
Proof.
  unfold delete_image. apply bind_alike.
  - apply invoke_alike, Hw.
  - intros [d|] t; [|apply runs_alike_refl].
    apply bind_alike; [apply invoke_alike, Hw|].
    intros b t'. apply runs_alike_refl.
Qed.

Lemma tag_body_alike (image : str) (tag : pyval) (st : progress) (tr : trace) :
  runs_alike (tag_body w1 image tag st tr) (tag_body w2 image tag st tr).
Proof.
  unfold tag_body. destruct st as [messages status].
  apply try_except_alike.
  - apply bind_alike; [apply delete_image_alike|].
    intros [message code] t. apply runs_alike_refl.
  - intros e1 e2 He.
    destruct e1, e2; simpl in He; try discriminate; try contradiction; auto.
    intros t. apply runs_alike_refl.
Qed.

Lemma for_tags_alike (image : str) (tags : list pyval) :
  forall st tr,
    runs_alike (for_tags w1 image tags st tr) (for_tags w2 image tags st tr).
Proof.
  induction tags as [|tag tags IH]; intros st tr; cbn [for_tags].
  - apply runs_alike_refl.
  - apply bind_alike; [apply tag_body_alike|]. intros st' t. apply IH.
Qed.

Lemma image_body_alike (next : result str) (st : progress) (tr : trace) :
  runs_alike (image_body w1 next st tr) (image_body w2 next st tr).
Proof.
  unfold image_body. apply bind_alike; [apply runs_alike_refl|].
  intros image t. apply bind_alike; [apply invoke_alike, Hw|].
  intros tags t1. apply bind_alike; [apply runs_alike_refl|].
  intros has t2. destruct (negb has); [apply runs_alike_refl|].
  apply bind_alike; [apply runs_alike_refl|].
  intros tag_list t3.
  destruct tag_list; try apply runs_alike_refl;
    (apply bind_alike; [apply runs_alike_refl|]; intros elems t4;
     apply bind_alike; [apply for_tags_alike|]; intros st' t5;
     apply runs_alike_refl).
Qed.

Lemma for_images_alike (images : list (result str)) :
  forall st tr,
    runs_alike (for_images w1 images st tr) (for_images w2 images st tr).
Proof.
  induction images as [|next images IH]; intros st tr; cbn [for_images].
  - apply runs_alike_refl.
  - apply bind_alike; [apply image_body_alike|].
    intros [st'|r] t; [apply IH|apply runs_alike_refl].
Qed.

Lemma get_image_delete_list_alike (proj : project) (data : pyval)
      (tr : trace) :
  runs_alike (get_image_delete_list unicode_lower env fs w1 proj data tr)
             (get_image_delete_list unicode_lower env fs w2 proj data tr).
Proof.
  unfold get_image_delete_list.
  apply bind_alike; [apply runs_alike_refl|]. intros template t.
  apply bind_alike; [apply runs_alike_refl|]. intros attribute t1.
  apply bind_alike; [|intros; apply runs_alike_refl].
  destruct attribute as [[|c name]|]; try apply runs_alike_refl.
  apply try_except_alike.
  - apply bind_alike; [apply invoke_alike, Hw|].
    intros; apply runs_alike_refl.
  - intros e1 e2 He.
    destruct e1, e2; simpl in He; try discriminate; try contradiction; auto.
    intros; apply runs_alike_refl.
Qed.

Lemma cleanup_alike (proj : project) (data : pyval) (tr : trace) :
  runs_alike (cleanup unicode_lower env fs w1 proj data tr)
             (cleanup unicode_lower env fs w2 proj data tr).
Proof.
  unfold cleanup.
  apply bind_alike; [apply get_image_delete_list_alike|]. intros images t.
  apply bind_alike; [apply for_images_alike|].
  intros; apply runs_alike_refl.
Qed.

End Undisclosed.

(** ** Splitting the template *)

Section Split.

Lemma split_go_nonempty (sep : char) (cur s : str) : split_go sep cur s <> [].
Proof.
  revert cur; induction s as [|c s IH]; intros cur; simpl; [discriminate|].
  destruct (N.eqb c sep); [discriminate|apply IH].
Qed.

Lemma split_go_join (sep : char) (s : str) : forall cur,
  join sep (split_go sep cur s) = rev cur ++ s.
Proof.
  induction s as [|c s IH]; intros cur; simpl.
  - symmetry; apply app_nil_r.
  - destruct (N.eqb c sep) eqn:E.
    + apply N.eqb_eq in E; subst c.
      specialize (IH []). simpl in IH.
      destruct (split_go sep [] s) eqn:Hs.
      * exfalso. eapply split_go_nonempty; eauto.
      * change (join sep (rev cur :: s0 :: l))
          with (rev cur ++ sep :: join sep (s0 :: l)).
        rewrite IH. reflexivity.
    + rewrite IH. simpl. rewrite <- app_assoc. reflexivity.
Qed.

Lemma split_go_no_sep (sep : char) (s : str) : forall cur,
  ~ In sep cur -> Forall (fun piece => ~ In sep piece) (split_go sep cur s).
Proof.
  induction s as [|c s IH]; intros cur Hc; simpl.
  - constructor; [|constructor]. rewrite <- in_rev. exact Hc.
  - destruct (N.eqb c sep) eqn:E.
    + constructor; [rewrite <- in_rev; exact Hc|]. apply IH. intros [].
    + apply IH. intros [->|H]; [|auto].
      rewrite N.eqb_refl in E. discriminate.
Qed.

(** [split] cuts at every separator and nowhere else. *)
Lemma split_spec (sep : char) (s : str) :
  join sep (split sep s) = s
  /\ Forall (fun piece => ~ In sep piece) (split sep s).
Proof.
  split; [apply (split_go_join sep s [])|].
  apply split_go_no_sep. intros [].
Qed.

End Split.

(** ** What [cleanup] and [get_image_delete_list] return *)

Section CleanupFacts.

Variable unicode_lower : str -> str.
Variable env : Config.environ.
Variable fs : Config.files.
Variable w : world.

(** Whatever the configuration, a generator that starts gives the pieces
    of one template, formatted in order with the slug of the source branch
    and the project path. *)
Lemma get_image_delete_list_shape (proj : project) (data : pyval) (tr : trace)
      (images : list (result str)) (tr' : trace) :
  get_image_delete_list unicode_lower env fs w proj data tr = (Ok images, tr') ->
  exists template oa src b p,
    Py.getitem data (lit "object_attributes") = Ok oa
    /\ Py.getitem oa (lit "source_branch") = Ok (PStr b)
    /\ Py.getitem oa (lit "source") = Ok src
    /\ Py.getitem src (lit "path_with_namespace") = Ok p
    /\ images
       = List.map (fun piece =>
                     Py.format piece
                               [(lit "branch", PStr (slugify unicode_lower b));
                                (lit "project_path", p)])
                  (split 44%N template).
Proof.
  unfold get_image_delete_list, bind, lift, ret, Config.get.
  change (str_eqb (lit "IMAGE_NAME_TEMPLATE") (lit "GITLAB_TOKEN")) with false.
  change (str_eqb (lit "IMAGE_NAME_TEMPLATE") (lit "HOOK_TOKEN")) with false.
  change (str_eqb (lit "IMAGE_NAME_PROJECT_ATTRIBUTE") (lit "GITLAB_TOKEN")) with false.
  change (str_eqb (lit "IMAGE_NAME_PROJECT_ATTRIBUTE") (lit "HOOK_TOKEN")) with false.
  cbv iota. intros H.
  match type of H with
  | match ?m with _ => _ end = _ =>
      destruct m as [[[template|]| |] t0]; try discriminate
  end.
  - destruct (Py.getitem data (lit "object_attributes")) as [oa| |] eqn:Hoa;
      try discriminate.
    destruct (Py.getitem oa (lit "source_branch")) as [[| | |b| |]| |] eqn:Hb;
      try discriminate.
    destruct (Py.getitem oa (lit "source")) as [src| |] eqn:Hsrc;
      try discriminate.
    destruct (Py.getitem src (lit "path_with_namespace")) as [p| |] eqn:Hp;
      try discriminate.
    inv_pair H. exists template, oa, src, b, p. auto.
  - repeat break_match; discriminate.
Qed.

(** C8. With no project attribute configured, the generator gives one
    image name for each piece of the template between commas, in the
    order of the template, each piece formatted with the branch slug and
    the project path; the pieces are those of the template cut at every
    comma.  The default template with path [grp/app] and branch [fix-1]
    gives [grp/app/fix-1] alone, and the template
    [%(project_path)s/a,%(project_path)s/b] gives [grp/app/a] then
    [grp/app/b].  Under any configuration, what the generator gives is the
    pieces of one template formatted in order. *)
Theorem image_names_in_template_order :
  (forall proj data oa src b p tr,
      Py.getitem data (lit "object_attributes") = Ok (PDict oa) ->
      Py.dict_get oa (lit "source_branch") = Some (PStr b) ->
      Py.dict_get oa (lit "source") = Some (PDict src) ->
      Py.dict_get src (lit "path_with_namespace") = Some p ->
      env (lit "IMAGE_NAME_PROJECT_ATTRIBUTE") = None ->
      let template := match env (lit "IMAGE_NAME_TEMPLATE") with
                      | Some t => t
                      | None => default_template
                      end in
      let attrs := [(lit "branch", PStr (slugify unicode_lower b));
                    (lit "project_path", p)] in
      get_image_delete_list unicode_lower env fs w proj data tr
      = (Ok (List.map (fun piece => Py.format piece attrs)
                      (split 44%N template)), tr)
      /\ join 44%N (split 44%N template) = template
      /\ Forall (fun piece => ~ In 44%N piece) (split 44%N template))
  /\ (forall proj tr,
         get_image_delete_list unicode_lower (Fixture.env_of []) fs w proj
                               Fixture.merged_event tr
         = (Ok [Ok (lit "grp/app/fix-1")], tr))
  /\ (forall proj tr,
         get_image_delete_list unicode_lower Fixture.two_templates fs w proj
                               Fixture.merged_event tr
         = (Ok [Ok (lit "grp/app/a"); Ok (lit "grp/app/b")], tr))
  /\ (forall proj data tr images tr',
         get_image_delete_list unicode_lower env fs w proj data tr
         = (Ok images, tr') ->
         exists template oa src b p,
           Py.getitem data (lit "object_attributes") = Ok oa
           /\ Py.getitem oa (lit "source_branch") = Ok (PStr b)
           /\ Py.getitem oa (lit "source") = Ok src
           /\ Py.getitem src (lit "path_with_namespace") = Ok p
           /\ images
              = List.map (fun piece =>
                            Py.format piece
                              [(lit "branch", PStr (slugify unicode_lower b));
                               (lit "project_path", p)])
                         (split 44%N template)).
Proof.
  split; [|split; [|split]]; [|intros; reflexivity|intros; reflexivity|
                              intros; eapply get_image_delete_list_shape; eauto].
  intros proj data oa src b p tr Hoa Hb Hsrc Hp Hattr template attrs.
  split; [|apply split_spec].
  unfold get_image_delete_list, bind, lift, ret, Config.get.
  change (str_eqb (lit "IMAGE_NAME_TEMPLATE") (lit "GITLAB_TOKEN")) with false.
  change (str_eqb (lit "IMAGE_NAME_TEMPLATE") (lit "HOOK_TOKEN")) with false.
  change (str_eqb (lit "IMAGE_NAME_PROJECT_ATTRIBUTE") (lit "GITLAB_TOKEN")) with false.
  change (str_eqb (lit "IMAGE_NAME_PROJECT_ATTRIBUTE") (lit "HOOK_TOKEN")) with false.
  cbv iota. rewrite Hattr, Hoa. cbn [Py.getitem]. rewrite Hb, Hsrc.
  cbn [Py.getitem]. rewrite Hp. subst template attrs.
  destruct (env (lit "IMAGE_NAME_TEMPLATE")); reflexivity.
Qed.

(** C4. Every response of [cleanup] carries the aggregate of the codes of
    its tag outcomes: 200 to start with, overwritten by each code that is
    not 200, hence the last such code, or 200 when there is none.  The
    outcomes of an image come one for each tag in the order of the tags.
    When the only image has the tags [v1] and [v2], [v1] is deleted and
    [v2] has no digest, the outcomes are those of [v1] (200) and [v2]
    (404) in this order and the status is 404. *)
Theorem status_is_last_code_not_200 :
  (forall proj data tr resp tr',
      cleanup unicode_lower env fs w proj data tr = (Ok resp, tr') ->
      exists messages,
        resp = JsonResponse (PList messages) (aggregate_status (codes messages))
        /\ aggregate_status (codes messages)
           = last (filter (fun c => negb (Z.eqb c 200)) (codes messages)) 200%Z)
  /\ (forall image tags st tr st' tr',
         for_tags w image tags st tr = (Ok st', tr') ->
         exists outs,
           fst st' = fst st ++ outs
           /\ Forall2 (fun tag m => exists message code,
                           m = outcome image tag message code) tags outs
           /\ snd st' = fold_left overwrite (codes outs) (snd st))
  /\ (forall proj data tr0 image tr kv v1 v2 digest,
         get_image_delete_list unicode_lower env fs w proj data tr0
         = (Ok [Ok image], tr) ->
         client_get_tags w tr image = Ok (PDict kv) ->
         Py.dict_get kv (lit "tags") = Some (PList [v1; v2]) ->
         client_get_digest w (tr ++ [GetTags image]) image v1 = Ok (Some digest) ->
         client_delete_image w (tr ++ [GetTags image; GetDigest image v1])
                             image v1 = Ok true ->
         client_get_digest w (tr ++ [GetTags image; GetDigest image v1;
                                     DeleteImage image v1]) image v2 = Ok None ->
         cleanup unicode_lower env fs w proj data tr0
         = (Ok (JsonResponse
                  (PList [outcome image v1 (lit "Image deleted") 200;
                          outcome image v2 (lit "Image not found") 404])
                  404),
            tr ++ [GetTags image; GetDigest image v1;
                   DeleteImage image v1; GetDigest image v2])).
Proof.
  split; [|split].
  - intros proj data tr resp tr' H.
    destruct (cleanup_consistent _ _ _ _ _ _ _ H) as [messages ->].
    exists messages. split; [reflexivity|].
    unfold aggregate_status. apply fold_overwrite_last.
  - intros image tags st tr st' tr' H. eapply for_tags_result; eauto.
  - intros proj data tr0 image tr kv v1 v2 digest Hg Ht Hkv Hd1 Hdel Hd2.
    unfold cleanup, bind. rewrite Hg. cbn [for_images].
    unfold bind, image_body, bind, lift, invoke. rewrite Ht.
    cbn [Py.contains Py.getitem]. rewrite Hkv. cbn [negb Py.iter for_tags].
    unfold bind, tag_body, try_except, bind, delete_image, bind, invoke.
    rewrite Hd1. rewrite <- !app_assoc. cbn [app]. rewrite Hdel.
    unfold ret. rewrite Hd2. rewrite <- app_assoc. reflexivity.
Qed.

(** C5 (amended). When the digest lookup or the deletion for a tag raises
    an [HTTPError], the loop goes on with the remaining tags after
    recording for that tag the outcome with the fixed message and code
    500, and sets the status to 500; two registries that differ only in
    the detail texts of the HTTP errors they raise get the same response
    from [cleanup], so no detail text is in it.  Any other exception of
    the two calls, a transport error that is not an [HTTPError] included,
    is not caught: the loop ends with it, the remaining tags are not
    processed and there is no outcome for the tag. *)
Theorem only_http_error_is_caught :
  (forall image tag rest messages status tr detail,
      client_get_digest w tr image tag = Raise (HTTPError detail) ->
      for_tags w image (tag :: rest) (messages, status) tr
      = for_tags w image rest
                 (messages ++ [outcome image tag undisclosed 500], 500%Z)
                 (tr ++ [GetDigest image tag]))
  /\ (forall image tag rest messages status tr digest detail,
         client_get_digest w tr image tag = Ok (Some digest) ->
         client_delete_image w (tr ++ [GetDigest image tag]) image tag
         = Raise (HTTPError detail) ->
         for_tags w image (tag :: rest) (messages, status) tr
         = for_tags w image rest
                    (messages ++ [outcome image tag undisclosed 500], 500%Z)
                    (tr ++ [GetDigest image tag; DeleteImage image tag]))
  /\ (forall w' proj data tr resp tr',
         world_alike w w' ->
         cleanup unicode_lower env fs w proj data tr = (Ok resp, tr') ->
         cleanup unicode_lower env fs w' proj data tr = (Ok resp, tr'))
  /\ (forall image tag rest messages status tr e,
         client_get_digest w tr image tag = Raise e ->
         (forall detail, e <> HTTPError detail) ->
         for_tags w image (tag :: rest) (messages, status) tr
         = (Raise e, tr ++ [GetDigest image tag]))
  /\ (forall image tag rest messages status tr digest e,
         client_get_digest w tr image tag = Ok (Some digest) ->
         client_delete_image w (tr ++ [GetDigest image tag]) image tag
         = Raise e ->
         (forall detail, e <> HTTPError detail) ->
         for_tags w image (tag :: rest) (messages, status) tr
         = (Raise e, tr ++ [GetDigest image tag; DeleteImage image tag])).
Proof.
  split; [|split; [|split; [|split]]].
  - intros image tag rest messages status tr detail Hd.
    cbn [for_tags]. unfold bind at 1.
    unfold tag_body, try_except, bind, delete_image, bind, invoke.
    rewrite Hd. reflexivity.
  - intros image tag rest messages status tr digest detail Hd Hdel.
    cbn [for_tags]. unfold bind at 1.
    unfold tag_body, try_except, bind, delete_image, bind, invoke.
    rewrite Hd, Hdel. rewrite <- app_assoc. reflexivity.
  - intros w' proj data tr resp tr' Hw H.
    pose proof (cleanup_alike unicode_lower env fs Hw proj data tr) as [Ha Ht].
    rewrite H in Ha, Ht. cbn [fst snd] in Ha, Ht.
    destruct (cleanup unicode_lower env fs w' proj data tr) as [[r| |] t];
      cbn [fst snd alike] in Ha, Ht; try contradiction.
    subst. reflexivity.
  - intros image tag rest messages status tr e Hd He.
    cbn [for_tags]. unfold bind at 1.
    unfold tag_body, try_except, bind, delete_image, bind, invoke.
    rewrite Hd. destruct e; try reflexivity.
    exfalso. apply (He detail). reflexivity.
  - intros image tag rest messages status tr digest e Hd Hdel He.
    cbn [for_tags]. unfold bind at 1.
    unfold tag_body, try_except, bind, delete_image, bind, invoke.
    rewrite Hd, Hdel. rewrite <- app_assoc.
    destruct e; try reflexivity.
    exfalso. apply (He detail). reflexivity.
Qed.

(** C3 (amended). When the registry answers for an image with an object
    that has no [tags] field or whose [tags] is null, the response is the
    outcomes collected for the images before it followed by one object
    that has the message [Tags not found] and no image or tag, the last
    call made is that [get_tags], and the images after it are not looked
    at, whatever they are; when nothing was collected before, the response
    is that one object with status 200. *)
Theorem tags_not_found_ends_request
        (proj : project) (data : pyval) (tr0 : trace)
        (pre post : list (result str)) (image : str) (tr : trace)
        (st1 : progress) (tr1 : trace) (kv : list (str * pyval)) :
  get_image_delete_list unicode_lower env fs w proj data tr0
  = (Ok (pre ++ Ok image :: post), tr) ->
  for_images w pre ([], 200%Z) tr = (Ok (Next st1), tr1) ->
  client_get_tags w tr1 image = Ok (PDict kv) ->
  no_tags kv ->
  cleanup unicode_lower env fs w proj data tr0
  = (Ok (JsonResponse (PList (fst st1 ++ [tags_not_found])) (snd st1)),
     tr1 ++ [GetTags image])
  /\ (fst st1 = [] ->
      cleanup unicode_lower env fs w proj data tr0
      = (Ok (JsonResponse (PList [tags_not_found]) 200), tr1 ++ [GetTags image]))
  /\ tags_not_found = PDict [(lit "message", PStr (lit "Tags not found"))].
Proof.
  intros Hg Hpre Ht Hn.
  assert (Hc : cleanup unicode_lower env fs w proj data tr0
               = (Ok (JsonResponse (PList (fst st1 ++ [tags_not_found])) (snd st1)),
                  tr1 ++ [GetTags image]))
    by (eapply cleanup_abort; eauto).
  split; [exact Hc|]. split; [|reflexivity].
  intros Hnil. rewrite Hc.
  assert (Hs : flow_consistent (Next st1))
    by (eapply for_images_consistent; eauto using consistent_start).
  cbn [flow_consistent] in Hs. unfold consistent in Hs.
  rewrite Hs, Hnil. reflexivity.
Qed.

(** C10. When the abort happens at an image that comes after others, the
    body is all the outcomes of the earlier images followed by the one
    [Tags not found] object, and the status is the aggregate of the codes
    of those earlier outcomes, as it stood when the abort happened. *)
Theorem abort_keeps_outcomes_and_status
        (proj : project) (data : pyval) (tr0 : trace)
        (pre post : list (result str)) (image : str) (tr : trace)
        (st1 : progress) (tr1 : trace) (kv : list (str * pyval)) :
  get_image_delete_list unicode_lower env fs w proj data tr0
  = (Ok (pre ++ Ok image :: post), tr) ->
  for_images w pre ([], 200%Z) tr = (Ok (Next st1), tr1) ->
  client_get_tags w tr1 image = Ok (PDict kv) ->
  no_tags kv ->
  exists resp tr',
    cleanup unicode_lower env fs w proj data tr0 = (Ok resp, tr')
    /\ body resp = Json (PList (fst st1 ++ [tags_not_found]))
    /\ status resp = snd st1
    /\ status resp = aggregate_status (codes (fst st1)).
Proof.
  intros Hg Hpre Ht Hn. eexists; eexists.
  split; [eapply cleanup_abort; eauto|].
  cbn [body status JsonResponse]. split; [reflexivity|]. split; [reflexivity|].
  assert (Hs : flow_consistent (Next st1))
    by (eapply for_images_consistent; eauto using consistent_start).
  exact Hs.
Qed.

End CleanupFacts.

(** ** The statements at concrete requests and registries *)

Section Instances.

Import Fixture.

(** C1 (as stated, refuted). The request passes both header checks, its
    body lacks [object_attributes.state], and [validate] raises
    [KeyError] where the claim has the 204 response. *)
Lemma merge_request_without_state_raises :
  passes_headers (Some (lit "secret")) bare_merge_request
  /\ json bare_merge_request
     = Ok (PDict [(lit "event_type", PStr (lit "merge_request"))])
  /\ validate no_table (env_of []) no_files registry (Some (lit "secret"))
              bare_merge_request []
     = (Raise (KeyError (lit "object_attributes")), [])
  /\ validate no_table (env_of []) no_files registry (Some (lit "secret"))
              bare_merge_request []
     <> (Ok NoContentResponse, []).
Proof.
  split; [|split; [|split]].
  - split; [reflexivity|]. exists (lit "Merge Request Hook"). split; reflexivity.
  - reflexivity.
  - reflexivity.
  - discriminate.
Qed.

Lemma missing_fields_witness :
  passes_headers (Some (lit "secret")) push_request
  /\ json push_request = Ok (PDict [(lit "event_name", PStr (lit "push"))])
  /\ validate no_table (env_of []) no_files registry (Some (lit "secret"))
              push_request []
     = (Ok NoContentResponse, []).
Proof.
  assert (Hh : passes_headers (Some (lit "secret")) push_request).
  { split; [reflexivity|]. exists (lit "System Hook"). split; reflexivity. }
  assert (Hj : json push_request
               = Ok (PDict [(lit "event_name", PStr (lit "push"))]))
    by reflexivity.
  split; [exact Hh|]. split; [exact Hj|].
  exact (proj1 (@missing_fields no_table (env_of []) no_files registry
                                (Some (lit "secret")) push_request _ [] Hh Hj)
               eq_refl).
Defined.

Lemma token_mismatch_no_content_witness :
  get_header forged_request (lit "X-GITLAB-TOKEN") <> Some (lit "secret")
  /\ validate no_table (env_of []) no_files registry (Some (lit "secret"))
              forged_request []
     = (Ok NoContentResponse, []).
Proof.
  assert (H : get_header forged_request (lit "X-GITLAB-TOKEN")
              <> Some (lit "secret")) by (simpl; discriminate).
  split; [exact H|].
  exact (proj1 (@token_mismatch_no_content no_table (env_of []) no_files
                                           registry (Some (lit "secret"))
                                           forged_request [] H)).
Defined.

(** C3 (as stated, refuted). The registry answers [{"tags": null}] for
    the second image after the first one gave two outcomes: the response
    has three objects, not the one the claim has. *)
Lemma tags_null_after_outcomes :
  client_get_tags registry calls_a image_b = Ok (PDict [(lit "tags", PNone)])
  /\ cleanup no_table two_templates no_files registry proj merged_event []
     = (Ok (JsonResponse (PList [deleted_v1; missing_v2; tags_not_found]) 404),
        calls_a ++ [GetTags image_b])
  /\ PList [deleted_v1; missing_v2; tags_not_found] <> PList [tags_not_found].
Proof. split; [|split]; [reflexivity|reflexivity|discriminate]. Qed.

Lemma tags_not_found_ends_request_witness :
  get_image_delete_list no_table three_templates no_files registry proj
                        merged_event []
  = (Ok ([Ok image_a] ++ Ok image_b :: [Raise (KeyError (lit "missing"))]), [])
  /\ for_images registry [Ok image_a] ([], 200%Z) []
     = (Ok (Next ([deleted_v1; missing_v2], 404%Z)), calls_a)
  /\ client_get_tags registry calls_a image_b = Ok (PDict [(lit "tags", PNone)])
  /\ no_tags [(lit "tags", PNone)]
  /\ cleanup no_table three_templates no_files registry proj merged_event []
     = (Ok (JsonResponse (PList ([deleted_v1; missing_v2] ++ [tags_not_found]))
                         404),
        calls_a ++ [GetTags image_b]).
Proof.
  assert (H1 : get_image_delete_list no_table three_templates no_files
                                     registry proj merged_event []
               = (Ok ([Ok image_a] ++ Ok image_b
                                   :: [Raise (KeyError (lit "missing"))]), []))
    by reflexivity.
  assert (H2 : for_images registry [Ok image_a] ([], 200%Z) []
               = (Ok (Next ([deleted_v1; missing_v2], 404%Z)), calls_a))
    by reflexivity.
  assert (H3 : client_get_tags registry calls_a image_b
               = Ok (PDict [(lit "tags", PNone)])) by reflexivity.
  assert (H4 : no_tags [(lit "tags", PNone)]) by (right; reflexivity).
  split; [exact H1|]. split; [exact H2|]. split; [exact H3|]. split; [exact H4|].
  exact (proj1 (@tags_not_found_ends_request
                  no_table three_templates no_files registry proj merged_event
                  [] [Ok image_a] [Raise (KeyError (lit "missing"))] image_b []
                  ([deleted_v1; missing_v2], 404%Z) calls_a
                  [(lit "tags", PNone)] H1 H2 H3 H4)).
Defined.

Lemma abort_keeps_outcomes_and_status_witness :
  get_image_delete_list no_table two_templates no_files registry proj
                        merged_event []
  = (Ok ([Ok image_a] ++ Ok image_b :: []), [])
  /\ for_images registry [Ok image_a] ([], 200%Z) []
     = (Ok (Next ([deleted_v1; missing_v2], 404%Z)), calls_a)
  /\ client_get_tags registry calls_a image_b = Ok (PDict [(lit "tags", PNone)])
  /\ no_tags [(lit "tags", PNone)]
  /\ exists resp tr',
       cleanup no_table two_templates no_files registry proj merged_event []
       = (Ok resp, tr')
       /\ body resp = Json (PList ([deleted_v1; missing_v2] ++ [tags_not_found]))
       /\ status resp = 404%Z
       /\ status resp = aggregate_status (codes [deleted_v1; missing_v2]).
Proof.
  assert (H1 : get_image_delete_list no_table two_templates no_files
                                     registry proj merged_event []
               = (Ok ([Ok image_a] ++ Ok image_b :: []), []))
    by reflexivity.
  assert (H2 : for_images registry [Ok image_a] ([], 200%Z) []
               = (Ok (Next ([deleted_v1; missing_v2], 404%Z)), calls_a))
    by reflexivity.
  assert (H3 : client_get_tags registry calls_a image_b
               = Ok (PDict [(lit "tags", PNone)])) by reflexivity.
  assert (H4 : no_tags [(lit "tags", PNone)]) by (right; reflexivity).
  split; [exact H1|]. split; [exact H2|]. split; [exact H3|]. split; [exact H4|].
  exact (@abort_keeps_outcomes_and_status
           no_table two_templates no_files registry proj merged_event
           [] [Ok image_a] [] image_b []
           ([deleted_v1; missing_v2], 404%Z) calls_a
           [(lit "tags", PNone)] H1 H2 H3 H4).
Defined.

Lemma status_is_last_code_not_200_witness :
  get_image_delete_list no_table one_template no_files registry proj
                        merged_event []
  = (Ok [Ok image_a], [])
  /\ cleanup no_table one_template no_files registry proj merged_event []
     = (Ok (JsonResponse (PList [deleted_v1; missing_v2]) 404), [] ++ calls_a)
  /\ exists messages,
       JsonResponse (PList [deleted_v1; missing_v2]) 404
       = JsonResponse (PList messages) (aggregate_status (codes messages))
       /\ aggregate_status (codes messages)
          = last (filter (fun c => negb (Z.eqb c 200)) (codes messages)) 200%Z.
Proof.
  assert (H1 : get_image_delete_list no_table one_template no_files
                                     registry proj merged_event []
               = (Ok [Ok image_a], [])) by reflexivity.
  pose proof (@status_is_last_code_not_200 no_table one_template no_files
                                           registry) as [Hall [_ Hex]].
  assert (H2 : cleanup no_table one_template no_files registry proj
                       merged_event []
               = (Ok (JsonResponse (PList [deleted_v1; missing_v2]) 404),
                  [] ++ calls_a)).
  { apply (Hex proj merged_event [] image_a []
               [(lit "name", PStr (lit "repo")); (lit "tags", PList [v1; v2])]
               v1 v2 (lit "sha256:0") H1); reflexivity. }
  split; [exact H1|]. split; [exact H2|].
  exact (Hall proj merged_event [] _ _ H2).
Defined.

(** C5 (as stated, refuted). The digest lookup for [v1] raises a
    transport error that is not an [HTTPError] (the connection is
    refused): [cleanup] raises it, there is no outcome for [v1] and [v2]
    is never looked up, where the claim has a 500 outcome and the loop
    going on. *)
Lemma connection_error_ends_request :
  client_get_digest refusing_registry [GetTags image_a] image_a v1
  = Raise (ConnectionError (lit "Connection refused"))
  /\ cleanup no_table one_template no_files refusing_registry proj
             merged_event []
     = (Raise (ConnectionError (lit "Connection refused")),
        [GetTags image_a; GetDigest image_a v1])
  /\ ~ In (GetDigest image_a v2) [GetTags image_a; GetDigest image_a v1].
Proof.
  split; [reflexivity|]. split; [reflexivity|].
  simpl. intros [H|[H|[]]]; discriminate H.
Qed.

Lemma only_http_error_is_caught_witness :
  client_get_digest (failing_registry (lit "503 from 10.0.0.7")) [GetTags image_a]
                    image_a v1
  = Raise (HTTPError (lit "503 from 10.0.0.7"))
  /\ for_tags (failing_registry (lit "503 from 10.0.0.7")) image_a [v1; v2]
              ([], 200%Z) [GetTags image_a]
     = for_tags (failing_registry (lit "503 from 10.0.0.7")) image_a [v2]
                ([] ++ [hidden_v1], 500%Z)
                ([GetTags image_a] ++ [GetDigest image_a v1])
  /\ world_alike (failing_registry (lit "503 from 10.0.0.7"))
                 (failing_registry (lit "timeout"))
  /\ cleanup no_table one_template no_files (failing_registry (lit "timeout"))
             proj merged_event []
     = (Ok (JsonResponse (PList [hidden_v1; missing_v2]) 404),
        [GetTags image_a; GetDigest image_a v1; GetDigest image_a v2]).
Proof.
  assert (H1 : client_get_digest (failing_registry (lit "503 from 10.0.0.7"))
                                 [GetTags image_a] image_a v1
               = Raise (HTTPError (lit "503 from 10.0.0.7"))) by reflexivity.
  assert (Hw : world_alike (failing_registry (lit "503 from 10.0.0.7"))
                           (failing_registry (lit "timeout"))).
  { constructor; intros; try apply alike_refl.
    cbn [failing_registry static_world client_get_digest].
    destruct (Py.eq_str tag (lit "v1")); simpl; auto. }
  assert (H2 : cleanup no_table one_template no_files
                       (failing_registry (lit "503 from 10.0.0.7"))
                       proj merged_event []
               = (Ok (JsonResponse (PList [hidden_v1; missing_v2]) 404),
                  [GetTags image_a; GetDigest image_a v1; GetDigest image_a v2]))
    by reflexivity.
  pose proof (@only_http_error_is_caught
                no_table one_template no_files
                (failing_registry (lit "503 from 10.0.0.7")))
    as [Hdigest [_ [Hsame _]]].
  split; [exact H1|].
  split; [exact (Hdigest image_a v1 [v2] [] 200%Z [GetTags image_a] _ H1)|].
  split; [exact Hw|].
  exact (Hsame _ proj merged_event [] _ _ Hw H2).
Defined.

Lemma image_names_in_template_order_witness :
  Py.getitem merged_event (lit "object_attributes")
  = Ok (PDict [(lit "state", PStr (lit "merged"));
               (lit "source_branch", PStr (lit "fix-1"));
               (lit "source",
                PDict [(lit "path_with_namespace", PStr (lit "grp/app"))])])
  /\ env_of [] (lit "IMAGE_NAME_PROJECT_ATTRIBUTE") = None
  /\ get_image_delete_list no_table (env_of []) no_files registry proj
                           merged_event []
     = (Ok (List.map
              (fun piece =>
                 Py.format piece
                           [(lit "branch", PStr (slugify no_table (lit "fix-1")));
                            (lit "project_path", PStr (lit "grp/app"))])
              (split 44%N default_template)), []).
Proof.
  assert (H1 : Py.getitem merged_event (lit "object_attributes")
               = Ok (PDict [(lit "state", PStr (lit "merged"));
                            (lit "source_branch", PStr (lit "fix-1"));
                            (lit "source",
                             PDict [(lit "path_with_namespace",
                                     PStr (lit "grp/app"))])]))
    by reflexivity.
  assert (H2 : env_of [] (lit "IMAGE_NAME_PROJECT_ATTRIBUTE") = None)
    by reflexivity.
  split; [exact H1|]. split; [exact H2|].
  exact (proj1 (proj1 (@image_names_in_template_order
                         no_table (env_of []) no_files registry)
                      proj merged_event _
                      [(lit "path_with_namespace", PStr (lit "grp/app"))]
                      (lit "fix-1") (PStr (lit "grp/app")) []
                      H1 eq_refl eq_refl eq_refl H2)).
Defined.

End Instances.

(** ** More on the slug: what the two substitutions do to a branch name *)

Section SlugShape.

Variable unicode_lower : str -> str.

Lemma run_length_le (p : char -> bool) (s : str) :
  run_length p s <= List.length s.
Proof.
  induction s as [|c s IH]; simpl; [lia|]. destruct (p c); simpl; lia.
Qed.

Lemma star_last_run (p : Re.cls) (s : str) : forall bos acc,
  Re.star p false (Re.run [] false) bos acc s
  = Some (rev acc, skipn (run_length p s) s).
Proof.
  induction s as [|c s IH]; intros bos acc; cbn [Re.star Re.push run_length].
  - reflexivity.
  - destruct (p c); [rewrite IH|]; reflexivity.
Qed.

Lemma unsafe_match_run (bos : bool) (c : char) (s : str) :
  slug_char c = false ->
  Re.match_at re_unsafe bos (c :: s)
  = Some ([], skipn (run_length (fun c => negb (slug_char c)) s) s).
Proof.
  intros H. unfold Re.match_at, re_unsafe. cbn [Re.run]. rewrite H.
  cbn [negb Re.push]. apply star_last_run.
Qed.

Lemma unsafe_sub_collapse (s : str) :
  (forall bos,
      Re.sub_from re_unsafe (fun _ => lit "-") bos 0 s = collapse false s)
  /\ Re.sub_from re_unsafe (fun _ => lit "-") false
                 (run_length (fun c => negb (slug_char c)) s) s
     = collapse true s.
Proof.
  induction s as [|c s [IH1 IH2]].
  - split; [intros bos|]; reflexivity.
  - assert (H1 : forall bos,
               Re.sub_from re_unsafe (fun _ => lit "-") bos 0 (c :: s)
               = collapse false (c :: s)).
    { intros bos. cbn [Re.sub_from collapse].
      destruct (slug_char c) eqn:Hc.
      - rewrite unsafe_no_match by assumption. rewrite IH1. reflexivity.
      - rewrite unsafe_match_run by assumption.
        pose proof (run_length_le (fun c => negb (slug_char c)) s) as Hle.
        rewrite length_skipn. cbn [List.length].
        replace (S (List.length s)
                 - (List.length s
                    - run_length (fun c => negb (slug_char c)) s))
          with (S (run_length (fun c => negb (slug_char c)) s)) by lia.
        rewrite IH2. reflexivity. }
    split; [exact H1|].
    cbn [run_length collapse]. destruct (slug_char c) eqn:Hc; cbn [negb].
    + rewrite H1. cbn [collapse]. rewrite Hc. reflexivity.
    + cbn [Re.sub_from]. exact IH2.
Qed.

Lemma not_slug_not_alnum (c : char) : slug_char c = false -> alnum c = false.
Proof.
  intros H. destruct (alnum c) eqn:E; [|reflexivity].
  apply alnum_slug_char in E. congruence.
Qed.

Lemma alnum_not_hyphen (c : char) : alnum c = true -> is_hyphen c = false.
Proof.
  intros H. destruct (is_hyphen c) eqn:E; [|reflexivity].
  apply hyphen_not_alnum in E. congruence.
Qed.

Lemma filter_alnum_collapse (s : str) : forall in_run,
  filter alnum (collapse in_run s) = filter alnum s.
Proof.
  induction s as [|c s IH]; intros in_run; [reflexivity|].
  cbn [collapse filter]. destruct (slug_char c) eqn:Hc.
  - cbn [filter]. rewrite IH. reflexivity.
  - rewrite (not_slug_not_alnum c Hc). destruct in_run; [apply IH|].
    cbn [filter]. change (alnum 45%N) with false. apply IH.
Qed.

Lemma filter_alnum_hyphens (t : str) :
  forallb is_hyphen t = true -> filter alnum t = [].
Proof.
  induction t as [|c t IH]; simpl; [reflexivity|].
  intros H. apply andb_true_iff in H as [Hc Ht].
  rewrite (hyphen_not_alnum c Hc). auto.
Qed.

(** The captured group is the subject without hyphens at its two ends. *)
Lemma trim_capture_split (z g : str) :
  forallb slug_char z = true -> trim_capture z = Some g ->
  exists a t, z = a ++ g ++ t
              /\ forallb is_hyphen a = true /\ forallb is_hyphen t = true.
Proof.
  revert g; induction z as [|c z IH]; intros g Hz; [discriminate|].
  simpl in Hz. apply andb_true_iff in Hz as [Hc Hz].
  assert (Hhere : capture_here (c :: z) = Some g ->
                  exists a t, c :: z = a ++ g ++ t
                              /\ forallb is_hyphen a = true
                              /\ forallb is_hyphen t = true).
  { cbn [capture_here].
    destruct (upto_last_alnum z) as [v|] eqn:Hu; simpl; [|discriminate].
    intros E; injection E as <-.
    destruct (upto_split z Hu) as [t [Ez [Ht _]]].
    exists [], t. split; [simpl; rewrite Ez at 1; reflexivity|].
    split; [reflexivity|]. apply upto_none; [|assumption].
    rewrite Ez, forallb_app in Hz. apply andb_true_iff in Hz. tauto. }
  cbn [trim_capture]. destruct (is_hyphen c) eqn:Hh; [|exact Hhere].
  destruct (trim_capture z) as [g'|]; [|exact Hhere].
  intros E; injection E as <-.
  destruct (IH g' Hz eq_refl) as [a [t [-> [Ha Ht]]]].
  exists (c :: a), t. simpl. rewrite Hh. auto.
Qed.

Lemma filter_alnum_trimmed (z : str) :
  forallb slug_char z = true -> filter alnum (trimmed z) = filter alnum z.
Proof.
  intros Hz. unfold trimmed.
  destruct (trim_capture z) as [g|] eqn:Hg; [|reflexivity].
  destruct (trim_capture_split z Hz Hg) as [a [t [-> [Ha Ht]]]].
  rewrite !filter_app, (filter_alnum_hyphens a Ha), (filter_alnum_hyphens t Ht).
  rewrite app_nil_r. reflexivity.
Qed.

Lemma upto_ends_alnum (u : str) : forall d,
  u <> [] -> alnum (last u d) = true -> upto_last_alnum u = Some u.
Proof.
  induction u as [|a u IH]; intros d Hne Hl; [contradiction|].
  destruct u as [|b u].
  - simpl in *. rewrite Hl. reflexivity.
  - change (last (a :: b :: u) d) with (last (b :: u) d) in Hl.
    cbn [upto_last_alnum]. cbn [upto_last_alnum] in IH.
    rewrite (IH d); [reflexivity|discriminate|assumption].
Qed.

Lemma upto_last (u v : str) (d : char) :
  upto_last_alnum u = Some v -> v <> [] /\ alnum (last v d) = true.
Proof.
  revert v; induction u as [|c u IH]; intros v; simpl; [discriminate|].
  destruct (upto_last_alnum u) as [v'|].
  - intros E; injection E as <-. destruct (IH v' eq_refl) as [Hne Hl].
    split; [discriminate|]. destruct v'; [contradiction|exact Hl].
  - destruct (alnum c) eqn:Ha; [|discriminate].
    intros E; injection E as <-. split; [discriminate|exact Ha].
Qed.

Lemma trim_capture_none_alnum (z : str) :
  forallb slug_char z = true -> trim_capture z = None ->
  List.length (filter alnum z) <= 1.
Proof.
  induction z as [|c z IH]; intros Hz; [simpl; lia|].
  simpl in Hz. apply andb_true_iff in Hz as [Hc Hz].
  cbn [trim_capture capture_here filter].
  destruct (is_hyphen c) eqn:Hh.
  - rewrite (hyphen_not_alnum c Hh).
    destruct (trim_capture z); [discriminate|]. intros _. auto.
  - destruct (upto_last_alnum z) eqn:Hu; [discriminate|]. intros _.
    rewrite (filter_alnum_hyphens z (upto_none z Hz Hu)).
    destruct (alnum c); simpl; lia.
Qed.

Lemma trim_capture_ends (z g : str) (d : char) :
  forallb slug_char z = true -> trim_capture z = Some g ->
  2 <= List.length (filter alnum z) ->
  exists c g', g = c :: g' /\ alnum c = true /\ alnum (last g d) = true.
Proof.
  revert g; induction z as [|c z IH]; intros g Hz; [discriminate|].
  simpl in Hz. apply andb_true_iff in Hz as [Hc Hz].
  cbn [trim_capture capture_here filter].
  destruct (is_hyphen c) eqn:Hh.
  - rewrite (hyphen_not_alnum c Hh).
    destruct (trim_capture z) as [g'|] eqn:Hg.
    + intros E; injection E as <-. apply IH; auto.
    + intros _ Hn. pose proof (trim_capture_none_alnum z Hz Hg). lia.
  - destruct (upto_last_alnum z) as [v|] eqn:Hu; [|discriminate].
    simpl. intros E _; injection E as <-.
    destruct (upto_last z c Hu) as [Hne Hl].
    exists c, v. split; [reflexivity|].
    destruct (slug_char_cases c Hc) as [Ha|Ha]; [|congruence].
    split; [exact Ha|].
    destruct v; [contradiction|].
    change (last (c :: c0 :: v) d) with (last (c0 :: v) d).
    destruct (upto_last z d Hu) as [_ Hl']. exact Hl'.
Qed.

(** The string the trimming pattern is applied to. *)
Lemma slugify_collapse (x : str) :
  slugify unicode_lower x
  = trimmed (collapse false (firstn 63 (lower unicode_lower x))).
Proof.
  rewrite slugify_trimmed. unfold Re.sub.
  rewrite (proj1 (unsafe_sub_collapse _)). reflexivity.
Qed.

Lemma collapse_chars (s : str) : forall in_run,
  forallb slug_char (collapse in_run s) = true.
Proof.
  induction s as [|c s IH]; intros in_run; [reflexivity|].
  cbn [collapse]. destruct (slug_char c) eqn:Hc.
  - simpl. rewrite Hc. apply IH.
  - destruct in_run; [apply IH|]. simpl. apply IH.
Qed.

(** X1. A slug is made of characters of [[a-z0-9-]] only, has at most 63
    of them, and has no upper-case letter. *)
Theorem slug_alphabet_and_length (x : str) :
  forallb slug_char (slugify unicode_lower x) = true
  /\ List.length (slugify unicode_lower x) <= 63
  /\ forallb (fun c => negb (is_upper c)) (slugify unicode_lower x) = true.
Proof.
  split; [apply slugify_chars|]. split; [apply slugify_length|].
  pose proof (slugify_chars unicode_lower x) as H.
  rewrite forallb_forall in *. intros c Hc.
  rewrite slug_char_not_upper by auto. reflexivity.
Qed.

(** X2. The first substitution replaces every maximal run of characters
    outside [[a-z0-9-]] by one hyphen and keeps the other characters: the
    matcher run over the whole string gives what [collapse] gives. *)
Theorem first_substitution_collapses_runs (s : str) :
  Re.sub re_unsafe (fun _ => lit "-") s = collapse false s.
Proof. exact (proj1 (unsafe_sub_collapse s) true). Qed.

(** X3. A branch name that already has the shape of a slug (at most 63
    characters of [[a-z0-9-]], starting and ending with a letter or digit)
    is its own slug. *)
Theorem slugify_keeps_well_formed (y : str) :
  well_formed_slug y = true -> slugify unicode_lower y = y.
Proof.
  destruct y as [|c y]; [reflexivity|].
  unfold well_formed_slug. rewrite !andb_true_iff, Nat.leb_le.
  intros [[[Hc Hl] Hs] Hn].
  rewrite slugify_slug_chars by assumption.
  unfold trimmed. cbn [trim_capture capture_here].
  rewrite (alnum_not_hyphen c Hc).
  destruct y as [|b y]; [reflexivity|].
  change (last (c :: b :: y) c) with (last (b :: y) c) in Hl.
  rewrite (@upto_ends_alnum (b :: y) c); [reflexivity|discriminate|assumption].
Qed.

(** X4. The letters and digits of a slug are those of the lower-cased
    branch name cut to 63 characters, in the same order: the slug differs
    from it only in hyphens. *)
Theorem slug_keeps_letters_and_digits (x : str) :
  filter alnum (slugify unicode_lower x)
  = filter alnum (firstn 63 (lower unicode_lower x)).
Proof.
  rewrite slugify_collapse.
  rewrite filter_alnum_trimmed by apply collapse_chars.
  apply filter_alnum_collapse.
Qed.

(** X5. A slug with at least two letters or digits has the shape
    [^[a-z0-9]([a-z0-9-]{0,61}[a-z0-9])?$]: an outer hyphen is kept only
    when there is at most one letter or digit. *)
Theorem slug_well_formed_with_two_alnum (x : str) :
  2 <= List.length (filter alnum (slugify unicode_lower x)) ->
  well_formed_slug (slugify unicode_lower x) = true.
Proof.
  intros H.
  pose proof (slugify_chars unicode_lower x) as Hchars.
  pose proof (slugify_length unicode_lower x) as Hlen.
  rewrite slugify_collapse in *.
  set (z := collapse false (firstn 63 (lower unicode_lower x))) in *.
  assert (Hz : forallb slug_char z = true) by apply collapse_chars.
  rewrite filter_alnum_trimmed in H by assumption.
  unfold trimmed in *. destruct (trim_capture z) as [g|] eqn:Hg.
  - destruct (trim_capture_ends z 0%N Hz Hg H) as [c [g' [-> [Hc _]]]].
    destruct (trim_capture_ends z c Hz Hg H) as [c' [g'' [E [_ Hl]]]].
    unfold well_formed_slug. rewrite Hc, Hl, Hchars. cbn [andb].
    apply Nat.leb_le. exact Hlen.
  - pose proof (trim_capture_none_alnum z Hz Hg). lia.
Qed.

End SlugShape.

(** ** Formatting a template *)

Section Formatting.

Variable attrs : list (str * pyval).

Lemma prepend_prepend (p q : str) (r : result str) :
  prepend p (prepend q r) = prepend (p ++ q) r.
Proof. destruct r; simpl; [rewrite app_assoc|..]; reflexivity. Qed.

Lemma format_go_out (b : str) : forall st out,
  Py.format_go attrs st out b = prepend (rev out) (Py.format_go attrs st [] b).
Proof.
  induction b as [|c b IH]; intros st out.
  - destruct st; simpl; try reflexivity.
    + rewrite app_nil_r. reflexivity.
    + destruct (Py.dict_get attrs key); reflexivity.
  - assert (Hstep : forall st' x,
               Py.format_go attrs st' (x ++ out) b
               = prepend (rev out) (Py.format_go attrs st' (x ++ []) b)).
    { intros st' x. rewrite (IH st' (x ++ out)), (IH st' (x ++ [])).
      rewrite prepend_prepend, app_nil_r, rev_app_distr. reflexivity. }
    destruct st; cbn [Py.format_go].
    + destruct (N.eqb c 37); [apply (Hstep _ [])|apply (Hstep _ [c])].
    + destruct (N.eqb c 37); [apply (Hstep _ [c])|].
      destruct (N.eqb c 40); [apply (Hstep _ [])|reflexivity].
    + destruct (N.eqb c 41).
      * destruct depth; apply (Hstep _ []).
      * destruct (N.eqb c 40); apply (Hstep _ []).
    + destruct (Py.dict_get attrs key) as [v|]; [|reflexivity].
      destruct (N.eqb c 115); [|reflexivity].
      destruct (Py.to_str v) as [t|]; [|reflexivity].
      apply (Hstep _ (rev t)).
Qed.

Lemma format_go_app (a : str) : forall st out r b,
  Py.format_go attrs st out a = Ok r ->
  Py.format_go attrs st out (a ++ b) = Py.format_go attrs Py.FText (rev r) b.
Proof.
  induction a as [|c a IH]; intros st out r b H.
  - destruct st; simpl in H; try discriminate.
    + injection H as <-. rewrite rev_involutive. reflexivity.
    + destruct (Py.dict_get attrs key); discriminate.
  - change ((c :: a) ++ b) with (c :: (a ++ b)).
    destruct st; cbn [Py.format_go] in *.
    + destruct (N.eqb c 37); apply IH; assumption.
    + destruct (N.eqb c 37); [apply IH; assumption|].
      destruct (N.eqb c 40); [apply IH; assumption|discriminate].
    + destruct (N.eqb c 41).
      * destruct depth; apply IH; assumption.
      * destruct (N.eqb c 40); apply IH; assumption.
    + destruct (Py.dict_get attrs key) as [v|]; [|discriminate].
      destruct (N.eqb c 115); [|discriminate].
      destruct (Py.to_str v) as [t|]; [|discriminate].
      apply IH; assumption.
Qed.

Lemma format_go_plain (t : str) : forall out,
  forallb (fun c => negb (N.eqb c 37)) t = true ->
  Py.format_go attrs Py.FText out t = Ok (rev out ++ t).
Proof.
  induction t as [|c t IH]; intros out H; simpl in *.
  - rewrite app_nil_r. reflexivity.
  - apply andb_true_iff in H as [Hc Ht].
    destruct (N.eqb c 37); [discriminate|].
    rewrite IH by assumption. simpl. rewrite <- app_assoc. reflexivity.
Qed.

(** A key without parentheses is read up to the closing parenthesis. *)
Lemma format_go_key (key : str) : forall acc out rest,
  forallb (fun c => negb (N.eqb c 40) && negb (N.eqb c 41)) key = true ->
  Py.format_go attrs (Py.FKey 0 acc) out (key ++ 41%N :: rest)
  = Py.format_go attrs (Py.FConv (rev acc ++ key)) out rest.
Proof.
  induction key as [|c key IH]; intros acc out rest H.
  - simpl. rewrite app_nil_r. reflexivity.
  - simpl in H. apply andb_true_iff in H as [Hc Hk].
    apply andb_true_iff in Hc as [H40 H41].
    change ((c :: key) ++ 41%N :: rest) with (c :: (key ++ 41%N :: rest)).
    cbn [Py.format_go].
    destruct (N.eqb c 41); [discriminate|].
    destruct (N.eqb c 40); [discriminate|].
    rewrite IH by assumption. simpl. rewrite <- app_assoc. reflexivity.
Qed.

(** X6. A template without [%] is its own result, whatever the
    attributes. *)
Theorem format_without_percent (t : str) :
  forallb (fun c => negb (N.eqb c 37)) t = true ->
  Py.format t attrs = Ok t.
Proof. intros H. apply (format_go_plain t [] H). Qed.

(** X7. Formatting goes from left to right: when a first part of a
    template formats to [a'], the whole formats to [a'] followed by what
    the rest formats to, and raises what the rest raises. *)
Theorem format_composes (a b a' : str) :
  Py.format a attrs = Ok a' ->
  Py.format (a ++ b) attrs = rbind (Py.format b attrs) (fun b' => Ok (a' ++ b')).
Proof.
  intros H. unfold Py.format in *.
  rewrite (format_go_app a Py.FText [] b H).
  rewrite format_go_out, rev_involutive. reflexivity.
Qed.

(** X8. A placeholder [%(key)s] whose key is in the attributes is replaced
    by the text of its value; a [%(key)] whose key is not raises
    [KeyError] with that key, whatever follows it. *)
Theorem format_placeholder (key : str) :
  forallb (fun c => negb (N.eqb c 40) && negb (N.eqb c 41)) key = true ->
  (forall v t rest,
      Py.dict_get attrs key = Some v -> Py.to_str v = Some t ->
      Py.format (lit "%(" ++ key ++ lit ")s" ++ rest) attrs
      = rbind (Py.format rest attrs) (fun r => Ok (t ++ r)))
  /\ (forall rest,
         Py.dict_get attrs key = None ->
         Py.format (lit "%(" ++ key ++ lit ")" ++ rest) attrs
         = Raise (KeyError key)).
Proof.
  intros Hk. split.
  - intros v t rest Hv Ht. unfold Py.format.
    change (lit "%(" ++ key ++ lit ")s" ++ rest)
      with (37%N :: 40%N :: (key ++ 41%N :: 115%N :: rest)).
    cbn [Py.format_go N.eqb Pos.eqb].
    rewrite format_go_key by assumption.
    cbn [rev app Py.format_go]. rewrite Hv.
    change (N.eqb 115 115) with true. cbv iota. rewrite Ht.
    rewrite format_go_out, app_nil_r, rev_involutive. reflexivity.
  - intros rest Hv. unfold Py.format.
    change (lit "%(" ++ key ++ lit ")" ++ rest)
      with (37%N :: 40%N :: (key ++ 41%N :: rest)).
    cbn [Py.format_go N.eqb Pos.eqb].
    rewrite format_go_key by assumption.
    cbn [rev app]. destruct rest; cbn [Py.format_go]; rewrite Hv; reflexivity.
Qed.

End Formatting.

(** ** Splitting and joining *)

Section SplitJoin.

Variable sep : char.

Lemma split_go_piece (p : str) : forall cur rest,
  ~ In sep p ->
  split_go sep cur (p ++ rest) = split_go sep (rev p ++ cur) rest.
Proof.
  induction p as [|c p IH]; intros cur rest Hp; [reflexivity|].
  change ((c :: p) ++ rest) with (c :: (p ++ rest)). cbn [split_go].
  destruct (N.eqb c sep) eqn:E.
  - apply N.eqb_eq in E. subst c. exfalso. apply Hp. left; reflexivity.
  - rewrite IH by (intros Hin; apply Hp; right; exact Hin).
    simpl. rewrite <- app_assoc. reflexivity.
Qed.

Lemma split_join (pieces : list str) :
  pieces <> [] -> Forall (fun piece => ~ In sep piece) pieces ->
  split sep (join sep pieces) = pieces.
Proof.
  unfold split. induction pieces as [|p pieces IH]; intros Hne Hall;
    [contradiction|].
  inversion Hall as [|? ? Hp Hrest]; subst.
  destruct pieces as [|q pieces].
  - cbn [join]. rewrite <- (app_nil_r p) at 1.
    rewrite split_go_piece by assumption. simpl.
    rewrite app_nil_r, rev_involutive. reflexivity.
  - change (join sep (p :: q :: pieces))
      with (p ++ sep :: join sep (q :: pieces)).
    rewrite split_go_piece by assumption. cbn [split_go].
    rewrite N.eqb_refl, app_nil_r, rev_involutive.
    rewrite IH; [reflexivity|discriminate|assumption].
Qed.

Lemma split_go_length (s : str) : forall cur,
  List.length (split_go sep cur s) = S (count_occ N.eq_dec s sep).
Proof.
  induction s as [|c s IH]; intros cur; [reflexivity|].
  cbn [split_go count_occ]. destruct (N.eqb c sep) eqn:E.
  - apply N.eqb_eq in E. destruct (N.eq_dec c sep); [|contradiction].
    simpl. rewrite IH. reflexivity.
  - apply N.eqb_neq in E. destruct (N.eq_dec c sep); [contradiction|].
    apply IH.
Qed.

(** X9. [split] and [join] undo each other: joining the pieces of a
    string gives it back, no piece holds the separator, there is one piece
    more than there are separators (so at least one), and pieces without
    the separator come back from splitting their join. *)
Theorem split_join_round_trip :
  (forall s,
      join sep (split sep s) = s
      /\ Forall (fun piece => ~ In sep piece) (split sep s)
      /\ List.length (split sep s) = S (count_occ N.eq_dec s sep))
  /\ (forall pieces,
         pieces <> [] -> Forall (fun piece => ~ In sep piece) pieces ->
         split sep (join sep pieces) = pieces).
Proof.
  split.
  - intros s. split; [apply (split_go_join sep s [])|].
    split; [apply split_go_no_sep; intros []|apply split_go_length].
  - apply split_join.
Qed.

End SplitJoin.

(** ** The configuration and the start-up *)

Section StartUp.

Variable env : Config.environ.
Variable fs : Config.files.

Lemma until_linebreak_split (s : str) :
  exists rest,
    s = until_linebreak s ++ rest
    /\ forallb (fun c => negb (is_linebreak c)) (until_linebreak s) = true
    /\ match rest with
       | [] => True
       | c :: _ => is_linebreak c = true
       end.
Proof.
  induction s as [|c s [rest [Hs [Hb Hr]]]].
  - exists []. auto.
  - cbn [until_linebreak]. destruct (is_linebreak c) eqn:E.
    + exists (c :: s). auto.
    + exists rest. cbn [app forallb]. rewrite E, Hb.
      split; [rewrite <- Hs; reflexivity|auto].
Qed.

(** X10. When [NAME_FILE] is set and the file can be read and is not
    empty, the secret is the first line of the file, without its line
    end, whether or not [NAME] itself is set. *)
Theorem secret_is_first_line_of_file (name path text : str) :
  env (name ++ lit "_FILE") = Some path ->
  fs path = Ok text ->
  text <> [] ->
  exists secret rest,
    Config.get_secret env fs name = Ok (Some secret)
    /\ text = secret ++ rest
    /\ forallb (fun c => negb (is_linebreak c)) secret = true
    /\ match rest with
       | [] => True
       | c :: _ => is_linebreak c = true
       end.
Proof.
  intros Hf Ht Hne. unfold Config.get_secret. rewrite Hf, Ht. cbn [rbind].
  destruct (until_linebreak_split text) as [rest [Hs [Hb Hr]]].
  exists (until_linebreak text), rest.
  destruct text; [contradiction|]. auto.
Qed.

(** X11. When [NAME_FILE] is set, [NAME] is never used instead: the
    exception that opening or reading the file raises is raised by
    [get_secret] as it is, and an empty file raises [IndexError], even if
    [NAME] is set. *)
Theorem secret_file_has_no_fallback (name path : str) :
  env (name ++ lit "_FILE") = Some path ->
  (forall e, fs path = Raise e -> Config.get_secret env fs name = Raise e)
  /\ (fs path = Ok [] -> Config.get_secret env fs name = Raise IndexError).
Proof.
  intros Hf. unfold Config.get_secret. rewrite Hf.
  split; [intros e ->|intros ->]; reflexivity.
Qed.

Ltac config_names :=
  unfold Config.get;
  repeat match goal with
         | |- context [str_eqb (lit ?a) (lit ?b)] =>
             let v := eval vm_compute in (str_eqb (lit a) (lit b)) in
             change (str_eqb (lit a) (lit b)) with v
         | H : context [str_eqb (lit ?a) (lit ?b)] |- _ =>
             let v := eval vm_compute in (str_eqb (lit a) (lit b)) in
             change (str_eqb (lit a) (lit b)) with v in H
         end;
  cbv iota.

(** X12. A registry client is built only when the user, the token, the
    JWT URL and the registry are all configured; it is built with them,
    and its registry URL starts with [http]: the configured one when that
    does, else the configured one after [https://]. *)
Theorem createClient_needs_all_four (c : registry_client) :
  createClient env fs = Ok c ->
  exists user token jwt_url registry_url,
    env (lit "GITLAB_USER") = Some user
    /\ Config.get_secret env fs (lit "GITLAB_TOKEN") = Ok (Some token)
    /\ env (lit "GITLAB_JWT_URL") = Some jwt_url
    /\ env (lit "GITLAB_REGISTRY") = Some registry_url
    /\ auth c = (user, token) /\ jwt c = jwt_url
    /\ is_prefix (lit "http") (registry c) = true
    /\ registry c = (if is_prefix (lit "http") registry_url then registry_url
                     else lit "https://" ++ registry_url).
Proof.
  unfold createClient. config_names. unfold rbind.
  destruct (env (lit "GITLAB_USER")) as [user|];
    destruct (Config.get_secret env fs (lit "GITLAB_TOKEN")) as [[token|]| |];
    destruct (env (lit "GITLAB_JWT_URL")) as [jwt_url|];
    destruct (env (lit "GITLAB_REGISTRY")) as [registry_url|];
    try discriminate.
  destruct (is_prefix (lit "http") registry_url) eqn:E; cbn [negb];
    intros H; injection H as <-; exists user, token, jwt_url, registry_url;
    cbn [auth jwt registry]; rewrite ?E; repeat split; auto.
Qed.

(** X13. When the token can be looked up and one of the four settings is
    missing, [createClient] raises the exception with the message
    [Some required env variable missing]. *)
Theorem createClient_missing_variable (token : option str) :
  Config.get_secret env fs (lit "GITLAB_TOKEN") = Ok token ->
  env (lit "GITLAB_USER") = None \/ token = None
  \/ env (lit "GITLAB_JWT_URL") = None \/ env (lit "GITLAB_REGISTRY") = None ->
  createClient env fs = Raise missing_variable.
Proof.
  intros Ht H. unfold createClient. config_names. rewrite Ht. unfold rbind.
  destruct (env (lit "GITLAB_USER")), token, (env (lit "GITLAB_JWT_URL")),
    (env (lit "GITLAB_REGISTRY")); try reflexivity.
  destruct H as [H|[H|[H|H]]]; discriminate.
Qed.


End StartUp.

(** ** The calls made and the codes returned *)

Section Calls.

Variable unicode_lower : str -> str.
Variable env : Config.environ.
Variable fs : Config.files.
Variable w : world.

Lemma guarded_app (a b : trace) : guarded a -> guarded b -> guarded (a ++ b).
Proof.
  induction 1; intros Hb; simpl.
  - assumption.
  - apply guarded_attribute; auto.
  - apply guarded_tags; auto.
  - apply guarded_digest; auto.
  - apply guarded_delete; auto.
Qed.

Lemma grows_refl (tr : trace) : grows_guarded tr tr.
Proof. exists []. rewrite app_nil_r. split; [reflexivity|constructor]. Qed.

Lemma grows_trans (t0 t1 t2 : trace) :
  grows_guarded t0 t1 -> grows_guarded t1 t2 -> grows_guarded t0 t2.
Proof.
  intros [e1 [-> H1]] [e2 [-> H2]]. exists (e1 ++ e2).
  rewrite app_assoc. split; [reflexivity|apply guarded_app; assumption].
Qed.

Lemma traced_ret {A} (a : A) : traced (ret a).
Proof. intros tr r tr' H. inv_pair H. apply grows_refl. Qed.

Lemma traced_lift {A} (x : result A) : traced (lift x).
Proof. intros tr r tr' H. inv_pair H. apply grows_refl. Qed.

Lemma traced_bind {A B} (m : M A) (f : A -> M B) :
  traced m -> (forall a, traced (f a)) -> traced (bind m f).
Proof.
  intros Hm Hf tr r tr'. unfold bind.
  destruct (m tr) as [[a|e|] t1] eqn:E; intros H.
  - eapply grows_trans; [eapply Hm; eauto|eapply Hf; eauto].
  - inv_pair H. eapply Hm; eauto.
  - inv_pair H. eapply Hm; eauto.
Qed.

Lemma traced_try_except {A} (m : M A) (handler : exn -> option (M A)) :
  traced m -> (forall e h, handler e = Some h -> traced h) ->
  traced (try_except m handler).
Proof.
  intros Hm Hh tr r tr'. unfold try_except.
  destruct (m tr) as [[a|e|] t1] eqn:E; intros H.
  - inv_pair H. eapply Hm; eauto.
  - destruct (handler e) as [h|] eqn:Eh.
    + eapply grows_trans; [eapply Hm; eauto|eapply Hh; eauto].
    + inv_pair H. eapply Hm; eauto.
  - inv_pair H. eapply Hm; eauto.
Qed.

Lemma traced_get_tags (image : str) :
  traced (invoke (GetTags image) (fun tr => client_get_tags w tr image)).
Proof.
  intros tr r tr' H. inv_pair H. exists [GetTags image].
  split; [reflexivity|repeat constructor].
Qed.

Lemma traced_attribute (proj : project) (name : str) :
  traced (invoke (CustomAttributesGet name)
                 (fun tr => customattributes_get w tr proj name)).
Proof.
  intros tr r tr' H. inv_pair H. exists [CustomAttributesGet name].
  split; [reflexivity|repeat constructor].
Qed.

(** X15. [delete_image] asks for the deletion only after the registry
    gave a digest for the same image and tag, and what it returns tells
    what happened: 404 when there is no digest (nothing is deleted), 200
    when the deletion is reported done, 202 when it is not. *)
Theorem delete_image_cases (image : str) (tag : pyval) (tr : trace)
        (message : str) (code : Z) (tr' : trace) :
  delete_image w image tag tr = (Ok (message, code), tr') ->
  (client_get_digest w tr image tag = Ok None
   /\ (message, code) = (lit "Image not found", 404%Z)
   /\ tr' = tr ++ [GetDigest image tag])
  \/ (exists digest deleted,
         client_get_digest w tr image tag = Ok (Some digest)
         /\ client_delete_image w (tr ++ [GetDigest image tag]) image tag
            = Ok deleted
         /\ (message, code)
            = (if deleted then (lit "Image deleted", 200%Z)
               else (lit "Image not deleted", 202%Z))
         /\ tr' = tr ++ [GetDigest image tag; DeleteImage image tag]).
Proof.
  unfold delete_image, bind, invoke, ret.
  destruct (client_get_digest w tr image tag) as [[digest|]| |];
    try discriminate.
  - destruct (client_delete_image w (tr ++ [GetDigest image tag]) image tag)
      as [deleted| |] eqn:Hd; try discriminate.
    intros H. right. exists digest, deleted.
    split; [reflexivity|]. split; [reflexivity|].
    destruct deleted; inv_pair H; rewrite <- app_assoc; auto.
  - intros H. inv_pair H. left. auto.
Qed.

Lemma traced_delete_image (image : str) (tag : pyval) :
  traced (delete_image w image tag).
Proof.
  intros tr r tr'. unfold delete_image, bind, invoke, ret.
  assert (H1 : grows_guarded tr (tr ++ [GetDigest image tag])).
  { exists [GetDigest image tag]. split; [reflexivity|repeat constructor]. }
  assert (H2 : grows_guarded tr ((tr ++ [GetDigest image tag])
                                   ++ [DeleteImage image tag])).
  { exists [GetDigest image tag; DeleteImage image tag].
    rewrite <- app_assoc. split; [reflexivity|].
    apply guarded_delete. constructor. }
  destruct (client_get_digest w tr image tag) as [[digest|]| |];
    try (intros H; inv_pair H; exact H1).
  destruct (client_delete_image w (tr ++ [GetDigest image tag]) image tag)
    as [[|]| |]; intros H; inv_pair H; exact H2.
Qed.

Lemma traced_tag_body (image : str) (tag : pyval) (st : progress) :
  traced (tag_body w image tag st).
Proof.
  unfold tag_body. destruct st as [messages status].
  apply traced_try_except.
  - apply traced_bind; [apply traced_delete_image|].
    intros [message code]. apply traced_ret.
  - intros e h. destruct e; try discriminate.
    intros H; injection H as <-. apply traced_ret.
Qed.

Lemma traced_for_tags (image : str) (tags : list pyval) :
  forall st, traced (for_tags w image tags st).
Proof.
  induction tags as [|tag tags IH]; intros st; cbn [for_tags].
  - apply traced_ret.
  - apply traced_bind; [apply traced_tag_body|]. intros st'. apply IH.
Qed.

Lemma traced_image_body (next : result str) (st : progress) :
  traced (image_body w next st).
Proof.
  unfold image_body. apply traced_bind; [apply traced_lift|]. intros image.
  apply traced_bind; [apply traced_get_tags|]. intros tags.
  apply traced_bind; [apply traced_lift|]. intros has.
  destruct (negb has); [apply traced_ret|].
  apply traced_bind; [apply traced_lift|]. intros tag_list.
  destruct tag_list; try apply traced_ret;
    (apply traced_bind; [apply traced_lift|]; intros elems;
     apply traced_bind; [apply traced_for_tags|]; intros st';
     apply traced_ret).
Qed.

Lemma traced_for_images (images : list (result str)) :
  forall st, traced (for_images w images st).
Proof.
  induction images as [|next images IH]; intros st; cbn [for_images].
  - apply traced_ret.
  - apply traced_bind; [apply traced_image_body|].
    intros [st'|r]; [apply IH|apply traced_ret].
Qed.

Lemma traced_get_image_delete_list (proj : project) (data : pyval) :
  traced (get_image_delete_list unicode_lower env fs w proj data).
Proof.
  unfold get_image_delete_list.
  apply traced_bind; [apply traced_lift|]. intros template.
  apply traced_bind; [apply traced_lift|]. intros attribute.
  apply traced_bind.
  - destruct attribute as [[|c name]|]; try apply traced_ret.
    apply traced_try_except.
    + apply traced_bind; [apply traced_attribute|]. intros; apply traced_ret.
    + intros e h. destruct e; try discriminate.
      intros H; injection H as <-. apply traced_ret.
  - intros template'.
    repeat (apply traced_bind; [apply traced_lift|]; intros ?).
    destruct template'; [apply traced_ret|apply traced_lift].
Qed.

Lemma traced_cleanup (proj : project) (data : pyval) :
  traced (cleanup unicode_lower env fs w proj data).
Proof.
  unfold cleanup.
  apply traced_bind; [apply traced_get_image_delete_list|]. intros images.
  apply traced_bind; [apply traced_for_images|].
  intros [[messages status]|resp]; apply traced_ret.
Qed.

(** X16. Whatever [cleanup] returns or raises, the calls it has made are
    an attribute lookup, tag listings and digest lookups, and deletions
    that each come right after the digest lookup for the same image and
    tag; it never fetches a project. *)
Theorem cleanup_calls_are_guarded (proj : project) (data : pyval) (tr : trace)
        (r : result HTTPResponse) (tr' : trace) :
  cleanup unicode_lower env fs w proj data tr = (r, tr') ->
  exists ext, tr' = tr ++ ext /\ guarded ext.
Proof. intros H. exact (@traced_cleanup proj data tr r tr' H). Qed.

End Calls.

(** ** The codes of a response *)

Section Codes.

Variable unicode_lower : str -> str.
Variable env : Config.environ.
Variable fs : Config.files.
Variable w : world.

Lemma delete_image_code (image : str) (tag : pyval) (tr : trace)
      (message : str) (code : Z) (tr' : trace) :
  delete_image w image tag tr = (Ok (message, code), tr') ->
  In code outcome_codes.
Proof.
  unfold delete_image, bind, invoke, ret.
  destruct (client_get_digest w tr image tag) as [[digest|]| |];
    try discriminate.
  - destruct (client_delete_image w (tr ++ [GetDigest image tag]) image tag)
      as [[|]| |]; try discriminate; intros H; inv_pair H; simpl; auto.
  - intros H; inv_pair H; simpl; auto.
Qed.

Lemma codes_allowed_outcome (messages : list pyval) (status : Z)
      (image : str) (tag : pyval) (message : str) (code : Z) :
  codes_allowed (messages, status) -> In code outcome_codes ->
  codes_allowed (messages ++ [outcome image tag message code],
                 if Z.eqb code 200 then status else code).
Proof.
  unfold codes_allowed; cbn [fst snd]. intros [Hs Hc] Hin. split.
  - destruct (Z.eqb code 200); assumption.
  - rewrite codes_app, codes_outcome. apply Forall_app. split; [assumption|].
    constructor; [assumption|constructor].
Qed.

Lemma tag_body_allowed (image : str) (tag : pyval) (st : progress)
      (tr : trace) (st' : progress) (tr' : trace) :
  tag_body w image tag st tr = (Ok st', tr') ->
  codes_allowed st -> codes_allowed st'.
Proof.
  destruct st as [messages status].
  unfold tag_body, try_except, bind, ret.
  destruct (delete_image w image tag tr) as [[[message code]|e|] t] eqn:Hd.
  - intros H Ha; inv_pair H.
    apply codes_allowed_outcome; [assumption|].
    eapply delete_image_code; eauto.
  - destruct e; try discriminate.
    intros H Ha; inv_pair H.
    apply (codes_allowed_outcome image tag undisclosed Ha (code := 500%Z)).
    simpl; auto.
  - discriminate.
Qed.

Lemma for_tags_allowed (image : str) (tags : list pyval) :
  forall st tr st' tr',
    for_tags w image tags st tr = (Ok st', tr') ->
    codes_allowed st -> codes_allowed st'.
Proof.
  induction tags as [|tag tags IH]; intros st tr st' tr' H Ha.
  - inv_pair H. exact Ha.
  - cbn [for_tags] in H. unfold bind in H.
    destruct (tag_body w image tag st tr) as [[st1| |] tr1] eqn:Hb;
      try discriminate.
    eapply IH; [eassumption|]. eapply tag_body_allowed; eauto.
Qed.

Lemma image_body_allowed (next : result str) (st : progress) (tr : trace)
      (fl : flow) (tr' : trace) :
  image_body w next st tr = (Ok fl, tr') ->
  codes_allowed st -> flow_allowed fl.
Proof.
  unfold image_body, bind, lift, invoke, ret. intros H Ha.
  assert (Hret : flow_allowed
                   (Return (JsonResponse (PList (fst st ++ [tags_not_found]))
                                         (snd st)))).
  { exists (fst st ++ [tags_not_found]). destruct Ha as [Hs Hc].
    split; [reflexivity|]. split; [exact Hs|].
    rewrite codes_app, codes_tags_not_found, app_nil_r. exact Hc. }
  repeat break_match; try discriminate;
    repeat match goal with
           | E : (_, _) = (_, _) |- _ => inv_pair E
           end;
    try discriminate; try exact Hret;
    cbn [flow_allowed]; eapply for_tags_allowed; eauto.
Qed.

Lemma for_images_allowed (images : list (result str)) :
  forall st tr fl tr',
    for_images w images st tr = (Ok fl, tr') ->
    codes_allowed st -> flow_allowed fl.
Proof.
  induction images as [|next images IH]; intros st tr fl tr' H Ha.
  - inv_pair H. exact Ha.
  - cbn [for_images] in H. unfold bind in H.
    destruct (image_body w next st tr) as [[fl1| |] tr1] eqn:Hb;
      try discriminate.
    assert (H1 : flow_allowed fl1) by (eapply image_body_allowed; eauto).
    destruct fl1 as [st1|r].
    + eapply IH; eauto.
    + inv_pair H. exact H1.
Qed.

Lemma cleanup_allowed (proj : project) (data : pyval) (tr : trace)
      (resp : HTTPResponse) (tr' : trace) :
  cleanup unicode_lower env fs w proj data tr = (Ok resp, tr') ->
  exists messages,
    body resp = Json (PList messages)
    /\ In (status resp) outcome_codes
    /\ Forall (fun c => In c outcome_codes) (codes messages).
Proof.
  unfold cleanup, bind, ret. intros H.
  destruct (get_image_delete_list unicode_lower env fs w proj data tr)
    as [[images| |] tr1]; try discriminate.
  destruct (for_images w images ([], 200%Z) tr1) as [[fl| |] tr2] eqn:Hf;
    try discriminate.
  assert (Hstart : codes_allowed ([], 200%Z)).
  { split; [simpl; auto|constructor]. }
  assert (Ha : flow_allowed fl) by (eapply for_images_allowed; eauto).
  destruct fl as [[messages status]|r]; inv_pair H.
  - exists messages. destruct Ha as [Hs Hc]. auto.
  - exact Ha.
Qed.

(** What [validate] does after the two header checks is one of three
    things. *)
Lemma validate_outcomes (hook_token : option str) (req : request) (tr : trace)
      (r : result HTTPResponse) (tr' : trace) :
  validate unicode_lower env fs w hook_token req tr = (r, tr') ->
  (tr' = tr /\ forall resp, r = Ok resp -> resp = NoContentResponse)
  \/ (exists id, tr' = tr ++ [ProjectsGet id]
                 /\ forall resp, r = Ok resp -> resp = NoContentResponse)
  \/ (exists id proj data,
         cleanup unicode_lower env fs w proj data (tr ++ [ProjectsGet id])
         = (r, tr')).
Proof.
  unfold validate, bind, lift, ret, invoke. intros H.
  repeat break_match;
    repeat match goal with
           | E : (_, _) = (_, _) |- _ => inv_pair E
           end;
    try (left; split; [reflexivity|intros ? E; inv_pair E; reflexivity]);
    try (left; split; [reflexivity|intros ? E; discriminate E]);
    try (right; left; eexists; split;
         [reflexivity|intros ? E; inv_pair E; reflexivity]);
    try (right; left; eexists; split;
         [reflexivity|intros ? E; discriminate E]);
    try (right; right; do 3 eexists; eassumption).
Qed.

(** X17. A response of [validate] is the empty 204 response, or a JSON
    list whose status and whose outcome codes are all among 200, 202, 404
    and 500. *)
Theorem validate_status_codes (hook_token : option str) (req : request)
        (tr : trace) (resp : HTTPResponse) (tr' : trace) :
  validate unicode_lower env fs w hook_token req tr = (Ok resp, tr') ->
  resp = NoContentResponse
  \/ exists messages,
       body resp = Json (PList messages)
       /\ In (status resp) [200; 202; 404; 500]%Z
       /\ Forall (fun c => In c [200; 202; 404; 500]%Z) (codes messages).
Proof.
  intros H. destruct (validate_outcomes _ _ _ H) as [[_ Hn]|[[id [_ Hn]]|Hc]].
  - left. apply Hn. reflexivity.
  - left. apply Hn. reflexivity.
  - destruct Hc as [id [proj [data Hc]]]. right.
    eapply cleanup_allowed; eauto.
Qed.

(** X18. [validate] fetches at most one project, before anything else;
    all later calls are those of [cleanup]: tag listings, digest lookups,
    an attribute lookup, and deletions that each follow the digest lookup
    for the same image and tag. *)
Theorem validate_calls (hook_token : option str) (req : request)
        (tr : trace) (r : result HTTPResponse) (tr' : trace) :
  validate unicode_lower env fs w hook_token req tr = (r, tr') ->
  tr' = tr
  \/ exists id ext, tr' = tr ++ ProjectsGet id :: ext /\ guarded ext.
Proof.
  intros H. destruct (validate_outcomes _ _ _ H) as [[E _]|[[id [E _]]|Hc]].
  - left. exact E.
  - right. exists id, []. split; [exact E|constructor].
  - destruct Hc as [id [proj [data Hc]]]. right.
    destruct (@traced_cleanup unicode_lower env fs w proj data _ _ _ Hc)
      as [ext [E Hg]].
    exists id, ext. rewrite E, <- app_assoc. split; [reflexivity|exact Hg].
Qed.

End Codes.

(** ** The other paths of [validate], [cleanup] and the generator *)

Ltac known_names :=
  unfold Config.get;
  repeat match goal with
         | |- context [str_eqb (lit ?a) (lit ?b)] =>
             let v := eval vm_compute in (str_eqb (lit a) (lit b)) in
             change (str_eqb (lit a) (lit b)) with v
         end;
  cbv iota.

Section Paths.

Variable unicode_lower : str -> str.
Variable env : Config.environ.
Variable fs : Config.files.
Variable w : world.

(** For a merged merge request that passed the header checks, what is
    left of [validate] is the project lookup and what follows it. *)
Lemma validate_merged (hook_token : option str) (req : request)
      (data id : pyval) (tr : trace) :
  passes_headers hook_token req -> json req = Ok data ->
  merged_event_for data id ->
  validate unicode_lower env fs w hook_token req tr
  = (proj <- invoke (ProjectsGet id) (fun tr => gl_projects_get w tr id) ;;
     enabled <- lift (Py.getitem (attributes proj)
                                 (lit "container_registry_enabled")) ;;
     if negb (Py.truthy enabled) then ret NoContentResponse
     else cleanup unicode_lower env fs w proj data) tr.
Proof.
  intros [Ht [e [He Hin]]] Hj
         [et [oa [st [src [path [pr [H1 [H2 [H3 [H4 [H5 [H6 [H7 [H8 [H9 H10]]]]]]]]]]]]]]].
  apply opt_str_eqb_eq in Ht. unfold validate. rewrite Ht, He, Hin.
  cbn [negb]. unfold bind, lift, ret.
  rewrite Hj, H1. cbn [negb]. rewrite H2, H3. cbn [negb].
  rewrite H4, H5, H6. cbn [negb]. rewrite H7, H8, H9, H10. reflexivity.
Qed.

(** X19. A request whose event header is missing or is neither
    [Merge Request Hook] nor [System Hook] gets the empty 204 response
    without any call, whatever its token and its body. *)
Theorem event_header_not_allowed (hook_token : option str) (req : request)
        (tr : trace) :
  (forall e, get_header req (lit "X-GITLAB-EVENT") = Some e ->
             existsb (str_eqb e) event_hooks = false) ->
  validate unicode_lower env fs w hook_token req tr = (Ok NoContentResponse, tr).
Proof.
  intros H. unfold validate.
  destruct (opt_str_eqb (get_header req (lit "X-GITLAB-TOKEN")) hook_token);
    [|reflexivity].
  cbn [negb]. destruct (get_header req (lit "X-GITLAB-EVENT")) as [e|].
  - rewrite (H e eq_refl). reflexivity.
  - reflexivity.
Qed.

(** X20. For a merged merge request whose project has the container
    registry disabled, the answer is the empty 204 response and the only
    call made is the project lookup: the registry is not contacted, and
    the source branch is not even read. *)
Theorem registry_disabled_no_content (hook_token : option str) (req : request)
        (data id : pyval) (tr : trace) (proj : project) (enabled : pyval) :
  passes_headers hook_token req -> json req = Ok data ->
  merged_event_for data id ->
  gl_projects_get w tr id = Ok proj ->
  Py.getitem (attributes proj) (lit "container_registry_enabled") = Ok enabled ->
  Py.truthy enabled = false ->
  validate unicode_lower env fs w hook_token req tr
  = (Ok NoContentResponse, tr ++ [ProjectsGet id]).
Proof.
  intros Hh Hj Hm Hp He Ht. rewrite (validate_merged tr Hh Hj Hm).
  unfold bind, invoke, lift, ret. rewrite Hp, He, Ht. reflexivity.
Qed.

(** X21. When the project lookup raises, or the project has no
    [container_registry_enabled] attribute, [validate] raises too (the
    exception of the lookup, or [KeyError]): a project that cannot be found
    is an error, not a 204. *)
Theorem project_lookup_failure_raises (hook_token : option str)
        (req : request) (data id : pyval) (tr : trace) :
  passes_headers hook_token req -> json req = Ok data ->
  merged_event_for data id ->
  (forall e, gl_projects_get w tr id = Raise e ->
             validate unicode_lower env fs w hook_token req tr
             = (Raise e, tr ++ [ProjectsGet id]))
  /\ (forall attrs, gl_projects_get w tr id = Ok {| attributes := PDict attrs |} ->
                    Py.dict_get attrs (lit "container_registry_enabled") = None ->
                    validate unicode_lower env fs w hook_token req tr
                    = (Raise (KeyError (lit "container_registry_enabled")),
                       tr ++ [ProjectsGet id])).
Proof.
  intros Hh Hj Hm. rewrite (validate_merged tr Hh Hj Hm).
  unfold bind, invoke, lift, ret. split.
  - intros e ->. reflexivity.
  - intros attrs -> Ha. cbn [attributes Py.getitem]. rewrite Ha. reflexivity.
Qed.

(** X22. For a merged merge request whose project has the registry
    enabled, [validate] returns what [cleanup] returns for the fetched
    project and the event, with the project lookup as first call. *)
Theorem accepted_request_is_cleaned (hook_token : option str) (req : request)
        (data id : pyval) (tr : trace) (proj : project) (enabled : pyval) :
  passes_headers hook_token req -> json req = Ok data ->
  merged_event_for data id ->
  gl_projects_get w tr id = Ok proj ->
  Py.getitem (attributes proj) (lit "container_registry_enabled") = Ok enabled ->
  Py.truthy enabled = true ->
  validate unicode_lower env fs w hook_token req tr
  = cleanup unicode_lower env fs w proj data (tr ++ [ProjectsGet id]).
Proof.
  intros Hh Hj Hm Hp He Ht. rewrite (validate_merged tr Hh Hj Hm).
  unfold bind, invoke, lift, ret. rewrite Hp, He, Ht. reflexivity.
Qed.

(** X23. A body that is not a JSON object never reaches the project
    lookup.  [null], a boolean or a number (what [request.json] is for a
    request that is not JSON) raises [TypeError] at the test for
    [event_type]; a list or a string gives the 204 response when it does
    not hold [event_type], and raises [TypeError] when it does. *)
Theorem body_not_an_object (hook_token : option str) (req : request)
        (data : pyval) (tr : trace) :
  passes_headers hook_token req -> json req = Ok data ->
  (forall kv, data <> PDict kv) ->
  validate unicode_lower env fs w hook_token req tr
  = (match Py.contains data (lit "event_type") with
     | Ok false => Ok NoContentResponse
     | _ => Raise TypeError
     end, tr).
Proof.
  intros [Ht [e [He Hin]]] Hj Hd.
  apply opt_str_eqb_eq in Ht. unfold validate. rewrite Ht, He, Hin.
  cbn [negb]. unfold bind, lift, ret. rewrite Hj.
  destruct data as [| b | z | s | l | kv]; try reflexivity.
  - cbn [Py.contains]. destruct (is_infix (lit "event_type") s); reflexivity.
  - cbn [Py.contains].
    destruct (existsb (fun x => Py.eq_str x (lit "event_type")) l); reflexivity.
  - exfalso. apply (Hd kv). reflexivity.
Qed.

(** X24. An exception of [get_tags] is not caught, an HTTP error
    included: [cleanup] raises it, and the outcomes collected for the
    earlier images are not returned. *)
Theorem get_tags_error_is_raised
        (proj : project) (data : pyval) (tr0 : trace)
        (pre post : list (result str)) (image : str) (tr : trace)
        (st1 : progress) (tr1 : trace) (e : exn) :
  get_image_delete_list unicode_lower env fs w proj data tr0
  = (Ok (pre ++ Ok image :: post), tr) ->
  for_images w pre ([], 200%Z) tr = (Ok (Next st1), tr1) ->
  client_get_tags w tr1 image = Raise e ->
  cleanup unicode_lower env fs w proj data tr0
  = (Raise e, tr1 ++ [GetTags image]).
Proof.
  intros Hg Hpre Ht. unfold cleanup, bind. rewrite Hg.
  erewrite for_images_app by eassumption.
  cbn [for_images]. unfold bind, image_body, bind, lift, invoke.
  rewrite Ht. reflexivity.
Qed.

(** X25. An image whose tag list is empty adds no outcome and does not
    stop the request: the loop goes on with the next image, with the
    messages and the status it had. *)
Theorem empty_tag_list_goes_on (image : str) (rest : list (result str))
        (st : progress) (tr : trace) (kv : list (str * pyval)) :
  client_get_tags w tr image = Ok (PDict kv) ->
  Py.dict_get kv (lit "tags") = Some (PList []) ->
  for_images w (Ok image :: rest) st tr
  = for_images w rest st (tr ++ [GetTags image]).
Proof.
  intros Ht Hkv. cbn [for_images]. unfold bind at 1.
  unfold image_body, bind, lift, invoke, ret. rewrite Ht.
  cbn [Py.contains Py.getitem]. rewrite Hkv. reflexivity.
Qed.

(** X26. A template piece that cannot be formatted raises only when the
    loop reaches it: the images before it have been processed, their tags
    deleted, and the exception replaces the response. *)
Theorem bad_template_piece_raises_when_reached
        (proj : project) (data : pyval) (tr0 : trace)
        (pre post : list (result str)) (tr : trace)
        (st1 : progress) (tr1 : trace) (e : exn) :
  get_image_delete_list unicode_lower env fs w proj data tr0
  = (Ok (pre ++ Raise e :: post), tr) ->
  for_images w pre ([], 200%Z) tr = (Ok (Next st1), tr1) ->
  cleanup unicode_lower env fs w proj data tr0 = (Raise e, tr1).
Proof.
  intros Hg Hpre. unfold cleanup, bind. rewrite Hg.
  erewrite for_images_app by eassumption. reflexivity.
Qed.

(** X27. When a project attribute name is configured and the project has
    that attribute, its value is the template: the configured or default
    template is not used, and the lookup is the only call made. *)
Theorem project_attribute_is_the_template
        (proj : project) (data : pyval) (tr : trace)
        (c : char) (name value branch : str) (path : pyval) :
  env (lit "IMAGE_NAME_PROJECT_ATTRIBUTE") = Some (c :: name) ->
  customattributes_get w tr proj (c :: name) = Ok value ->
  branch_and_path data branch path ->
  get_image_delete_list unicode_lower env fs w proj data tr
  = (Ok (images_of unicode_lower value branch path),
     tr ++ [CustomAttributesGet (c :: name)]).
Proof.
  intros Ha Hv [oa [src [H1 [H2 [H3 H4]]]]].
  unfold get_image_delete_list, bind, lift, ret, try_except, invoke.
  known_names. rewrite Ha. cbv beta iota. rewrite Hv, H1, H2, H3, H4.
  reflexivity.
Qed.

(** X28. When the attribute lookup raises [GitlabGetError], or the
    configured attribute name is empty, the images are those of the
    configured template, or of [%(project_path)s/%(branch)s] when none is
    configured; the empty name is not looked up. *)
Theorem attribute_not_found_falls_back
        (proj : project) (data : pyval) (tr : trace)
        (branch : str) (path : pyval) :
  branch_and_path data branch path ->
  let template := match env (lit "IMAGE_NAME_TEMPLATE") with
                  | Some t => t
                  | None => default_template
                  end in
  (forall c name detail,
      env (lit "IMAGE_NAME_PROJECT_ATTRIBUTE") = Some (c :: name) ->
      customattributes_get w tr proj (c :: name) = Raise (GitlabGetError detail) ->
      get_image_delete_list unicode_lower env fs w proj data tr
      = (Ok (images_of unicode_lower template branch path),
         tr ++ [CustomAttributesGet (c :: name)]))
  /\ (env (lit "IMAGE_NAME_PROJECT_ATTRIBUTE") = Some [] ->
      get_image_delete_list unicode_lower env fs w proj data tr
      = (Ok (images_of unicode_lower template branch path), tr)).
Proof.
  intros [oa [src [H1 [H2 [H3 H4]]]]] template. subst template. split.
  - intros c name detail Ha Hv.
    unfold get_image_delete_list, bind, lift, ret, try_except, invoke.
    known_names. rewrite Ha. cbv beta iota. rewrite Hv. cbv beta iota.
    rewrite H1, H2, H3, H4.
    destruct (env (lit "IMAGE_NAME_TEMPLATE")); reflexivity.
  - intros Ha.
    unfold get_image_delete_list, bind, lift, ret, try_except, invoke.
    known_names. rewrite Ha. cbv beta iota. rewrite H1, H2, H3, H4.
    destruct (env (lit "IMAGE_NAME_TEMPLATE")); reflexivity.
Qed.

(** X29. Any other exception of the attribute lookup is not caught: the
    generator raises it before the event is read, so [cleanup] raises it
    without any registry call. *)
Theorem attribute_lookup_error_is_raised
        (proj : project) (data : pyval) (tr : trace)
        (c : char) (name : str) (e : exn) :
  env (lit "IMAGE_NAME_PROJECT_ATTRIBUTE") = Some (c :: name) ->
  customattributes_get w tr proj (c :: name) = Raise e ->
  (forall detail, e <> GitlabGetError detail) ->
  cleanup unicode_lower env fs w proj data tr
  = (Raise e, tr ++ [CustomAttributesGet (c :: name)]).
Proof.
  intros Ha Hv He.
  unfold cleanup, get_image_delete_list, bind, lift, ret, try_except, invoke.
  known_names. rewrite Ha. cbv beta iota. rewrite Hv.
  destruct e; try reflexivity. exfalso. apply (He detail). reflexivity.
Qed.

(** X30. A source branch that is not a string raises [AttributeError]
    before any registry call: with no attribute name configured, or an
    empty one, no call is made at all; with one configured, the attribute
    lookup is the only call, whether it answers or raises
    [GitlabGetError]. *)
Theorem branch_not_a_string_raises
        (proj : project) (data oa branch : pyval) (tr : trace) :
  Py.getitem data (lit "object_attributes") = Ok oa ->
  Py.getitem oa (lit "source_branch") = Ok branch ->
  (forall b, branch <> PStr b) ->
  (env (lit "IMAGE_NAME_PROJECT_ATTRIBUTE") = None
   \/ env (lit "IMAGE_NAME_PROJECT_ATTRIBUTE") = Some [] ->
   cleanup unicode_lower env fs w proj data tr = (Raise AttributeError, tr))
  /\ (forall c name,
         env (lit "IMAGE_NAME_PROJECT_ATTRIBUTE") = Some (c :: name) ->
         (exists value, customattributes_get w tr proj (c :: name) = Ok value)
         \/ (exists detail, customattributes_get w tr proj (c :: name)
                            = Raise (GitlabGetError detail)) ->
         cleanup unicode_lower env fs w proj data tr
         = (Raise AttributeError, tr ++ [CustomAttributesGet (c :: name)])).
Proof.
  intros H1 H2 Hb.
  assert (Hraise : match branch with
                   | PStr b => Ok (slugify unicode_lower b)
                   | _ => Raise AttributeError
                   end = Raise AttributeError).
  { destruct branch; try reflexivity. exfalso. apply (Hb s). reflexivity. }
  split.
  - intros Ha.
    unfold cleanup, get_image_delete_list, bind, lift, ret.
    known_names. destruct Ha as [Ha|Ha]; rewrite Ha; cbv beta iota;
      rewrite H1, H2, Hraise; reflexivity.
  - intros c name Ha Hv.
    unfold cleanup, get_image_delete_list, bind, lift, ret, try_except, invoke.
    known_names. rewrite Ha. cbv beta iota.
    destruct Hv as [[value Hv]|[detail Hv]]; rewrite Hv; cbv beta iota;
      rewrite H1, H2, Hraise; reflexivity.
Qed.

End Paths.

(** ** The further statements at concrete inputs *)

Section MoreInstances.

Import Fixture.

Lemma merged_request_passes : passes_headers (Some (lit "secret")) merged_request.
Proof.
  split; [reflexivity|]. exists (lit "Merge Request Hook"). split; reflexivity.
Defined.

Lemma merged_event_is_merged : merged_event_for merged_event (PInt 7).
Proof. do 6 eexists. repeat (split; [reflexivity|]). reflexivity. Defined.

Lemma merged_event_branch_and_path :
  branch_and_path merged_event (lit "fix-1") (PStr (lit "grp/app")).
Proof. do 2 eexists. repeat (split; [reflexivity|]). reflexivity. Defined.

Lemma slugify_keeps_well_formed_witness :
  well_formed_slug (lit "fix-1") = true
  /\ slugify no_table (lit "fix-1") = lit "fix-1".
Proof.
  assert (H : well_formed_slug (lit "fix-1") = true) by reflexivity.
  split; [exact H|]. exact (@slugify_keeps_well_formed no_table (lit "fix-1") H).
Defined.

Lemma slug_well_formed_with_two_alnum_witness :
  2 <= List.length (filter alnum (slugify no_table (lit "Feature/ABC_123!!")))
  /\ well_formed_slug (slugify no_table (lit "Feature/ABC_123!!")) = true.
Proof.
  assert (H : 2 <= List.length
                     (filter alnum (slugify no_table (lit "Feature/ABC_123!!"))))
    by (vm_compute; lia).
  split; [exact H|].
  exact (@slug_well_formed_with_two_alnum no_table (lit "Feature/ABC_123!!") H).
Defined.

Lemma format_without_percent_witness :
  Py.format (lit "registry/app") [(lit "branch", PStr (lit "fix-1"))]
  = Ok (lit "registry/app").
Proof.
  exact (@format_without_percent [(lit "branch", PStr (lit "fix-1"))]
                                 (lit "registry/app") eq_refl).
Defined.

Lemma format_composes_witness :
  Py.format (lit "%(project_path)s/" ++ lit "%(branch)s")
            [(lit "branch", PStr (lit "fix-1"));
             (lit "project_path", PStr (lit "grp/app"))]
  = rbind (Py.format (lit "%(branch)s")
                     [(lit "branch", PStr (lit "fix-1"));
                      (lit "project_path", PStr (lit "grp/app"))])
          (fun b' => Ok (lit "grp/app/" ++ b')).
Proof.
  exact (@format_composes [(lit "branch", PStr (lit "fix-1"));
                           (lit "project_path", PStr (lit "grp/app"))]
                          (lit "%(project_path)s/") (lit "%(branch)s")
                          (lit "grp/app/") eq_refl).
Defined.

Lemma format_placeholder_witness :
  Py.format (lit "%(" ++ lit "branch" ++ lit ")s" ++ lit "-img")
            [(lit "branch", PStr (lit "fix-1"))]
  = rbind (Py.format (lit "-img") [(lit "branch", PStr (lit "fix-1"))])
          (fun r => Ok (lit "fix-1" ++ r))
  /\ Py.format (lit "%(" ++ lit "tag" ++ lit ")" ++ lit "s")
               [(lit "branch", PStr (lit "fix-1"))]
     = Raise (KeyError (lit "tag")).
Proof.
  split.
  - exact (proj1 (@format_placeholder [(lit "branch", PStr (lit "fix-1"))]
                                      (lit "branch") eq_refl)
                 (PStr (lit "fix-1")) (lit "fix-1") (lit "-img")
                 eq_refl eq_refl).
  - exact (proj2 (@format_placeholder [(lit "branch", PStr (lit "fix-1"))]
                                      (lit "tag") eq_refl)
                 (lit "s") eq_refl).
Defined.

Lemma split_join_round_trip_witness :
  split 44%N (join 44%N [lit "grp/a"; []; lit "grp/b"])
  = [lit "grp/a"; []; lit "grp/b"].
Proof.
  apply (proj2 (split_join_round_trip 44%N)).
  - discriminate.
  - repeat constructor; simpl; intuition discriminate.
Defined.

Lemma secret_is_first_line_of_file_witness :
  exists secret rest,
    Config.get_secret full_env secret_files (lit "HOOK_TOKEN") = Ok (Some secret)
    /\ lit "secret" ++ [10%N] ++ lit "second line" = secret ++ rest
    /\ forallb (fun c => negb (is_linebreak c)) secret = true
    /\ match rest with
       | [] => True
       | c :: _ => is_linebreak c = true
       end.
Proof.
  apply (@secret_is_first_line_of_file full_env secret_files (lit "HOOK_TOKEN")
                                       (lit "/run/secrets/hook")).
  - reflexivity.
  - reflexivity.
  - discriminate.
Defined.

Lemma secret_file_has_no_fallback_witness :
  full_env (lit "HOOK_TOKEN") = Some (lit "unused")
  /\ Config.get_secret full_env no_files (lit "HOOK_TOKEN") = Raise OSError.
Proof.
  split; [reflexivity|].
  exact (proj1 (@secret_file_has_no_fallback
                  full_env no_files (lit "HOOK_TOKEN") (lit "/run/secrets/hook")
                  eq_refl) OSError eq_refl).
Defined.

Lemma createClient_needs_all_four_witness :
  exists user token jwt_url registry_url,
    full_env (lit "GITLAB_USER") = Some user
    /\ Config.get_secret full_env secret_files (lit "GITLAB_TOKEN")
       = Ok (Some token)
    /\ full_env (lit "GITLAB_JWT_URL") = Some jwt_url
    /\ full_env (lit "GITLAB_REGISTRY") = Some registry_url
    /\ (lit "cleaner", lit "glpat-1") = (user, token)
    /\ lit "https://gitlab.example.com/jwt/auth" = jwt_url
    /\ is_prefix (lit "http") (lit "https://registry.example.com") = true
    /\ lit "https://registry.example.com"
       = (if is_prefix (lit "http") registry_url then registry_url
          else lit "https://" ++ registry_url).
Proof.
  exact (@createClient_needs_all_four
           full_env secret_files
           (Build_registry_client (lit "cleaner", lit "glpat-1")
                                  (lit "https://gitlab.example.com/jwt/auth")
                                  (lit "https://registry.example.com"))
           eq_refl).
Defined.

Lemma createClient_missing_variable_witness :
  createClient env_without_jwt no_files = Raise missing_variable.
Proof.
  apply (@createClient_missing_variable env_without_jwt no_files
                                        (Some (lit "glpat-1"))).
  - reflexivity.
  - right. right. left. reflexivity.
Defined.


Lemma delete_image_cases_witness :
  (client_get_digest registry [] image_a v1 = Ok None
   /\ (lit "Image deleted", 200%Z) = (lit "Image not found", 404%Z)
   /\ [GetDigest image_a v1; DeleteImage image_a v1]
      = [] ++ [GetDigest image_a v1])
  \/ (exists digest deleted,
         client_get_digest registry [] image_a v1 = Ok (Some digest)
         /\ client_delete_image registry ([] ++ [GetDigest image_a v1]) image_a v1
            = Ok deleted
         /\ (lit "Image deleted", 200%Z)
            = (if deleted then (lit "Image deleted", 200%Z)
               else (lit "Image not deleted", 202%Z))
         /\ [GetDigest image_a v1; DeleteImage image_a v1]
            = [] ++ [GetDigest image_a v1; DeleteImage image_a v1]).
Proof.
  exact (@delete_image_cases registry image_a v1 [] (lit "Image deleted") 200%Z
                             [GetDigest image_a v1; DeleteImage image_a v1]
                             eq_refl).
Defined.

Lemma cleanup_calls_are_guarded_witness :
  exists ext, calls_a ++ [GetTags image_b] = [] ++ ext /\ guarded ext.
Proof.
  exact (@cleanup_calls_are_guarded
           no_table two_templates no_files registry proj merged_event []
           (Ok (JsonResponse (PList [deleted_v1; missing_v2; tags_not_found]) 404))
           (calls_a ++ [GetTags image_b]) eq_refl).
Defined.

Lemma validate_status_codes_witness :
  JsonResponse (PList [deleted_v1; missing_v2]) 404 = NoContentResponse
  \/ exists messages,
       body (JsonResponse (PList [deleted_v1; missing_v2]) 404)
       = Json (PList messages)
       /\ In (status (JsonResponse (PList [deleted_v1; missing_v2]) 404))
             [200; 202; 404; 500]%Z
       /\ Forall (fun c => In c [200; 202; 404; 500]%Z) (codes messages).
Proof.
  exact (@validate_status_codes
           no_table one_template no_files registry (Some (lit "secret"))
           merged_request []
           (JsonResponse (PList [deleted_v1; missing_v2]) 404)
           (ProjectsGet (PInt 7) :: calls_a) eq_refl).
Defined.

Lemma validate_calls_witness :
  ProjectsGet (PInt 7) :: calls_a = []
  \/ exists id ext,
       ProjectsGet (PInt 7) :: calls_a = [] ++ ProjectsGet id :: ext
       /\ guarded ext.
Proof.
  exact (@validate_calls
           no_table one_template no_files registry (Some (lit "secret"))
           merged_request []
           (Ok (JsonResponse (PList [deleted_v1; missing_v2]) 404))
           (ProjectsGet (PInt 7) :: calls_a) eq_refl).
Defined.

Lemma event_header_not_allowed_witness :
  validate no_table (env_of []) no_files registry (Some (lit "secret"))
           (post (Some (lit "secret")) (Some (lit "Push Hook")) (Ok merged_event))
           []
  = (Ok NoContentResponse, []).
Proof.
  apply (@event_header_not_allowed no_table (env_of []) no_files registry).
  intros e H. injection H as <-. reflexivity.
Defined.

Lemma registry_disabled_no_content_witness :
  validate no_table (env_of []) no_files
           (registry_with (Ok (registry_project false))
                          (Raise (GitlabGetError (lit "404"))))
           (Some (lit "secret")) merged_request []
  = (Ok NoContentResponse, [] ++ [ProjectsGet (PInt 7)]).
Proof.
  apply (@registry_disabled_no_content
           no_table (env_of []) no_files
           (registry_with (Ok (registry_project false))
                          (Raise (GitlabGetError (lit "404"))))
           (Some (lit "secret")) merged_request merged_event (PInt 7) []
           (registry_project false) (PBool false)
           merged_request_passes eq_refl merged_event_is_merged);
    reflexivity.
Defined.

Lemma project_lookup_failure_raises_witness :
  validate no_table (env_of []) no_files
           (registry_with (Raise (GitlabGetError (lit "404 Project Not Found")))
                          (Raise (GitlabGetError (lit "404"))))
           (Some (lit "secret")) merged_request []
  = (Raise (GitlabGetError (lit "404 Project Not Found")),
     [] ++ [ProjectsGet (PInt 7)]).
Proof.
  apply (proj1 (@project_lookup_failure_raises
                  no_table (env_of []) no_files
                  (registry_with
                     (Raise (GitlabGetError (lit "404 Project Not Found")))
                     (Raise (GitlabGetError (lit "404"))))
                  (Some (lit "secret")) merged_request merged_event (PInt 7) []
                  merged_request_passes eq_refl merged_event_is_merged)).
  reflexivity.
Defined.

Lemma accepted_request_is_cleaned_witness :
  validate no_table one_template no_files registry (Some (lit "secret"))
           merged_request []
  = cleanup no_table one_template no_files registry proj merged_event
            ([] ++ [ProjectsGet (PInt 7)]).
Proof.
  apply (@accepted_request_is_cleaned
           no_table one_template no_files registry
           (Some (lit "secret")) merged_request merged_event (PInt 7) []
           proj (PBool true)
           merged_request_passes eq_refl merged_event_is_merged);
    reflexivity.
Defined.

Lemma body_not_an_object_witness :
  validate no_table (env_of []) no_files registry (Some (lit "secret"))
           (post (Some (lit "secret")) (Some (lit "System Hook")) (Ok PNone)) []
  = (match Py.contains PNone (lit "event_type") with
     | Ok false => Ok NoContentResponse
     | _ => Raise TypeError
     end, []).
Proof.
  apply (@body_not_an_object no_table (env_of []) no_files registry).
  - split; [reflexivity|]. exists (lit "System Hook"). split; reflexivity.
  - reflexivity.
  - discriminate.
Defined.

Lemma get_tags_error_is_raised_witness :
  cleanup no_table one_template no_files unreachable_registry proj
          merged_event []
  = (Raise (HTTPError (lit "502 Bad Gateway")), [] ++ [GetTags image_a]).
Proof.
  apply (@get_tags_error_is_raised
           no_table one_template no_files unreachable_registry proj
           merged_event [] [] [] image_a [] ([], 200%Z) []);
    reflexivity.
Defined.

Lemma empty_tag_list_goes_on_witness :
  for_images empty_registry [Ok image_a; Ok image_b] ([], 200%Z) []
  = for_images empty_registry [Ok image_b] ([], 200%Z) ([] ++ [GetTags image_a]).
Proof.
  apply (@empty_tag_list_goes_on
           empty_registry image_a [Ok image_b] ([], 200%Z) []
           [(lit "name", PStr (lit "repo")); (lit "tags", PList [])]);
    reflexivity.
Defined.

Lemma bad_template_piece_raises_when_reached_witness :
  cleanup no_table
          (env_of [(lit "IMAGE_NAME_TEMPLATE",
                    lit "%(project_path)s/a,%(missing)s")])
          no_files registry proj merged_event []
  = (Raise (KeyError (lit "missing")), calls_a).
Proof.
  apply (@bad_template_piece_raises_when_reached
           no_table
           (env_of [(lit "IMAGE_NAME_TEMPLATE",
                     lit "%(project_path)s/a,%(missing)s")])
           no_files registry proj merged_event []
           [Ok image_a] [] [] ([deleted_v1; missing_v2], 404%Z) calls_a);
    reflexivity.
Defined.

Lemma project_attribute_is_the_template_witness :
  get_image_delete_list
    no_table attribute_env no_files
    (registry_with (Ok proj) (Ok (lit "mirror/%(branch)s")))
    proj merged_event []
  = (Ok (images_of no_table (lit "mirror/%(branch)s") (lit "fix-1")
                   (PStr (lit "grp/app"))),
     [] ++ [CustomAttributesGet (lit "registry_image")]).
Proof.
  apply (@project_attribute_is_the_template
           no_table attribute_env no_files
           (registry_with (Ok proj) (Ok (lit "mirror/%(branch)s")))
           proj merged_event [] 114%N (lit "egistry_image")
           (lit "mirror/%(branch)s") (lit "fix-1") (PStr (lit "grp/app")));
    [reflexivity|reflexivity|exact merged_event_branch_and_path].
Defined.

Lemma attribute_not_found_falls_back_witness :
  get_image_delete_list
    no_table attribute_env no_files registry proj merged_event []
  = (Ok (images_of no_table (lit "%(project_path)s/a") (lit "fix-1")
                   (PStr (lit "grp/app"))),
     [] ++ [CustomAttributesGet (lit "registry_image")]).
Proof.
  apply (proj1 (@attribute_not_found_falls_back
                  no_table attribute_env no_files registry proj merged_event []
                  (lit "fix-1") (PStr (lit "grp/app"))
                  merged_event_branch_and_path)
               114%N (lit "egistry_image") (lit "404"));
    reflexivity.
Defined.

Lemma attribute_lookup_error_is_raised_witness :
  cleanup no_table attribute_env no_files
          (registry_with (Ok proj) (Raise (OtherError (lit "401 Unauthorized"))))
          proj merged_event []
  = (Raise (OtherError (lit "401 Unauthorized")),
     [] ++ [CustomAttributesGet (lit "registry_image")]).
Proof.
  apply (@attribute_lookup_error_is_raised
           no_table attribute_env no_files
           (registry_with (Ok proj)
                          (Raise (OtherError (lit "401 Unauthorized"))))
           proj merged_event [] 114%N (lit "egistry_image")).
  - reflexivity.
  - reflexivity.
  - discriminate.
Defined.

Lemma branch_not_a_string_raises_witness :
  cleanup no_table (env_of []) no_files registry proj numbered_event []
  = (Raise AttributeError, [])
  /\ cleanup no_table attribute_env no_files registry proj numbered_event []
     = (Raise AttributeError, [] ++ [CustomAttributesGet (lit "registry_image")]).
Proof.
  split.
  - apply (proj1 (@branch_not_a_string_raises
                    no_table (env_of []) no_files registry proj numbered_event
                    (PDict [(lit "source_branch", PInt 42)]) (PInt 42) []
                    eq_refl eq_refl
                    (fun b (H : PInt 42 = PStr b) =>
                       eq_ind (PInt 42)
                              (fun v => match v with PInt _ => True | _ => False end)
                              I (PStr b) H))).
    left. reflexivity.
  - apply (proj2 (@branch_not_a_string_raises
                    no_table attribute_env no_files registry proj numbered_event
                    (PDict [(lit "source_branch", PInt 42)]) (PInt 42) []
                    eq_refl eq_refl
                    (fun b (H : PInt 42 = PStr b) =>
                       eq_ind (PInt 42)
                              (fun v => match v with PInt _ => True | _ => False end)
                              I (PStr b) H))
                 114%N (lit "egistry_image")).
    + reflexivity.
    + right. exists (lit "404"). reflexivity.
Defined.

End MoreInstances.

(** ** No hook token configured *)

Section TokenUnset.

Variable unicode_lower : str -> str.
Variable env : Config.environ.
Variable fs : Config.files.
Variable w : world.

(** C9. With neither HOOK_TOKEN nor HOOK_TOKEN_FILE in the environment
    the configured token is [None]; a request without the token header
    then passes the token check: it is handled as a request carrying the
    right token is when one is configured, and when it is a merged merge
    request with an allowed event header the project is fetched and, if
    its registry is enabled, [validate] returns what [cleanup] returns. *)
Theorem unset_token_accepts_missing_header (req : request) :
  env (lit "HOOK_TOKEN_FILE") = None ->
  env (lit "HOOK_TOKEN") = None ->
  get_header req (lit "X-GITLAB-TOKEN") = None ->
  Config.get env fs (lit "HOOK_TOKEN") None = Ok None
  /\ opt_str_eqb (get_header req (lit "X-GITLAB-TOKEN")) None = true
  /\ (forall t tr,
         validate unicode_lower env fs w None req tr
         = validate unicode_lower env fs w (Some t)
                    (with_header (lit "X-GITLAB-TOKEN") t req) tr)
  /\ (forall e data id tr,
         get_header req (lit "X-GITLAB-EVENT") = Some e ->
         existsb (str_eqb e) event_hooks = true ->
         json req = Ok data ->
         merged_event_for data id ->
         (exists r ext,
             validate unicode_lower env fs w None req tr
             = (r, tr ++ ProjectsGet id :: ext))
         /\ (forall proj enabled,
                gl_projects_get w tr id = Ok proj ->
                Py.getitem (attributes proj) (lit "container_registry_enabled")
                = Ok enabled ->
                Py.truthy enabled = true ->
                validate unicode_lower env fs w None req tr
                = cleanup unicode_lower env fs w proj data
                          (tr ++ [ProjectsGet id]))).
Proof.
  intros Hfile Hvar Hreq. split; [|split; [|split]].
  - unfold Config.get, Config.get_secret. cbn [str_eqb lit].
    change (lit "HOOK_TOKEN" ++ lit "_FILE") with (lit "HOOK_TOKEN_FILE").
    rewrite Hfile, Hvar. reflexivity.
  - rewrite Hreq. reflexivity.
  - intros t tr. unfold validate. rewrite Hreq.
    cbn [with_header get_header json].
    change (str_eqb (lit "X-GITLAB-TOKEN") (lit "X-GITLAB-TOKEN")) with true.
    change (str_eqb (lit "X-GITLAB-EVENT") (lit "X-GITLAB-TOKEN")) with false.
    cbn [opt_str_eqb]. rewrite str_eqb_refl. reflexivity.
  - intros e data id tr He Hin Hj Hm.
    assert (Hpass : passes_headers None req).
    { split; [exact Hreq|]. exists e. split; assumption. }
    rewrite (validate_merged unicode_lower env fs w tr Hpass Hj Hm).
    unfold bind, invoke, lift, ret. split.
    + destruct (gl_projects_get w tr id) as [proj| |];
        try (eexists; exists []; reflexivity).
      destruct (Py.getitem (attributes proj) (lit "container_registry_enabled"))
        as [enabled| |]; try (eexists; exists []; reflexivity).
      destruct (negb (Py.truthy enabled)); [eexists; exists []; reflexivity|].
      destruct (cleanup unicode_lower env fs w proj data (tr ++ [ProjectsGet id]))
        as [r tr'] eqn:Hc.
      destruct (@traced_cleanup unicode_lower env fs w proj data _ _ _ Hc)
        as [ext [E _]].
      exists r, ext. rewrite E, <- app_assoc. reflexivity.
    + intros proj enabled Hp Hen Ht. rewrite Hp, Hen, Ht. reflexivity.
Qed.

End TokenUnset.

Section TokenUnsetInstance.

Import Fixture.

Lemma unset_token_accepts_missing_header_witness :
  env_of [] (lit "HOOK_TOKEN_FILE") = None
  /\ env_of [] (lit "HOOK_TOKEN") = None
  /\ get_header anonymous_request (lit "X-GITLAB-TOKEN") = None
  /\ Config.get (env_of []) no_files (lit "HOOK_TOKEN") None = Ok None
  /\ validate no_table one_template no_files registry None anonymous_request []
     = cleanup no_table one_template no_files registry proj merged_event
               ([] ++ [ProjectsGet (PInt 7)])
  /\ cleanup no_table one_template no_files registry proj merged_event
             ([] ++ [ProjectsGet (PInt 7)])
     = (Ok (JsonResponse (PList [deleted_v1; missing_v2]) 404),
        ProjectsGet (PInt 7) :: calls_a).
Proof.
  assert (H1 : env_of [] (lit "HOOK_TOKEN_FILE") = None) by reflexivity.
  assert (H2 : env_of [] (lit "HOOK_TOKEN") = None) by reflexivity.
  assert (H3 : get_header anonymous_request (lit "X-GITLAB-TOKEN") = None)
    by reflexivity.
  assert (H1' : one_template (lit "HOOK_TOKEN_FILE") = None) by reflexivity.
  assert (H2' : one_template (lit "HOOK_TOKEN") = None) by reflexivity.
  destruct (@unset_token_accepts_missing_header no_table (env_of []) no_files
                                                registry anonymous_request
                                                H1 H2 H3)
    as [Hc _].
  destruct (@unset_token_accepts_missing_header no_table one_template no_files
                                                registry anonymous_request
                                                H1' H2' H3)
    as [_ [_ [_ Hrun]]].
  split; [exact H1|]. split; [exact H2|]. split; [exact H3|].
  split; [exact Hc|]. split; [|reflexivity].
  exact (proj2 (Hrun (lit "Merge Request Hook") merged_event (PInt 7) []
                     eq_refl eq_refl eq_refl merged_event_is_merged)
               proj (PBool true) eq_refl eq_refl eq_refl).
Defined.

End TokenUnsetInstance.
